(** * JOS: syscall layer, copy-on-write fork and the E1000 ring driver

    A shallow embedding of [kern/syscall.c], [lib/fork.c] and
    [kern/e1000.c].  C integers are [Z] with the wrap-around of their width
    written out, bit operations are [Z.land], [Z.lor] and [Z.lnot].  The
    fixed-size kernel tables that C indexes through a mask ([envs], [pages],
    the page directory and the page tables) are total functions on slot
    numbers; the descriptor rings, which C indexes with a value read back
    from a device register, are lists, and an index outside the list is the
    undefined behaviour the model reports as [None]. *)

From Stdlib Require Import ZArith Lia Bool.
From Stdlib.Strings Require Import Byte.
From stdpp Require Import base list.

Local Open Scope Z_scope.

(** ** Machine integers *)

Definition u8 (x : Z) : Z := x mod 2 ^ 8.
Definition u16 (x : Z) : Z := x mod 2 ^ 16.
Definition u32 (x : Z) : Z := x mod 2 ^ 32.

(** [int32_t]: the two's-complement reading of the low 32 bits. *)
Definition s32 (x : Z) : Z :=
  let y := u32 x in if y <? 2 ^ 31 then y else y - 2 ^ 32.

(** ** Error codes and syscall results *)

(** Modelled from the spec: [inc/error.h] is not among the sources.  The
    codes are the enum constants the sources name; a function that returns
    [-E_x] returns [Neg E_x] here, so that "negative values are distinguished
    error codes and non-negative values are success payloads" holds by
    construction. *)
Inductive error : Set :=
| E_BAD_ENV
| E_INVAL
| E_NO_MEM
| E_NO_FREE_ENV
| E_IPC_NOT_RECV
| E_NET_QUEUE_FULL
| E_NET_QUEUE_EMPTY.

Inductive sysret : Set :=
| Ret (v : Z)
| Neg (e : error).

(** [a[i]] for a C array kept as a list. *)
Definition at_index {A} (l : list A) (i : Z) : option A :=
  if i <? 0 then None else l !! Z.to_nat i.

(** [a[i] = x]. *)
Definition set_index {A} (l : list A) (i : Z) (x : A) : list A :=
  <[Z.to_nat i := x]> l.

(** [memcpy(dst, src, n)]: [dst] and [src] are the bytes of memory from the
    two pointers on, and the first [n] bytes of [src] take the place of the
    first [n] bytes of [dst].  A caller hands over the memory that [src]
    points into as far as the [n] bytes reach. *)
Definition memcpy (dst src : list byte) (n : Z) : list byte :=
  take (Z.to_nat n) src ++ drop (Z.to_nat n) dst.

(** ** The E1000 descriptor rings ([kern/e1000.c]) *)

Module E1000.

Definition E1000_REG_INDEX (offset : Z) : Z := offset / 4.

Definition E1000_TX_DESCRIPTORS_COUNT : Z := 64.
Definition E1000_TX_BUFFER_SIZE : Z := 2048.
Definition E1000_RX_DESCRIPTORS_COUNT : Z := 128.
Definition E1000_RX_BUFFER_SIZE : Z := 2048.

Definition E1000_TX_DX_STAT_DD : Z := 0x01.
Definition E1000_TXD_CMD_RS : Z := 0x08.
Definition E1000_TXD_CMD_EOP : Z := 0x01.

Definition E1000_RCTL : Z := E1000_REG_INDEX 0x00100.
Definition E1000_TCTL : Z := E1000_REG_INDEX 0x00400.
Definition E1000_TIPG : Z := E1000_REG_INDEX 0x00410.
Definition E1000_RDBAL : Z := E1000_REG_INDEX 0x02800.
Definition E1000_RDBAH : Z := E1000_REG_INDEX 0x02804.
Definition E1000_RDLEN : Z := E1000_REG_INDEX 0x02808.
Definition E1000_RDH : Z := E1000_REG_INDEX 0x02810.
Definition E1000_RDT : Z := E1000_REG_INDEX 0x02818.
Definition E1000_TDBAL : Z := E1000_REG_INDEX 0x03800.
Definition E1000_TDBAH : Z := E1000_REG_INDEX 0x03804.
Definition E1000_TDLEN : Z := E1000_REG_INDEX 0x03808.
Definition E1000_TDH : Z := E1000_REG_INDEX 0x03810.
Definition E1000_TDT : Z := E1000_REG_INDEX 0x03818.
Definition E1000_MTA : Z := E1000_REG_INDEX 0x05200.

(** [sizeof] of either descriptor. *)
Definition DESC_SIZE : Z := 16.

(** The [raw] view of the three control words the driver writes, bit
    fields laid out from the least significant bit: [TCTL] with [EN],
    [PSP], [CT = 0x10], [COLD = 0x40]; [TIPG] with [IPGT = 8]; [RCTL] with
    [EN], [BAM], [BSIZE = 0], [SECRC]. *)
Definition tctl_raw : Z :=
  Z.lor (Z.shiftl 1 1) (Z.lor (Z.shiftl 1 3) (Z.lor (Z.shiftl 0x10 4) (Z.shiftl 0x40 12))).
Definition tipg_raw : Z := 8.
Definition rctl_raw : Z :=
  Z.lor (Z.shiftl 1 1) (Z.lor (Z.shiftl 1 15) (Z.shiftl 1 26)).

(** [union e1000_tx_desc], through its [fields] view. *)
Record e1000_tx_desc : Set := mk_tx_desc {
  txd_buffer_addr : Z;
  txd_length : Z;
  txd_cso : Z;
  txd_cmd : Z;
  txd_status : Z;
  txd_css : Z;
  txd_special : Z
}.

Record e1000_rx_desc : Set := mk_rx_desc {
  rxd_buffer_addr : Z;
  rxd_length : Z;
  rxd_csum : Z;
  rxd_status : Z;
  rxd_errors : Z;
  rxd_special : Z
}.

(** The driver's globals: the memory-mapped register block and the four
    statically allocated arrays.  [after_receive_buffers] is the kernel
    memory that lies behind the last element of [receive_buffers], byte by
    byte: [memcpy] reads it when a descriptor's length reaches beyond the
    array. *)
Record device : Type := mk_device {
  e1000_dma_io : Z -> Z;
  tx_descriptor_ring : list e1000_tx_desc;
  tx_buffers : list (list byte);
  receive_descriptor_ring : list e1000_rx_desc;
  receive_buffers : list (list byte);
  after_receive_buffers : nat -> byte
}.

Definition reg_write (io : Z -> Z) (r v : Z) : Z -> Z :=
  fun r' => if r' =? r then v else io r'.

Definition set_io (d : device) (io : Z -> Z) : device :=
  mk_device io (tx_descriptor_ring d) (tx_buffers d)
            (receive_descriptor_ring d) (receive_buffers d)
            (after_receive_buffers d).

Definition set_tx (d : device) (ring : list e1000_tx_desc)
    (bufs : list (list byte)) : device :=
  mk_device (e1000_dma_io d) ring bufs
            (receive_descriptor_ring d) (receive_buffers d)
            (after_receive_buffers d).

Definition set_rx_ring (d : device) (ring : list e1000_rx_desc) : device :=
  mk_device (e1000_dma_io d) (tx_descriptor_ring d) (tx_buffers d)
            ring (receive_buffers d) (after_receive_buffers d).

Definition tx_set_status (t : e1000_tx_desc) (st : Z) : e1000_tx_desc :=
  mk_tx_desc (txd_buffer_addr t) (txd_length t) (txd_cso t) (txd_cmd t)
             st (txd_css t) (txd_special t).

Definition tx_set_length (t : e1000_tx_desc) (len : Z) : e1000_tx_desc :=
  mk_tx_desc (txd_buffer_addr t) len (txd_cso t) (txd_cmd t)
             (txd_status t) (txd_css t) (txd_special t).

Definition rx_set_status (r : e1000_rx_desc) (st : Z) : e1000_rx_desc :=
  mk_rx_desc (rxd_buffer_addr r) (rxd_length r) (rxd_csum r) st
             (rxd_errors r) (rxd_special r).

(** [e1000_try_transmit_packet].  [packet_data] is the memory the pointer
    addresses. *)
Definition e1000_try_transmit_packet (d : device) (packet_data : list byte)
    (packet_size : Z) : option (device * sysret) :=
  if E1000_TX_BUFFER_SIZE <? packet_size then Some (d, Neg E_INVAL)
  else
    let tail_index := e1000_dma_io d E1000_TDT in
    match at_index (tx_descriptor_ring d) tail_index with
    | None => None
    | Some current_descriptor =>
        if Z.land (txd_status current_descriptor) E1000_TX_DX_STAT_DD =? 0
        then Some (d, Neg E_NET_QUEUE_FULL)
        else
          let desc1 :=
            tx_set_status current_descriptor
              (u8 (Z.land (txd_status current_descriptor)
                          (Z.lnot E1000_TX_DX_STAT_DD))) in
          let desc2 := tx_set_length desc1 (u16 packet_size) in
          match at_index (tx_buffers d) tail_index with
          | None => None
          | Some buf =>
              let buf' := memcpy buf packet_data packet_size in
              let d1 :=
                set_tx d (set_index (tx_descriptor_ring d) tail_index desc2)
                         (set_index (tx_buffers d) tail_index buf') in
              Some (set_io d1
                      (reg_write (e1000_dma_io d1) E1000_TDT
                         (u32 (tail_index + 1) mod E1000_TX_DESCRIPTORS_COUNT)),
                    Ret 0)
          end
    end.

(** What a call of [e1000_try_recv_packet] leaves behind: the device, the
    caller's buffer, the cell behind [packet_size] ([None] for a NULL
    pointer) and the returned [int]. *)
Record recv_outcome : Type := mk_recv {
  recv_dev : device;
  recv_buffer : list byte;
  recv_packet_size : option Z;
  recv_ret : sysret
}.

(** The memory at [&receive_buffers[i]], as far as a [memcpy] of [n] bytes
    reads it.  [rbuf] is element [i] of the array.  A length within the
    [E1000_RX_BUFFER_SIZE] bytes of the element stays inside it; a longer
    one runs on through the elements that follow, which lie one after the
    other in memory, and from the end of the array into the memory behind
    it. *)
Definition receive_buffers_from (d : device) (i : Z) (rbuf : list byte) (n : Z)
    : list byte :=
  if n <=? E1000_RX_BUFFER_SIZE then rbuf
  else
    let array_rest :=
      rbuf ++ concat (drop (S (Z.to_nat i)) (receive_buffers d)) in
    array_rest
      ++ map (after_receive_buffers d)
             (seq 0 (Z.to_nat n - length array_rest)).

Definition e1000_try_recv_packet (d : device) (buffer : list byte)
    (buffer_size : Z) (packet_size : option Z) : option recv_outcome :=
  let tail_index :=
    u32 (e1000_dma_io d E1000_RDT + 1) mod E1000_RX_DESCRIPTORS_COUNT in
  match at_index (receive_descriptor_ring d) tail_index with
  | None => None
  | Some current_descriptor =>
      if Z.land (rxd_status current_descriptor) E1000_TX_DX_STAT_DD =? 0
      then Some (mk_recv d buffer packet_size (Neg E_NET_QUEUE_EMPTY))
      else
        let packet_size' :=
          match packet_size with
          | Some _ => Some (rxd_length current_descriptor)
          | None => None
          end in
        if buffer_size <? rxd_length current_descriptor
        then Some (mk_recv d buffer packet_size' (Neg E_INVAL))
        else
          match at_index (receive_buffers d) tail_index with
          | None => None
          | Some rbuf =>
              let buffer' :=
                memcpy buffer
                  (receive_buffers_from d tail_index rbuf
                     (rxd_length current_descriptor))
                  (rxd_length current_descriptor) in
              let desc' :=
                rx_set_status current_descriptor
                  (u8 (Z.land (rxd_status current_descriptor)
                              (Z.lnot E1000_TX_DX_STAT_DD))) in
              let d1 :=
                set_rx_ring d
                  (set_index (receive_descriptor_ring d) tail_index desc') in
              Some (mk_recv
                      (set_io d1 (reg_write (e1000_dma_io d1) E1000_RDT tail_index))
                      buffer' packet_size' (Ret 0))
          end
  end.

(** [e1000_init_transmit_ring] and [e1000_init_receive_ring].  The physical
    addresses that [PADDR] gives for the two rings and the two buffer
    arrays are parameters. *)
Definition init_tx_desc (bufs_pa : Z) (i : nat) (t : e1000_tx_desc) : e1000_tx_desc :=
  mk_tx_desc (bufs_pa + Z.of_nat i * E1000_TX_BUFFER_SIZE) (txd_length t) (txd_cso t)
    (u8 (Z.lor (txd_cmd t) (Z.lor E1000_TXD_CMD_EOP E1000_TXD_CMD_RS)))
    (u8 (Z.lor (txd_status t) E1000_TX_DX_STAT_DD))
    (txd_css t) (txd_special t).

Definition init_rx_desc (bufs_pa : Z) (i : nat) (r : e1000_rx_desc) : e1000_rx_desc :=
  mk_rx_desc (bufs_pa + Z.of_nat i * E1000_RX_BUFFER_SIZE) (rxd_length r) (rxd_csum r)
    (u8 (Z.land (rxd_status r) (Z.lnot E1000_TX_DX_STAT_DD)))
    (rxd_errors r) (rxd_special r).

Definition e1000_init_transmit_ring (ring_pa bufs_pa : Z) (d : device) : device :=
  let io := e1000_dma_io d in
  let io := reg_write io E1000_TDBAL (u32 ring_pa) in
  let io := reg_write io E1000_TDBAH 0 in
  let io := reg_write io E1000_TDLEN (E1000_TX_DESCRIPTORS_COUNT * DESC_SIZE) in
  let ring := imap (init_tx_desc bufs_pa) (tx_descriptor_ring d) in
  let io := reg_write io E1000_TDH 0 in
  let io := reg_write io E1000_TDT 0 in
  let io := reg_write io E1000_TCTL tctl_raw in
  let io := reg_write io E1000_TIPG tipg_raw in
  set_io (set_tx d ring (tx_buffers d)) io.

Definition e1000_init_receive_ring (ring_pa bufs_pa : Z) (d : device) : device :=
  let io := e1000_dma_io d in
  let io := reg_write io E1000_MTA 0 in
  let io := reg_write io E1000_RDBAL (u32 ring_pa) in
  let io := reg_write io E1000_RDBAH 0 in
  let io := reg_write io E1000_RDLEN (E1000_RX_DESCRIPTORS_COUNT * DESC_SIZE) in
  let io := reg_write io E1000_RDH 0 in
  let io := reg_write io E1000_RDT (E1000_RX_DESCRIPTORS_COUNT - 1) in
  let ring := imap (init_rx_desc bufs_pa) (receive_descriptor_ring d) in
  let io := reg_write io E1000_RCTL rctl_raw in
  set_io (set_rx_ring d ring) io.

(** The globals as the loader leaves them, all zero, and the device after
    [e1000_pci_attach] has run the two initialisations. *)
Definition zero_tx_desc : e1000_tx_desc := mk_tx_desc 0 0 0 0 0 0 0.
Definition zero_rx_desc : e1000_rx_desc := mk_rx_desc 0 0 0 0 0 0.

Definition zero_device : device :=
  mk_device (fun _ => 0)
    (replicate (Z.to_nat E1000_TX_DESCRIPTORS_COUNT) zero_tx_desc)
    (replicate (Z.to_nat E1000_TX_DESCRIPTORS_COUNT)
               (replicate (Z.to_nat E1000_TX_BUFFER_SIZE) x00%byte))
    (replicate (Z.to_nat E1000_RX_DESCRIPTORS_COUNT) zero_rx_desc)
    (replicate (Z.to_nat E1000_RX_DESCRIPTORS_COUNT)
               (replicate (Z.to_nat E1000_RX_BUFFER_SIZE) x00%byte))
    (fun _ => x00%byte).

Definition attached_device (tx_ring_pa tx_bufs_pa rx_ring_pa rx_bufs_pa : Z) : device :=
  e1000_init_receive_ring rx_ring_pa rx_bufs_pa
    (e1000_init_transmit_ring tx_ring_pa tx_bufs_pa zero_device).

(** The card's side of the receive ring: a frame stored by DMA into slot
    [i], with its length and the done flag written back. *)
Definition nic_stores_frame (d : device) (i : Z) (frame : list byte) : device :=
  match at_index (receive_descriptor_ring d) i, at_index (receive_buffers d) i with
  | Some r, Some rbuf =>
      mk_device (e1000_dma_io d) (tx_descriptor_ring d) (tx_buffers d)
        (set_index (receive_descriptor_ring d) i
           (mk_rx_desc (rxd_buffer_addr r) (Z.of_nat (length frame)) (rxd_csum r)
                       (Z.lor (rxd_status r) E1000_TX_DX_STAT_DD)
                       (rxd_errors r) (rxd_special r)))
        (set_index (receive_buffers d) i
           (memcpy rbuf frame (Z.of_nat (length frame))))
        (after_receive_buffers d)
  | _, _ => d
  end.

(** The transmit ring has its declared size and the tail register holds an
    index into it. *)
Record tx_ring_ok (d : device) : Prop := {
  tx_ring_len : length (tx_descriptor_ring d) = Z.to_nat E1000_TX_DESCRIPTORS_COUNT;
  tx_bufs_len : length (tx_buffers d) = Z.to_nat E1000_TX_DESCRIPTORS_COUNT;
  tdt_range : 0 <= e1000_dma_io d E1000_TDT < E1000_TX_DESCRIPTORS_COUNT
}.

(** The same for the receive ring, whose slots [net/input.c] and the card
    walk one after the other. *)
Record rx_ring_ok (d : device) : Prop := {
  rx_ring_len :
    length (receive_descriptor_ring d) = Z.to_nat E1000_RX_DESCRIPTORS_COUNT;
  rx_bufs_len :
    length (receive_buffers d) = Z.to_nat E1000_RX_DESCRIPTORS_COUNT
}.

Definition E1000_STATUS : Z := E1000_REG_INDEX 0x00008.

(** [e1000_pci_attach], from the register block [io] on that
    [mmio_map_region] has returned ([pci_func_enable] and
    [mmio_map_region] are not among the sources).  [None] is the failed
    [assert] on the status register; the [int] returned is 0. *)
Definition e1000_pci_attach (io : Z -> Z)
    (tx_ring_pa tx_bufs_pa rx_ring_pa rx_bufs_pa : Z) (d : device)
    : option (device * Z) :=
  let d := set_io d io in
  if e1000_dma_io d E1000_STATUS =? 0x80080783 then
    Some (e1000_init_receive_ring rx_ring_pa rx_bufs_pa
            (e1000_init_transmit_ring tx_ring_pa tx_bufs_pa d), 0)
  else None.

(** Successive calls of [e1000_try_transmit_packet], one for each packet
    with its size, and the values they return, in order. *)
Fixpoint transmit_packets (d : device) (pkts : list (list byte * Z))
    : option (device * list sysret) :=
  match pkts with
  | [] => Some (d, [])
  | (packet_data, packet_size) :: rest =>
      match e1000_try_transmit_packet d packet_data packet_size with
      | None => None
      | Some (d1, r) =>
          match transmit_packets d1 rest with
          | None => None
          | Some (d2, rs) => Some (d2, r :: rs)
          end
      end
  end.

End E1000.

(** ** The kernel: environments, physical pages, address spaces *)

Module Kern.

(** *** Constants of [inc/mmu.h], [inc/memlayout.h] and [inc/env.h] *)

(** Modelled from the spec: [inc/mmu.h] is not among the sources.  Page size
    and the "present", "writable" and "user-accessible" bits are those of the
    x86 page-table entry; [PTE_SYSCALL] is the allowed set the comment of
    [sys_page_alloc] spells out ([PTE_U | PTE_P] must be set,
    [PTE_AVAIL | PTE_W] may be set, nothing else). *)
Definition PGSIZE : Z := 4096.
Definition PGSHIFT : Z := 12.
Definition PDXSHIFT : Z := 22.
Definition PTE_P : Z := 0x001.
Definition PTE_W : Z := 0x002.
Definition PTE_U : Z := 0x004.
Definition PTE_AVAIL : Z := 0xE00.
Definition PTE_SYSCALL : Z := Z.lor PTE_AVAIL (Z.lor PTE_P (Z.lor PTE_W PTE_U)).

(** [lib/fork.c]: one of the bits of [PTE_AVAIL]. *)
Definition PTE_COW : Z := 0x800.

(** Modelled from the spec: the address macros of [inc/mmu.h], which is
    not among the sources: page number, page-directory index and the
    physical address part of an entry. *)
Definition PGNUM (la : Z) : Z := Z.shiftr la PGSHIFT.
Definition PDX (la : Z) : Z := Z.land (Z.shiftr la PDXSHIFT) 0x3FF.
Definition PTE_ADDR (pte : Z) : Z := Z.land pte (Z.lnot 0xFFF).

(** Modelled from the spec: [inc/memlayout.h] is not among the sources.
    [UTOP] is the user/kernel split; the user exception stack is the page
    right below it. *)
Definition UTOP : Z := 0xeec00000.
Definition UXSTACKTOP : Z := UTOP.
Definition USTACKTOP : Z := UTOP - 2 * PGSIZE.

(** Modelled from the spec: [inc/env.h] is not among the sources.  An
    environment handle is "index + incarnation counter": the low [LOG2NENV]
    bits index the table, the bits from [ENVGENSHIFT] up count
    incarnations. *)
Definition LOG2NENV : Z := 10.
Definition NENV : Z := Z.shiftl 1 LOG2NENV.
Definition ENVGENSHIFT : Z := 12.
Definition ENVX (envid : Z) : Z := Z.land envid (NENV - 1).

(** Modelled from the spec: the run states of section 3. *)
Inductive env_status_t : Set :=
| ENV_FREE
| ENV_DYING
| ENV_RUNNABLE
| ENV_NOT_RUNNABLE.

(** Modelled from the spec: [inc/trap.h] is not among the sources; the saved
    register state is the x86 [pusha] block and the trap frame around it. *)
Record PushRegs : Set := mk_regs {
  reg_edi : Z; reg_esi : Z; reg_ebp : Z; reg_oesp : Z;
  reg_ebx : Z; reg_edx : Z; reg_ecx : Z; reg_eax : Z
}.

Record Trapframe : Set := mk_tf {
  tf_regs : PushRegs;
  tf_es : Z; tf_ds : Z; tf_trapno : Z; tf_err : Z;
  tf_eip : Z; tf_cs : Z; tf_eflags : Z; tf_esp : Z; tf_ss : Z
}.

Definition set_eax (tf : Trapframe) (v : Z) : Trapframe :=
  let r := tf_regs tf in
  mk_tf (mk_regs (reg_edi r) (reg_esi r) (reg_ebp r) (reg_oesp r)
                 (reg_ebx r) (reg_edx r) (reg_ecx r) v)
        (tf_es tf) (tf_ds tf) (tf_trapno tf) (tf_err tf)
        (tf_eip tf) (tf_cs tf) (tf_eflags tf) (tf_esp tf) (tf_ss tf).

(** An address space below [UTOP], as user code reads it through [uvpd] and
    [uvpt]: the page-directory entries by [PDX] and the page-table entries
    by [PGNUM]. *)
Record pgdir_t : Type := mk_pgdir {
  uvpd : Z -> Z;
  uvpt : Z -> Z
}.

Definition upd {A} (f : Z -> A) (i : Z) (x : A) : Z -> A :=
  fun j => if j =? i then x else f j.

(** Every entry of the address space is a 32-bit word. *)
Definition pgdir_ok (pg : pgdir_t) : Prop :=
  forall n, 0 <= uvpt pg n < 2 ^ 32.

(** Modelled from the spec: [struct Env] of [inc/env.h], which is not among
    the sources, with the fields that [kern/syscall.c] reads and writes:
    identity, run state, address-space root, saved registers, fault upcall
    and the five mailbox fields. *)
Record Env : Type := mk_env {
  env_tf : Trapframe;
  env_id : Z;
  env_parent_id : Z;
  env_status : env_status_t;
  env_pgdir : pgdir_t;
  env_pgfault_upcall : Z;
  env_ipc_recving : bool;
  env_ipc_dstva : Z;
  env_ipc_value : Z;
  env_ipc_from : Z;
  env_ipc_perm : Z
}.

(** [pages[]] with its free list: the reference counts by page number and
    the numbers of the free pages, head first. *)
Record physmem : Type := mk_phys {
  pp_ref : Z -> Z;
  page_free_list : list Z
}.

(** The kernel's globals.  [curenv] and the entries of [env_free_list] are
    slot numbers of [envs]. *)
Record kernel : Type := mk_kernel {
  envs : Z -> Env;
  curenv : Z;
  env_free_list : list Z;
  phys : physmem
}.

Definition set_env (k : kernel) (e : Z) (v : Env) : kernel :=
  mk_kernel (upd (envs k) e v) (curenv k) (env_free_list k) (phys k).

Definition set_phys (k : kernel) (m : physmem) : kernel :=
  mk_kernel (envs k) (curenv k) (env_free_list k) m.

Definition env_set_pgdir (e : Env) (pg : pgdir_t) : Env :=
  mk_env (env_tf e) (env_id e) (env_parent_id e) (env_status e) pg
         (env_pgfault_upcall e) (env_ipc_recving e) (env_ipc_dstva e)
         (env_ipc_value e) (env_ipc_from e) (env_ipc_perm e).

Definition env_set_tf (e : Env) (tf : Trapframe) : Env :=
  mk_env tf (env_id e) (env_parent_id e) (env_status e) (env_pgdir e)
         (env_pgfault_upcall e) (env_ipc_recving e) (env_ipc_dstva e)
         (env_ipc_value e) (env_ipc_from e) (env_ipc_perm e).

Definition env_set_status (e : Env) (st : env_status_t) : Env :=
  mk_env (env_tf e) (env_id e) (env_parent_id e) st (env_pgdir e)
         (env_pgfault_upcall e) (env_ipc_recving e) (env_ipc_dstva e)
         (env_ipc_value e) (env_ipc_from e) (env_ipc_perm e).

Definition env_set_pgfault_upcall (e : Env) (func : Z) : Env :=
  mk_env (env_tf e) (env_id e) (env_parent_id e) (env_status e) (env_pgdir e)
         func (env_ipc_recving e) (env_ipc_dstva e)
         (env_ipc_value e) (env_ipc_from e) (env_ipc_perm e).

Definition env_set_ipc_recving (e : Env) (b : bool) : Env :=
  mk_env (env_tf e) (env_id e) (env_parent_id e) (env_status e) (env_pgdir e)
         (env_pgfault_upcall e) b (env_ipc_dstva e)
         (env_ipc_value e) (env_ipc_from e) (env_ipc_perm e).

Definition env_set_ipc_dstva (e : Env) (va : Z) : Env :=
  mk_env (env_tf e) (env_id e) (env_parent_id e) (env_status e) (env_pgdir e)
         (env_pgfault_upcall e) (env_ipc_recving e) va
         (env_ipc_value e) (env_ipc_from e) (env_ipc_perm e).

Definition env_set_ipc_value (e : Env) (v : Z) : Env :=
  mk_env (env_tf e) (env_id e) (env_parent_id e) (env_status e) (env_pgdir e)
         (env_pgfault_upcall e) (env_ipc_recving e) (env_ipc_dstva e)
         v (env_ipc_from e) (env_ipc_perm e).

Definition env_set_ipc_from (e : Env) (from : Z) : Env :=
  mk_env (env_tf e) (env_id e) (env_parent_id e) (env_status e) (env_pgdir e)
         (env_pgfault_upcall e) (env_ipc_recving e) (env_ipc_dstva e)
         (env_ipc_value e) from (env_ipc_perm e).

Definition env_set_ipc_perm (e : Env) (perm : Z) : Env :=
  mk_env (env_tf e) (env_id e) (env_parent_id e) (env_status e) (env_pgdir e)
         (env_pgfault_upcall e) (env_ipc_recving e) (env_ipc_dstva e)
         (env_ipc_value e) (env_ipc_from e) perm.

(** *** [kern/pmap.c] *)

(** Modelled from the spec: [kern/pmap.h] is not among the sources.  A
    physical page is named by its number, the index of its [struct
    PageInfo] in [pages]. *)
Definition page2pa (pp : Z) : Z := u32 (Z.shiftl pp PGSHIFT).
Definition pa2page (pa : Z) : Z := PGNUM pa.

Definition set_ref (m : physmem) (pp : Z) (r : Z) : physmem :=
  mk_phys (upd (pp_ref m) pp r) (page_free_list m).

(** [pp->pp_ref++] on the [uint16_t] counter. *)
Definition incref (m : physmem) (pp : Z) : physmem :=
  set_ref m pp (u16 (pp_ref m pp + 1)).

(** Modelled from the spec: [kern/pmap.c] is not among the sources.
    [page_alloc] takes the head of the free pool and fails when the pool is
    empty; it does not touch the reference count.  Page contents (the
    zeroing asked for by [ALLOC_ZERO]) are not part of the model. *)
Definition page_alloc (m : physmem) : option (Z * physmem) :=
  match page_free_list m with
  | [] => None
  | pp :: rest => Some (pp, mk_phys (pp_ref m) rest)
  end.

(** Modelled from the spec: [kern/pmap.c] is not among the sources.  A page
    goes back to the head of the free pool. *)
Definition page_free (m : physmem) (pp : Z) : physmem :=
  mk_phys (pp_ref m) (pp :: page_free_list m).

(** Modelled from the spec: [kern/pmap.c] is not among the sources.  "A page
    is returned to the free pool only when its reference count reaches
    zero." *)
Definition page_decref (m : physmem) (pp : Z) : physmem :=
  let r := u16 (pp_ref m pp - 1) in
  let m1 := set_ref m pp r in
  if r =? 0 then page_free m1 pp else m1.

(** Modelled from the spec: [kern/pmap.c] is not among the sources.  The
    walk to the page-table entry of [va].  With [create], a missing page
    table is built from a fresh zeroed page ("page-table-construction
    pages"), counted once and entered in the directory with all of
    [PTE_P | PTE_W | PTE_U]; [None] is the NULL result. *)
Definition pgdir_walk (m : physmem) (pgdir : pgdir_t) (va : Z) (create : bool)
    : option (physmem * pgdir_t) :=
  if Z.land (uvpd pgdir (PDX va)) PTE_P =? 0 then
    if create then
      match page_alloc m with
      | None => None
      | Some (pp, m1) =>
          Some (incref m1 pp,
                mk_pgdir
                  (upd (uvpd pgdir) (PDX va)
                       (Z.lor (page2pa pp) (Z.lor PTE_P (Z.lor PTE_W PTE_U))))
                  (fun n => if PDX (Z.shiftl n PGSHIFT) =? PDX va then 0
                            else uvpt pgdir n))
      end
    else None
  else Some (m, pgdir).

(** Modelled from the spec: [kern/pmap.c] is not among the sources.  "Look
    up the physical page and current permissions bound to a virtual
    address": the page and the entry itself, [None] when nothing is mapped
    there. *)
Definition page_lookup (pgdir : pgdir_t) (va : Z) : option (Z * Z) :=
  if Z.land (uvpd pgdir (PDX va)) PTE_P =? 0 then None
  else
    let pte := uvpt pgdir (PGNUM va) in
    if Z.land pte PTE_P =? 0 then None
    else Some (pa2page (PTE_ADDR pte), pte).

(** Modelled from the spec: [kern/pmap.c] is not among the sources.  "Unmap
    a virtual address (no-op if unmapped)." *)
Definition page_remove (m : physmem) (pgdir : pgdir_t) (va : Z)
    : physmem * pgdir_t :=
  match page_lookup pgdir va with
  | None => (m, pgdir)
  | Some (pp, _) =>
      (page_decref m pp,
       mk_pgdir (uvpd pgdir) (upd (uvpt pgdir) (PGNUM va) 0))
  end.

(** Modelled from the spec: [kern/pmap.c] is not among the sources.  Map
    page [pp] at [va] with [perm | PTE_P], replacing what was mapped there;
    the only failure is a page table that cannot be allocated, and then
    nothing has changed. *)
Definition page_insert (m : physmem) (pgdir : pgdir_t) (pp va perm : Z)
    : physmem * pgdir_t * sysret :=
  match pgdir_walk m pgdir va true with
  | None => (m, pgdir, Neg E_NO_MEM)
  | Some (m1, pg1) =>
      let m2 := incref m1 pp in
      let '(m3, pg3) :=
        if Z.land (uvpt pg1 (PGNUM va)) PTE_P =? 0 then (m2, pg1)
        else page_remove m2 pg1 va in
      (m3,
       mk_pgdir (uvpd pg3)
                (upd (uvpt pg3) (PGNUM va)
                     (u32 (Z.lor (page2pa pp) (Z.lor perm PTE_P)))),
       Ret 0)
  end.

(** *** [kern/env.c] *)

(** Modelled from the spec: [kern/env.c] is not among the sources.  "The
    special value self resolves to the caller; any other handle must match
    an environment [...] (direct self or, if permission checking is
    requested, the caller must be the target's parent)."  The result is the
    slot of the environment. *)
Definition envid2env (k : kernel) (envid : Z) (checkperm : bool) : Z + error :=
  if envid =? 0 then inl (curenv k)
  else
    let e := ENVX envid in
    match env_status (envs k e) with
    | ENV_FREE => inr E_BAD_ENV
    | _ =>
        if negb (env_id (envs k e) =? envid) then inr E_BAD_ENV
        else if checkperm && negb (e =? curenv k)
                && negb (env_parent_id (envs k e) =? env_id (envs k (curenv k)))
        then inr E_BAD_ENV
        else inl e
    end.

Definition zero_regs : PushRegs := mk_regs 0 0 0 0 0 0 0 0.

(** Modelled from the spec: [kern/env.c] is not among the sources.  The
    trap frame [env_alloc] sets up: user segments, the user stack,
    interrupts enabled. *)
Definition fresh_tf : Trapframe :=
  mk_tf zero_regs 0x23 0x23 0 0 0 0x1B 0x200 USTACKTOP 0x23.

Definition empty_pgdir : pgdir_t := mk_pgdir (fun _ => 0) (fun _ => 0).

(** Modelled from the spec: [kern/env.c] is not among the sources.  The
    handle of the next incarnation of slot [e], whose last handle was
    [old_id]: "index + incarnation counter", the counter bumped on every
    reuse of the slot and kept positive. *)
Definition next_env_id (old_id e : Z) : Z :=
  let generation :=
    Z.land (s32 (old_id + Z.shiftl 1 ENVGENSHIFT)) (Z.lnot (NENV - 1)) in
  let generation :=
    if generation <=? 0 then Z.shiftl 1 ENVGENSHIFT else generation in
  Z.lor generation e.

(** Modelled from the spec: [kern/env.c] is not among the sources.
    "Environments are allocated from a fixed-size table": the head of the
    free list gets a fresh address-space root (one physical page), the next
    generation-tagged handle, the given parent and a clean mailbox flag.
    Errors are the two that the comment of [sys_exofork] lists. *)
Definition env_alloc (k : kernel) (parent_id : Z) : kernel * (Z + error) :=
  match env_free_list k with
  | [] => (k, inr E_NO_FREE_ENV)
  | e :: rest =>
      match page_alloc (phys k) with
      | None => (k, inr E_NO_MEM)
      | Some (p, m1) =>
          let old := envs k e in
          let new :=
            mk_env fresh_tf (next_env_id (env_id old) e) parent_id ENV_RUNNABLE
                   empty_pgdir 0 false (env_ipc_dstva old)
                   (env_ipc_value old) (env_ipc_from old) (env_ipc_perm old) in
          (mk_kernel (upd (envs k) e new) (curenv k) rest (incref m1 p), inl e)
      end
  end.

End Kern.

(** ** The syscalls ([kern/syscall.c]) *)

Module Syscall.
Import Kern.

(** The test all three page-passing syscalls apply to [perm]:
    [(perm & ~PTE_SYSCALL) || !(perm & (PTE_U | PTE_P))]. *)
Definition perm_inappropriate (perm : Z) : bool :=
  negb (Z.land perm (Z.lnot PTE_SYSCALL) =? 0)
  || (Z.land perm (Z.lor PTE_U PTE_P) =? 0).

(** The specification's wording of the same test: a permission word is
    allowed when it is "a subset of the allowed set" and includes both
    "present" and "user-accessible". *)
Definition spec_perm_allowed (perm : Z) : bool :=
  (Z.land perm (Z.lnot PTE_SYSCALL) =? 0)
  && negb (Z.land perm PTE_P =? 0)
  && negb (Z.land perm PTE_U =? 0).

(** [va >= UTOP || va % PGSIZE != 0]. *)
Definition va_invalid (va : Z) : bool :=
  (UTOP <=? va) || negb (va mod PGSIZE =? 0).

Definition sys_getenvid (k : kernel) : Z := env_id (envs k (curenv k)).

Definition sys_exofork (k : kernel) : kernel * sysret :=
  match env_alloc k (env_id (envs k (curenv k))) with
  | (k1, inr ret) => (k1, Neg ret)
  | (k1, inl e) =>
      let env := envs k1 e in
      let env := env_set_tf env (env_tf (envs k1 (curenv k1))) in
      let env := env_set_status env ENV_NOT_RUNNABLE in
      let env := env_set_tf env (set_eax (env_tf env) 0) in
      (set_env k1 e env, Ret (env_id env))
  end.

(** [status] is already decoded: the C test
    [status != ENV_RUNNABLE && status != ENV_NOT_RUNNABLE] rejects the
    other constants. *)
Definition sys_env_set_status (k : kernel) (envid : Z) (status : env_status_t)
    : kernel * sysret :=
  match status with
  | ENV_RUNNABLE | ENV_NOT_RUNNABLE =>
      match envid2env k envid true with
      | inr ret => (k, Neg ret)
      | inl e => (set_env k e (env_set_status (envs k e) status), Ret 0)
      end
  | _ => (k, Neg E_INVAL)
  end.

Definition sys_env_set_pgfault_upcall (k : kernel) (envid func : Z)
    : kernel * sysret :=
  match envid2env k envid true with
  | inr ret => (k, Neg ret)
  | inl e => (set_env k e (env_set_pgfault_upcall (envs k e) func), Ret 0)
  end.

(** The console message of the bad-permission branch is not modelled. *)
Definition sys_page_alloc (k : kernel) (envid va perm : Z) : kernel * sysret :=
  if va_invalid va then (k, Neg E_INVAL)
  else if perm_inappropriate perm then (k, Neg E_INVAL)
  else
    match page_alloc (phys k) with
    | None => (k, Neg E_NO_MEM)
    | Some (page_info, m1) =>
        let k1 := set_phys k m1 in
        match envid2env k1 envid true with
        | inr ret => (k1, Neg ret)
        | inl e =>
            let '(m2, pg, ret) :=
              page_insert (phys k1) (env_pgdir (envs k1 e)) page_info va perm in
            (set_env (set_phys k1 m2) e (env_set_pgdir (envs k1 e) pg), ret)
        end
    end.

Definition sys_page_map (k : kernel) (srcenvid srcva dstenvid dstva perm : Z)
    : kernel * sysret :=
  match envid2env k srcenvid true with
  | inr ret => (k, Neg ret)
  | inl src_env =>
      match envid2env k dstenvid true with
      | inr ret => (k, Neg ret)
      | inl dst_env =>
          if va_invalid srcva || va_invalid dstva then (k, Neg E_INVAL)
          else if perm_inappropriate perm then (k, Neg E_INVAL)
          else
            match page_lookup (env_pgdir (envs k src_env)) srcva with
            | None => (k, Neg E_INVAL)
            | Some (page_info, pte_entry) =>
                if negb (Z.land perm PTE_W =? 0) && (Z.land pte_entry PTE_W =? 0)
                then (k, Neg E_INVAL)
                else
                  let '(m1, pg, ret) :=
                    page_insert (phys k) (env_pgdir (envs k dst_env))
                                page_info dstva perm in
                  (set_env (set_phys k m1) dst_env
                           (env_set_pgdir (envs k dst_env) pg), ret)
            end
      end
  end.

Definition sys_page_unmap (k : kernel) (envid va : Z) : kernel * sysret :=
  match envid2env k envid true with
  | inr ret => (k, Neg ret)
  | inl e =>
      if va_invalid va then (k, Neg E_INVAL)
      else
        let '(m1, pg) := page_remove (phys k) (env_pgdir (envs k e)) va in
        (set_env (set_phys k m1) e (env_set_pgdir (envs k e) pg), Ret 0)
  end.

(** The tail of [sys_ipc_try_send], from [env_ipc_recving = false] on. *)
Definition ipc_deliver (k : kernel) (dstenv value : Z) : kernel :=
  let d := envs k dstenv in
  let d := env_set_ipc_recving d false in
  let d := env_set_ipc_from d (env_id (envs k (curenv k))) in
  let d := env_set_ipc_value d value in
  let d := env_set_tf d (set_eax (env_tf d) 0) in
  let d := env_set_status d ENV_RUNNABLE in
  set_env k dstenv d.

Definition sys_ipc_try_send (k : kernel) (envid value srcva perm : Z)
    : kernel * sysret :=
  match envid2env k envid false with
  | inr ret => (k, Neg ret)
  | inl dstenv =>
      if negb (env_ipc_recving (envs k dstenv)) then (k, Neg E_IPC_NOT_RECV)
      else if srcva <? UTOP then
        if negb (srcva mod PGSIZE =? 0) then (k, Neg E_INVAL)
        else if perm_inappropriate perm then (k, Neg E_INVAL)
        else
          match page_lookup (env_pgdir (envs k (curenv k))) srcva with
          | None => (k, Neg E_INVAL)
          | Some (_, srcva_pte) =>
              if negb (Z.land perm PTE_W =? 0) && (Z.land srcva_pte PTE_W =? 0)
              then (k, Neg E_INVAL)
              else if env_ipc_dstva (envs k dstenv) <? UTOP then
                let '(m1, pg, ret) :=
                  page_insert (phys k) (env_pgdir (envs k dstenv))
                              (pa2page (PTE_ADDR srcva_pte))
                              (env_ipc_dstva (envs k dstenv)) perm in
                let k1 := set_env (set_phys k m1) dstenv
                                  (env_set_pgdir (envs k dstenv) pg) in
                match ret with
                | Neg _ => (k1, ret)
                | Ret _ =>
                    let k2 := set_env k1 dstenv
                                (env_set_ipc_perm (envs k1 dstenv) perm) in
                    (ipc_deliver k2 dstenv value, Ret 0)
                end
              else (ipc_deliver k dstenv value, Ret 0)
          end
      else
        let k1 := set_env k dstenv (env_set_ipc_perm (envs k dstenv) 0) in
        (ipc_deliver k1 dstenv value, Ret 0)
  end.

(** [sys_ipc_recv] returns only on error; otherwise the caller is parked
    and the CPU given up, which is the [None] result. *)
Definition sys_ipc_recv (k : kernel) (dstva : Z) : kernel * option sysret :=
  if (dstva <? UTOP) && negb (dstva mod PGSIZE =? 0) then (k, Some (Neg E_INVAL))
  else
    let c := envs k (curenv k) in
    let c := env_set_status c ENV_NOT_RUNNABLE in
    let c := env_set_ipc_recving c true in
    let c := if dstva <? UTOP then env_set_ipc_dstva c dstva else c in
    (set_env k (curenv k) c, None).

(** A send that [sys_ipc_try_send] has no reason of its own to refuse once
    it has found [T] receiving: it offers no page; or it offers an
    aligned, mapped page with an accepted permission word that asks for no
    more write access than the sender has, and either the receiver's
    recorded destination is not below [UTOP] (no page is then mapped), or
    the receiver has the page table for it, or a free page is left to
    build one. *)
Definition send_well_formed (k : kernel) (T srcva perm : Z) : Prop :=
  UTOP <= srcva \/
  (srcva mod PGSIZE = 0 /\
   perm_inappropriate perm = false /\
   exists pp srcva_pte,
     page_lookup (env_pgdir (envs k (curenv k))) srcva = Some (pp, srcva_pte) /\
     (Z.land perm PTE_W = 0 \/ Z.land srcva_pte PTE_W <> 0) /\
     (UTOP <= env_ipc_dstva (envs k T)
      \/ Z.land (uvpd (env_pgdir (envs k T)) (PDX (env_ipc_dstva (envs k T))))
                PTE_P <> 0
      \/ page_free_list (phys k) <> [])).

(** Modelled from the spec: [inc/mmu.h] is not among the sources.  The
    comment of [sys_env_set_trapframe] says what the two masks of EFLAGS
    are for, "interrupts enabled, and IOPL of 0"; the values are those of
    the x86 flags register. *)
Definition FL_IF : Z := 0x200.
Definition FL_IOPL_MASK : Z := 0x3000.

(** [sys_env_set_trapframe].  [tf] is the struct behind the user's
    pointer, which [user_mem_assert] has let through (the other case ends
    the caller and is not modelled).  The struct is patched in place, so
    it is returned beside the kernel. *)
Definition sys_env_set_trapframe (k : kernel) (envid : Z) (tf : Trapframe)
    : kernel * Trapframe * sysret :=
  match envid2env k envid true with
  | inr ret => (k, tf, Neg ret)
  | inl e =>
      let cur := env_tf (envs k (curenv k)) in
      let eflags := u32 (Z.land (tf_eflags tf) (Z.lnot FL_IOPL_MASK)) in
      let eflags := u32 (Z.lor eflags FL_IF) in
      let tf' :=
        mk_tf (tf_regs tf) (tf_es tf) (tf_ds cur) (tf_trapno tf) (tf_err tf)
              (tf_eip tf) (tf_cs cur) eflags (tf_esp tf) (tf_ss tf) in
      (set_env k e (env_set_tf (envs k e) tf'), tf', Ret 0)
  end.

(** The kernel's state [k'] holds what [k] holds. *)
Definition same_state (k k' : kernel) : Prop :=
  curenv k' = curenv k /\
  env_free_list k' = env_free_list k /\
  phys k' = phys k /\
  forall e, envs k' e = envs k e.

(** [k'] differs from [k] at most in page tables and physical pages. *)
Definition same_but_pages (k k' : kernel) : Prop :=
  curenv k' = curenv k /\
  env_free_list k' = env_free_list k /\
  forall e, env_set_pgdir (envs k' e) (env_pgdir (envs k e)) = envs k e.

End Syscall.

(** ** Copy-on-write fork ([lib/fork.c]) *)

Module Fork.
Import Kern Syscall.

(** A user-level step either goes on with the kernel as the syscalls left
    it, or ends in [panic]. *)
Inductive outcome : Type :=
| Done (k : kernel) (r : sysret)
| Panic (k : kernel).

Definition is_neg (r : sysret) : bool :=
  match r with
  | Neg _ => true
  | Ret v => v <? 0
  end.

(** [uvpd[i]] and [uvpt[i]] as the running environment reads them. *)
Definition cur_uvpd (k : kernel) (i : Z) : Z :=
  uvpd (env_pgdir (envs k (curenv k))) i.
Definition cur_uvpt (k : kernel) (i : Z) : Z :=
  uvpt (env_pgdir (envs k (curenv k))) i.

(** How [fork] goes on with the value [child_envid] that [sys_exofork]
    handed to it: a negative value is returned as the error, 0 is the child
    and anything else the parent. *)
Inductive fork_path : Set :=
| Fork_error
| Fork_child
| Fork_parent.

Definition fork_dispatch (child_envid : Z) : fork_path :=
  if child_envid <? 0 then Fork_error
  else if child_envid =? 0 then Fork_child
  else Fork_parent.

(** The two permission words of [duppage]. *)
Definition cow_perm : Z := Z.lor PTE_P (Z.lor PTE_U PTE_COW).
Definition ro_perm : Z := Z.lor PTE_P PTE_U.

Definition duppage (k : kernel) (envid pn : Z) : outcome :=
  let pte_addr := cur_uvpt k pn in
  if Z.land pte_addr PTE_P =? 0 then Panic k
  else
    let addr := u32 (pn * PGSIZE) in
    if negb (Z.land pte_addr (Z.lor PTE_W PTE_COW) =? 0) then
      let perm := cow_perm in
      let '(k1, ret) := sys_page_map k 0 addr envid addr perm in
      if is_neg ret then Panic k1
      else
        let '(k2, ret) := sys_page_map k1 0 addr 0 addr perm in
        if is_neg ret then Panic k2 else Done k2 (Ret 0)
    else
      let perm := ro_perm in
      let '(k1, ret) := sys_page_map k 0 addr envid addr perm in
      if is_neg ret then Panic k1 else Done k1 (Ret 0).

(** What [duppage] amounts to on a page the caller has mapped to [pp]: the
    [page_insert] behind each [sys_page_map], first into the child [c],
    then, for a shared page, into the caller itself. *)
Definition round_result (k : kernel) (c pp addr : Z) (shared : bool) : outcome :=
  let '(m1, pg1, r1) :=
    page_insert (phys k) (env_pgdir (envs k c)) pp addr
                (if shared then cow_perm else ro_perm) in
  let k1 := set_env (set_phys k m1) c (env_set_pgdir (envs k c) pg1) in
  if is_neg r1 then Panic k1
  else if shared then
    let '(m2, pg2, r2) :=
      page_insert (phys k1) (env_pgdir (envs k1 (curenv k))) pp addr cow_perm in
    let k2 := set_env (set_phys k1 m2) (curenv k)
                      (env_set_pgdir (envs k1 (curenv k)) pg2) in
    if is_neg r2 then Panic k2 else Done k2 (Ret 0)
  else Done k1 (Ret 0).

(** The postcondition of the duplication of page [pn]: whatever the parent
    had mapped there before is mapped in the child to the same page,
    copy-on-write in both if it was writable or copy-on-write, read-only in
    the child and untouched in the parent otherwise. *)
Definition page_duplicated (parent_before parent_after child_after : pgdir_t)
    (pn : Z) : Prop :=
  forall pp pte,
    page_lookup parent_before (pn * PGSIZE) = Some (pp, pte) ->
    exists cpte,
      page_lookup child_after (pn * PGSIZE) = Some (pp, cpte) /\
      Z.land cpte PTE_W = 0 /\
      if negb (Z.land pte (Z.lor PTE_W PTE_COW) =? 0) then
        Z.land cpte 0xFFF = cow_perm /\
        exists ppte,
          page_lookup parent_after (pn * PGSIZE) = Some (pp, ppte) /\
          Z.land ppte 0xFFF = cow_perm /\
          Z.land ppte PTE_W = 0
      else
        Z.land cpte 0xFFF = ro_perm /\
        page_lookup parent_after (pn * PGSIZE) = Some (pp, pte).

(** One round of the loop of [fork] over page number [i]. *)
Definition fork_page (k : kernel) (child_envid i : Z) : outcome :=
  let addr := u32 (i * PGSIZE) in
  if addr =? UXSTACKTOP - PGSIZE then Done k (Ret 0)
  else if Z.land (cur_uvpd k (PDX addr)) PTE_P =? 0 then Done k (Ret 0)
  else if Z.land (cur_uvpt k i) PTE_P =? 0 then Done k (Ret 0)
  else
    match duppage k child_envid i with
    | Done k1 ret => if is_neg ret then Panic k1 else Done k1 ret
    | Panic k1 => Panic k1
    end.

(** The loop [for (i = 0; i < num_pages; ++i)], [n] rounds from [i] on. *)
Fixpoint fork_pages (n : nat) (k : kernel) (child_envid i : Z) : outcome :=
  match n with
  | O => Done k (Ret 0)
  | S n' =>
      match fork_page k child_envid i with
      | Done k1 _ => fork_pages n' k1 child_envid (i + 1)
      | Panic k1 => Panic k1
      end
  end.

(** [fork] in the parent from the return of [sys_exofork] with a child
    handle to the end of the page loop, "copy our address space and page
    fault handler setup to the child": the upcall, the child's fresh
    exception stack and the loop.  The results of the two syscalls are not
    looked at, as in the source.  The definition stops before the call of
    [sys_env_set_status]: by then the loop has made the parent's own stack
    page copy-on-write, the call writes to that page, and the fault it
    takes goes through the kernel's trap path and the assembly upcall,
    which are not among the sources, before [pgfault] gives the parent a
    private copy. *)
Definition fork_copy_to_child (k : kernel) (child_envid pgfault_upcall : Z)
    : outcome :=
  let k1 := fst (sys_env_set_pgfault_upcall k child_envid pgfault_upcall) in
  let k2 := fst (sys_page_alloc k1 child_envid (UXSTACKTOP - PGSIZE)
                   (Z.lor PTE_P (Z.lor PTE_U PTE_W))) in
  fork_pages (Z.to_nat (PGNUM UTOP)) k2 child_envid 0.

(** The state [ki] of the loop of [fork] before round [i], when the loop
    was started in [k] for the child [c]: pages from [i] on are as the
    parent had them, pages below [i] are duplicated. *)
Record loop_inv (k : kernel) (envid c : Z) (ki : kernel) (i : Z) : Prop := {
  inv_curenv : curenv ki = curenv k;
  inv_child : envid2env ki envid true = inl c;
  inv_todo : forall pn, i <= pn ->
    page_lookup (env_pgdir (envs ki (curenv k))) (pn * PGSIZE)
      = page_lookup (env_pgdir (envs k (curenv k))) (pn * PGSIZE);
  inv_done : forall pn, 0 <= pn < i -> pn * PGSIZE <> UXSTACKTOP - PGSIZE ->
    page_duplicated (env_pgdir (envs k (curenv k)))
                    (env_pgdir (envs ki (curenv k))) (env_pgdir (envs ki c)) pn
}.

(** Modelled from the spec: [inc/mmu.h] and [inc/memlayout.h] are not
    among the sources.  [FEC_WR] is the bit of the page-fault error code
    that says "a write fault"; [PFTEMP] is the page user code keeps for
    "any temporary mapping used for the copy". *)
Definition FEC_WR : Z := 0x2.
Definition PFTEMP : Z := 0x7ff000.

Definition ROUNDDOWN (a n : Z) : Z := a - a mod n.

(** [memcpy(dst, src, PGSIZE)] in user mode on two page-aligned addresses:
    the contents of the physical page behind [src] go to the one behind
    [dst]; [None] is a fault on an address that is not mapped.  [mem]
    holds the contents of the physical pages by page number. *)
Definition user_memcpy_page (k : kernel) (mem : Z -> list byte) (dst src : Z)
    : option (Z -> list byte) :=
  match page_lookup (env_pgdir (envs k (curenv k))) dst,
        page_lookup (env_pgdir (envs k (curenv k))) src with
  | Some (pd, _), Some (ps, _) => Some (upd mem pd (mem ps))
  | _, _ => None
  end.

(** The page [sys_page_alloc] has just mapped at [va] in the caller, set
    to 0 as its comment says. *)
Definition zero_page_at (k : kernel) (mem : Z -> list byte) (va : Z)
    : Z -> list byte :=
  match page_lookup (env_pgdir (envs k (curenv k))) va with
  | Some (pp, _) => upd mem pp (replicate (Z.to_nat PGSIZE) x00%byte)
  | None => mem
  end.

(** [pgfault], on the two fields of the [UTrapframe] it reads. *)
Definition pgfault (k : kernel) (mem : Z -> list byte) (utf_fault_va utf_err : Z)
    : outcome * (Z -> list byte) :=
  let addr := utf_fault_va in
  let pde_addr := cur_uvpd k (PDX addr) in
  let pte_addr := cur_uvpt k (PGNUM addr) in
  if (Z.land utf_err FEC_WR =? 0)
     || (Z.land pde_addr PTE_P =? 0)
     || negb (Z.land (Z.lnot pte_addr) (Z.lor PTE_P PTE_COW) =? 0)
  then (Panic k, mem)
  else
    let addr := ROUNDDOWN addr PGSIZE in
    let perm := Z.lor PTE_P (Z.lor PTE_U PTE_W) in
    let '(k1, ret) := sys_page_alloc k 0 PFTEMP perm in
    if is_neg ret then (Panic k1, mem)
    else
      let mem0 := zero_page_at k1 mem PFTEMP in
      match user_memcpy_page k1 mem0 PFTEMP addr with
      | None => (Panic k1, mem0)
      | Some mem1 =>
          let '(k2, ret) := sys_page_map k1 0 PFTEMP 0 addr perm in
          if is_neg ret then (Panic k2, mem1)
          else
            let '(k3, ret) := sys_page_unmap k2 0 PFTEMP in
            if is_neg ret then (Panic k3, mem1) else (Done k3 (Ret 0), mem1)
      end.


(** How many of the [n] pages from number [i] on the loop of [fork] hands
    to [duppage]: those the address space [pg] has mapped, the exception
    stack apart. *)
Fixpoint pages_to_duplicate (pg : pgdir_t) (i : Z) (n : nat) : nat :=
  match n with
  | O => O
  | S n' =>
      (if i * PGSIZE =? UXSTACKTOP - PGSIZE then O
       else match page_lookup pg (i * PGSIZE) with
            | Some _ => 1%nat
            | None => O
            end)
      + pages_to_duplicate pg (i + 1) n'
  end.

End Fork.

(** ** The polling loops of the network helpers ([net/output.c],
    [net/input.c]) *)

Module Net.
Import E1000 Kern.

(** [kern/e1000.h]. *)
Definition MAX_ETHERNET_PACKET_SIZE : Z := 1518.

(** How a polling loop ends: left by [break], ended in [panic], or still
    going round when the rounds looked at are used up. *)
Inductive poll : Type :=
| Poll_done (d : device)
| Poll_panic (d : device)
| Poll_more (d : device).

(** The loop "try to transmit packet, until successful" of [output], at
    most [fuel] rounds of it.  [sys_try_transmit_packet] is the driver's
    function once [user_mem_assert] has let the buffer through; [card] is
    what the card does to the device while the environment has given up
    the CPU in [sys_yield]. *)
Fixpoint output_send (fuel : nat) (card : device -> device) (d : device)
    (jp_data : list byte) (jp_len : Z) : option poll :=
  match fuel with
  | O => Some (Poll_more d)
  | S fuel' =>
      match e1000_try_transmit_packet d jp_data (u32 jp_len) with
      | None => None
      | Some (d1, r) =>
          match r with
          | Ret v => if v =? 0 then Some (Poll_done d1) else Some (Poll_panic d1)
          | Neg E_INVAL => Some (Poll_panic d1)
          | Neg E_NET_QUEUE_FULL => output_send fuel' card (card d1) jp_data jp_len
          | Neg _ => Some (Poll_panic d1)
          end
      end
  end.

(** [output] on one packet it has received: the length check, then the
    loop. *)
Definition output_packet (fuel : nat) (card : device -> device) (d : device)
    (jp_data : list byte) (jp_len : Z) : option poll :=
  if MAX_ETHERNET_PACKET_SIZE <? jp_len then Some (Poll_panic d)
  else output_send fuel card d jp_data jp_len.

(** The receive loop of [input], at most [fuel] rounds of it: the device,
    the buffer [jp_data] and the local [recv_packet_size] as each attempt
    leaves them. *)
Fixpoint input_recv (fuel : nat) (card : device -> device) (d : device)
    (jp_data : list byte) (recv_packet_size : Z) : option (poll * list byte * Z) :=
  match fuel with
  | O => Some (Poll_more d, jp_data, recv_packet_size)
  | S fuel' =>
      match e1000_try_recv_packet d jp_data (PGSIZE - 4) (Some recv_packet_size) with
      | None => None
      | Some o =>
          let size := match E1000.recv_packet_size o with
                      | Some v => v
                      | None => recv_packet_size
                      end in
          match recv_ret o with
          | Ret v =>
              if v =? 0 then Some (Poll_done (recv_dev o), recv_buffer o, size)
              else Some (Poll_panic (recv_dev o), recv_buffer o, size)
          | Neg E_INVAL => Some (Poll_panic (recv_dev o), recv_buffer o, size)
          | Neg E_NET_QUEUE_EMPTY =>
              input_recv fuel' card (card (recv_dev o)) (recv_buffer o) size
          | Neg _ => Some (Poll_panic (recv_dev o), recv_buffer o, size)
          end
      end
  end.

(** The receive ring has its declared size and no slot holds more than a
    receive buffer can. *)
Record rx_lengths_ok (d : device) : Prop := {
  rx_sizes : rx_ring_ok d;
  rx_lengths : forall i desc,
    at_index (receive_descriptor_ring d) i = Some desc ->
    rxd_length desc <= E1000_RX_BUFFER_SIZE
}.

End Net.

(** ** Sample states *)

Module Sample.
Import E1000 Kern Syscall Fork.

(** The device right after attach, and after the card has stored a
    100-byte frame in the first receive slot. *)
Definition dev0 : device := attached_device 0x0ff000 0x100000 0x1ff000 0x200000.
Definition frame100 : list byte := replicate 100 x41%byte.
Definition dev_rx : device := nic_stores_frame dev0 0 frame100.

(** The first receive slot of [dev_rx]. *)
Definition dev_rx_desc : e1000_rx_desc := mk_rx_desc 0x200000 100 0 1 0 0.
Definition dev_rx_buf : list byte :=
  frame100 ++ replicate 1948 x00%byte.

Definition pkt3 : list byte := [x01; x02; x03]%byte.

(** A small system: environment [0x1000] in slot 0 is running, with a
    writable page at [0x1000], a read-only page at [0x2000] and a
    copy-on-write page at [0x3000]; its child [0x1001] in slot 1 has an
    empty address space; [0x1002] in slot 2 is an unrelated environment
    blocked in [sys_ipc_recv] that asked for a page at [0x5000].  Pages 30,
    31 and 32 are free. *)
Definition free_env : Env :=
  mk_env fresh_tf 0 0 ENV_FREE empty_pgdir 0 false 0 0 0 0.

Definition parent_pgdir : pgdir_t :=
  mk_pgdir (upd (fun _ => 0) 0 (Z.lor (page2pa 10) (Z.lor PTE_P (Z.lor PTE_W PTE_U))))
           (upd (upd (upd (fun _ => 0)
              1 (Z.lor (page2pa 20) (Z.lor PTE_P (Z.lor PTE_U PTE_W))))
              2 (Z.lor (page2pa 21) (Z.lor PTE_P PTE_U)))
              3 (Z.lor (page2pa 22) (Z.lor PTE_P (Z.lor PTE_U PTE_COW)))).

Definition parent_env : Env :=
  mk_env (mk_tf (mk_regs 1 2 3 4 5 6 7 8) 0x23 0x23 48 0 0x800020 0x1B 0x200
                0xeebfdfc0 0x23)
         0x1000 0 ENV_RUNNABLE parent_pgdir 0 false 0 0 0 0.

Definition child_env : Env :=
  mk_env fresh_tf 0x1001 0x1000 ENV_NOT_RUNNABLE empty_pgdir 0 false 0 0 0 0.

Definition receiver_env : Env :=
  mk_env fresh_tf 0x1002 0 ENV_NOT_RUNNABLE empty_pgdir 0 true 0x5000 0 0 0.

Definition sample_refs : Z -> Z :=
  upd (upd (upd (upd (fun _ => 0) 10 1) 20 1) 21 1) 22 1.

Definition k0 : kernel :=
  mk_kernel (upd (upd (upd (fun _ => free_env) 0 parent_env) 1 child_env)
                 2 receiver_env)
            0 [3; 4; 5] (mk_phys sample_refs [30; 31; 32]).

(** [k0] with a single free page left. *)
Definition k_low : kernel :=
  mk_kernel (envs k0) 0 [3; 4; 5] (mk_phys sample_refs [30]).

(** [k0] with no free page left. *)
Definition k_full : kernel :=
  mk_kernel (envs k0) 0 [3; 4; 5] (mk_phys sample_refs []).

(** A register block whose status register reads "full duplex link up at
    1000 MB/s". *)
Definition io_link_up : Z -> Z := reg_write (fun _ => 0) E1000_STATUS 0x80080783.

(** The device after the card has stored a second frame, of 60 bytes, in
    the second receive slot; that slot; 64 packets of three bytes. *)
Definition frame60 : list byte := replicate 60 x42%byte.
Definition dev_rx2 : device := nic_stores_frame dev_rx 1 frame60.
Definition dev_rx2_desc : e1000_rx_desc := mk_rx_desc 0x200800 60 0 1 0 0.
Definition dev_rx2_buf : list byte := frame60 ++ replicate 1988 x00%byte.
Definition pkts64 : list (list byte * Z) := replicate 64 (pkt3, 3).

(** [k0] with eight free pages. *)
Definition k_roomy : kernel :=
  mk_kernel (envs k0) 0 [3; 4; 5]
            (mk_phys sample_refs [30; 31; 32; 33; 34; 35; 36; 37]).

(** [k0] with the environment of slot 2 running, not yet receiving, its
    last receive having asked for a page at [0x5000]; and a kernel with
    another environment running. *)
Definition idle_receiver_env : Env :=
  mk_env fresh_tf 0x1002 0 ENV_RUNNABLE empty_pgdir 0 false 0x5000 0 0 0.

Definition k_recv : kernel :=
  mk_kernel (upd (envs k0) 2 idle_receiver_env) 2 [3; 4; 5] (phys k0).

Definition switch_to (k : kernel) (e : Z) : kernel :=
  mk_kernel (envs k) e (env_free_list k) (phys k).

(** Page contents: page 22 holds a frame, the others are empty. *)
Definition sample_mem : Z -> list byte := upd (fun _ => []) 22 frame100.

End Sample.

(** * Properties *)

(** ** C arrays as lists *)

Section Arrays.
Context {A : Type}.
Implicit Types (l : list A) (i j : Z).

Lemma at_index_in_range l i :
  0 <= i < Z.of_nat (length l) -> exists x, at_index l i = Some x.
Proof.
  intros [Hlo Hhi]. unfold at_index.
  destruct (Z.ltb_spec i 0) as [|_]; [lia|].
  apply lookup_lt_is_Some_2. lia.
Qed.

Lemma at_index_Some_range l i x :
  at_index l i = Some x -> 0 <= i < Z.of_nat (length l).
Proof.
  unfold at_index. destruct (Z.ltb_spec i 0) as [|Hge]; [discriminate|].
  intros H. apply lookup_lt_Some in H. lia.
Qed.

Lemma at_index_set_index_eq l i x :
  0 <= i < Z.of_nat (length l) -> at_index (set_index l i x) i = Some x.
Proof.
  intros [Hlo Hhi]. unfold at_index, set_index.
  destruct (Z.ltb_spec i 0) as [|_]; [lia|].
  apply list_lookup_insert_eq. lia.
Qed.

Lemma at_index_set_index_ne l i j x :
  0 <= i -> i <> j -> at_index (set_index l i x) j = at_index l j.
Proof.
  intros Hi Hne. unfold at_index, set_index.
  destruct (Z.ltb_spec j 0) as [|Hj]; [reflexivity|].
  apply list_lookup_insert_ne. lia.
Qed.

End Arrays.

(** ** Bits *)

Lemma u8_land_ones x : u8 x = Z.land x (Z.ones 8).
Proof. unfold u8. rewrite Z.land_ones by lia. reflexivity. Qed.

(** [status &= ~DD] leaves the done flag clear, whatever the byte was. *)
Lemma clear_dd_clear (s : Z) :
  Z.land (u8 (Z.land s (Z.lnot E1000.E1000_TX_DX_STAT_DD)))
         E1000.E1000_TX_DX_STAT_DD = 0.
Proof.
  rewrite u8_land_ones. unfold E1000.E1000_TX_DX_STAT_DD.
  apply Z.bits_inj'. intros n Hn.
  rewrite !Z.land_spec, Z.bits_0.
  destruct (Z.eq_dec n 0) as [->|Hne].
  - change (Z.testbit (Z.lnot 1) 0) with false.
    rewrite andb_false_r. reflexivity.
  - replace (Z.testbit 1 n) with false.
    + apply andb_false_r.
    + symmetry. change 1 with (2 ^ 0). apply Z.pow2_bits_false. lia.
Qed.

Lemma u16_small x : 0 <= x < 2 ^ 16 -> u16 x = x.
Proof. intros H. unfold u16. apply Z.mod_small. exact H. Qed.

Lemma u32_small x : 0 <= x < 2 ^ 32 -> u32 x = x.
Proof. intros H. unfold u32. apply Z.mod_small. exact H. Qed.

(** ** The transmit and receive attempts *)

Section Rings.
Import E1000.

Lemma reg_write_same io r v : reg_write io r v r = v.
Proof. unfold reg_write. rewrite Z.eqb_refl. reflexivity. Qed.

Lemma reg_write_other io r v r' : r' <> r -> reg_write io r v r' = io r'.
Proof.
  intros H. unfold reg_write.
  destruct (Z.eqb_spec r' r); [contradiction|reflexivity].
Qed.

(** C8.  The transmit attempt on a well-formed ring: an oversized packet is
    refused with [-E_INVAL] and the device is as before; otherwise a slot at
    the tail that the card still owns (done flag clear) gives
    [-E_NET_QUEUE_FULL] and the device is as before; otherwise the call
    returns 0, the slot's done flag is clear, its length is the packet
    size, its buffer starts with the caller's [packet_size] bytes (the rest
    of the buffer as before), the tail register is the old tail plus one
    modulo the ring size, and the other slots, the other registers and the
    receive ring are as before. *)
Theorem try_transmit_packet_spec (d : device) (packet_data : list byte)
    (packet_size : Z) :
  tx_ring_ok d -> 0 <= packet_size ->
  let tail := e1000_dma_io d E1000_TDT in
  exists desc buf,
    at_index (tx_descriptor_ring d) tail = Some desc /\
    at_index (tx_buffers d) tail = Some buf /\
    (E1000_TX_BUFFER_SIZE < packet_size ->
       e1000_try_transmit_packet d packet_data packet_size = Some (d, Neg E_INVAL)) /\
    (packet_size <= E1000_TX_BUFFER_SIZE ->
     Z.land (txd_status desc) E1000_TX_DX_STAT_DD = 0 ->
       e1000_try_transmit_packet d packet_data packet_size
         = Some (d, Neg E_NET_QUEUE_FULL)) /\
    (packet_size <= E1000_TX_BUFFER_SIZE ->
     Z.land (txd_status desc) E1000_TX_DX_STAT_DD <> 0 ->
       exists d' desc',
         e1000_try_transmit_packet d packet_data packet_size = Some (d', Ret 0) /\
         at_index (tx_descriptor_ring d') tail = Some desc' /\
         Z.land (txd_status desc') E1000_TX_DX_STAT_DD = 0 /\
         txd_length desc' = packet_size /\
         txd_buffer_addr desc' = txd_buffer_addr desc /\
         txd_cmd desc' = txd_cmd desc /\
         at_index (tx_buffers d') tail
           = Some (take (Z.to_nat packet_size) packet_data
                     ++ drop (Z.to_nat packet_size) buf) /\
         e1000_dma_io d' E1000_TDT = (tail + 1) mod E1000_TX_DESCRIPTORS_COUNT /\
         (forall i, i <> tail ->
            at_index (tx_descriptor_ring d') i = at_index (tx_descriptor_ring d) i /\
            at_index (tx_buffers d') i = at_index (tx_buffers d) i) /\
         (forall r, r <> E1000_TDT -> e1000_dma_io d' r = e1000_dma_io d r) /\
         receive_descriptor_ring d' = receive_descriptor_ring d /\
         receive_buffers d' = receive_buffers d).
Proof.
  intros Hok Hsz tail.
  destruct Hok as [Hlr Hlb Htdt].
  assert (Hr : 0 <= tail < Z.of_nat (length (tx_descriptor_ring d))).
  { rewrite Hlr. unfold E1000_TX_DESCRIPTORS_COUNT in *. subst tail. lia. }
  assert (Hb : 0 <= tail < Z.of_nat (length (tx_buffers d))).
  { rewrite Hlb. unfold E1000_TX_DESCRIPTORS_COUNT in *. subst tail. lia. }
  destruct (at_index_in_range _ _ Hr) as [desc Hdesc].
  destruct (at_index_in_range _ _ Hb) as [buf Hbuf].
  exists desc, buf. split; [exact Hdesc|]. split; [exact Hbuf|].
  unfold e1000_try_transmit_packet. fold tail. rewrite Hdesc.
  split; [|split].
  - intros Hbig. destruct (Z.ltb_spec E1000_TX_BUFFER_SIZE packet_size); [reflexivity|lia].
  - intros Hfit Hdd.
    destruct (Z.ltb_spec E1000_TX_BUFFER_SIZE packet_size); [lia|].
    rewrite Hdd. reflexivity.
  - intros Hfit Hdd.
    destruct (Z.ltb_spec E1000_TX_BUFFER_SIZE packet_size); [lia|].
    destruct (Z.eqb_spec (Z.land (txd_status desc) E1000_TX_DX_STAT_DD) 0);
      [contradiction|].
    rewrite Hbuf.
    eexists _, _. split; [reflexivity|]. cbn [tx_descriptor_ring tx_buffers
      set_io set_tx e1000_dma_io receive_descriptor_ring receive_buffers].
    split; [apply at_index_set_index_eq; exact Hr|].
    cbn [txd_status txd_length txd_buffer_addr txd_cmd tx_set_length tx_set_status].
    split; [apply clear_dd_clear|].
    split; [apply u16_small; unfold E1000_TX_BUFFER_SIZE in *; lia|].
    split; [reflexivity|]. split; [reflexivity|].
    split; [apply at_index_set_index_eq; exact Hb|].
    split.
    { rewrite reg_write_same, u32_small; [reflexivity|].
      unfold E1000_TX_DESCRIPTORS_COUNT in *. subst tail. lia. }
    split.
    { intros i Hi. split; apply at_index_set_index_ne; lia. }
    split; [|split; reflexivity].
    intros r Hr'. apply reg_write_other. exact Hr'.
Qed.

(** The ring invariant holds after attach and every transmit attempt keeps
    it. *)
Lemma attached_tx_ring_ok (tx_ring_pa tx_bufs_pa rx_ring_pa rx_bufs_pa : Z) :
  tx_ring_ok (attached_device tx_ring_pa tx_bufs_pa rx_ring_pa rx_bufs_pa).
Proof.
  split; try (vm_compute; reflexivity).
  vm_compute. split; [discriminate|reflexivity].
Qed.

Lemma try_transmit_packet_keeps_ring_ok (d : device) (packet_data : list byte)
    (packet_size : Z) (d' : device) (r : sysret) :
  tx_ring_ok d ->
  e1000_try_transmit_packet d packet_data packet_size = Some (d', r) ->
  tx_ring_ok d'.
Proof.
  intros Hok. unfold e1000_try_transmit_packet.
  destruct (E1000_TX_BUFFER_SIZE <? packet_size).
  { intros H. injection H as <- _. exact Hok. }
  destruct (at_index (tx_descriptor_ring d) (e1000_dma_io d E1000_TDT))
    as [desc|]; [|discriminate].
  destruct (Z.land (txd_status desc) E1000_TX_DX_STAT_DD =? 0).
  { intros H. injection H as <- _. exact Hok. }
  destruct (at_index (tx_buffers d) (e1000_dma_io d E1000_TDT)) as [buf|];
    [|discriminate].
  intros H. injection H as <- _. destruct Hok as [Hlr Hlb Htdt].
  split; cbn [set_io set_tx tx_descriptor_ring tx_buffers e1000_dma_io].
  - unfold set_index. rewrite length_insert. exact Hlr.
  - unfold set_index. rewrite length_insert. exact Hlb.
  - rewrite reg_write_same. apply Z.mod_pos_bound. reflexivity.
Qed.

Lemma rx_tail_range (d : device) :
  0 <= u32 (e1000_dma_io d E1000_RDT + 1) mod E1000_RX_DESCRIPTORS_COUNT
    < E1000_RX_DESCRIPTORS_COUNT.
Proof. apply Z.mod_pos_bound. reflexivity. Qed.

(** A length within the slot reads the slot and nothing else. *)
Lemma receive_buffers_from_slot (d : device) (i : Z) (rbuf : list byte) (n : Z) :
  n <= E1000_RX_BUFFER_SIZE -> receive_buffers_from d i rbuf n = rbuf.
Proof.
  intros Hn. unfold receive_buffers_from.
  destruct (Z.leb_spec n E1000_RX_BUFFER_SIZE); [reflexivity|lia].
Qed.

(** A longer one reads on: with slots of the declared size, a length of up
    to two slots takes the slot's bytes and then those of the slot that
    follows it in the array. *)
Lemma receive_buffers_from_next_slot (d : device) (i : Z) (rbuf rbuf' : list byte)
    (n : Z) :
  0 <= i ->
  at_index (receive_buffers d) (i + 1) = Some rbuf' ->
  length rbuf = Z.to_nat E1000_RX_BUFFER_SIZE ->
  length rbuf' = Z.to_nat E1000_RX_BUFFER_SIZE ->
  E1000_RX_BUFFER_SIZE < n <= 2 * E1000_RX_BUFFER_SIZE ->
  take (Z.to_nat n) (receive_buffers_from d i rbuf n)
    = rbuf ++ take (Z.to_nat (n - E1000_RX_BUFFER_SIZE)) rbuf'.
Proof.
  intros Hi Hnext Hlen Hlen' Hn. unfold receive_buffers_from.
  destruct (Z.leb_spec n E1000_RX_BUFFER_SIZE); [lia|].
  unfold at_index in Hnext.
  destruct (Z.ltb_spec (i + 1) 0); [lia|].
  replace (Z.to_nat (i + 1)) with (S (Z.to_nat i)) in Hnext by lia.
  rewrite (drop_S _ _ _ Hnext). cbn [concat].
  cbv zeta. rewrite <- !app_assoc.
  rewrite take_app_ge by (rewrite Hlen; lia).
  f_equal. rewrite Hlen.
  replace (Z.to_nat n - Z.to_nat E1000_RX_BUFFER_SIZE)%nat
    with (Z.to_nat (n - E1000_RX_BUFFER_SIZE)) by lia.
  apply take_app_le. rewrite Hlen'. lia.
Qed.

(** C9.  When the slot one past the receive tail holds a packet (done flag
    set) longer than the caller's buffer, the receive attempt returns
    [-E_INVAL], the caller's buffer and the whole device (the slot's done
    flag and the tail register included) are as before, and any later
    attempt on that device with a buffer of at least the packet's length
    returns 0 with the same packet: its length reported, the done flag then
    cleared, the tail moved to the slot and, for a packet that fits a
    receive slot ([length] at most [E1000_RX_BUFFER_SIZE]), the slot's
    [length] bytes copied out to the start of the buffer. *)
Theorem try_recv_packet_buffer_too_small (d : device) (buffer : list byte)
    (buffer_size : Z) (packet_size : option Z)
    (desc : e1000_rx_desc) (rbuf : list byte) :
  let tail := u32 (e1000_dma_io d E1000_RDT + 1) mod E1000_RX_DESCRIPTORS_COUNT in
  at_index (receive_descriptor_ring d) tail = Some desc ->
  at_index (receive_buffers d) tail = Some rbuf ->
  Z.land (rxd_status desc) E1000_TX_DX_STAT_DD <> 0 ->
  buffer_size < rxd_length desc ->
  exists o,
    e1000_try_recv_packet d buffer buffer_size packet_size = Some o /\
    recv_ret o = Neg E_INVAL /\
    recv_buffer o = buffer /\
    recv_dev o = d /\
    forall (buffer2 : list byte) (buffer_size2 : Z) (packet_size2 : option Z),
      rxd_length desc <= buffer_size2 ->
      exists o2 desc2,
        e1000_try_recv_packet (recv_dev o) buffer2 buffer_size2 packet_size2
          = Some o2 /\
        recv_ret o2 = Ret 0 /\
        (rxd_length desc <= E1000_RX_BUFFER_SIZE ->
           recv_buffer o2
             = take (Z.to_nat (rxd_length desc)) rbuf
                 ++ drop (Z.to_nat (rxd_length desc)) buffer2) /\
        (is_Some packet_size2 -> recv_packet_size o2 = Some (rxd_length desc)) /\
        e1000_dma_io (recv_dev o2) E1000_RDT = tail /\
        at_index (receive_descriptor_ring (recv_dev o2)) tail = Some desc2 /\
        Z.land (rxd_status desc2) E1000_TX_DX_STAT_DD = 0.
Proof.
  intros tail Hdesc Hbuf Hdd Hsmall.
  assert (Hcall : forall b bs ps,
    e1000_try_recv_packet d b bs ps =
      if bs <? rxd_length desc
      then Some (mk_recv d b
                   (match ps with Some _ => Some (rxd_length desc) | None => None end)
                   (Neg E_INVAL))
      else Some (mk_recv
             (set_io (set_rx_ring d (set_index (receive_descriptor_ring d) tail
                        (rx_set_status desc
                           (u8 (Z.land (rxd_status desc)
                                       (Z.lnot E1000_TX_DX_STAT_DD))))))
                     (reg_write (e1000_dma_io d) E1000_RDT tail))
             (memcpy b (receive_buffers_from d tail rbuf (rxd_length desc))
                     (rxd_length desc))
             (match ps with Some _ => Some (rxd_length desc) | None => None end)
             (Ret 0))).
  { intros b bs ps. unfold e1000_try_recv_packet. fold tail.
    rewrite Hdesc, Hbuf.
    destruct (Z.eqb_spec (Z.land (rxd_status desc) E1000_TX_DX_STAT_DD) 0);
      [contradiction|].
    destruct (bs <? rxd_length desc); reflexivity. }
  eexists. split.
  { rewrite Hcall. destruct (Z.ltb_spec buffer_size (rxd_length desc)); [reflexivity|lia]. }
  cbn [recv_ret recv_buffer recv_dev].
  split; [reflexivity|]. split; [reflexivity|]. split; [reflexivity|].
  intros buffer2 buffer_size2 packet_size2 Hfit.
  eexists _, _. split.
  { rewrite Hcall. destruct (Z.ltb_spec buffer_size2 (rxd_length desc)); [lia|reflexivity]. }
  cbn [recv_ret recv_buffer recv_dev recv_packet_size set_io set_rx_ring
       e1000_dma_io receive_descriptor_ring].
  split; [reflexivity|].
  split; [intros Hslot; rewrite receive_buffers_from_slot by exact Hslot;
          reflexivity|].
  split; [intros [v ->]; reflexivity|].
  split; [apply reg_write_same|].
  split.
  - apply at_index_set_index_eq. eapply at_index_Some_range. exact Hdesc.
  - cbn [rxd_status rx_set_status]. apply clear_dd_clear.
Qed.

(** C10.  With a non-null [packet_size] pointer: when the inspected slot
    holds a packet (done flag set), the cell behind the pointer holds the
    packet's length after the call, both when the call returns [-E_INVAL]
    because the buffer is too small (and then device and buffer are as
    before) and when it returns 0; when the slot is empty the call returns
    [-E_NET_QUEUE_EMPTY] and the cell keeps its old value. *)
Theorem try_recv_packet_size_out (d : device) (buffer : list byte)
    (buffer_size old : Z) (desc : e1000_rx_desc) :
  let tail := u32 (e1000_dma_io d E1000_RDT + 1) mod E1000_RX_DESCRIPTORS_COUNT in
  at_index (receive_descriptor_ring d) tail = Some desc ->
  (Z.land (rxd_status desc) E1000_TX_DX_STAT_DD <> 0 ->
   buffer_size < rxd_length desc ->
     e1000_try_recv_packet d buffer buffer_size (Some old)
       = Some (mk_recv d buffer (Some (rxd_length desc)) (Neg E_INVAL))) /\
  (Z.land (rxd_status desc) E1000_TX_DX_STAT_DD <> 0 ->
   rxd_length desc <= buffer_size ->
   forall rbuf, at_index (receive_buffers d) tail = Some rbuf ->
     exists o,
       e1000_try_recv_packet d buffer buffer_size (Some old) = Some o /\
       recv_packet_size o = Some (rxd_length desc) /\
       recv_ret o = Ret 0) /\
  (Z.land (rxd_status desc) E1000_TX_DX_STAT_DD = 0 ->
     e1000_try_recv_packet d buffer buffer_size (Some old)
       = Some (mk_recv d buffer (Some old) (Neg E_NET_QUEUE_EMPTY))).
Proof.
  intros tail Hdesc.
  unfold e1000_try_recv_packet. fold tail. rewrite Hdesc.
  split; [|split].
  - intros Hdd Hsmall.
    destruct (Z.eqb_spec (Z.land (rxd_status desc) E1000_TX_DX_STAT_DD) 0);
      [contradiction|].
    destruct (Z.ltb_spec buffer_size (rxd_length desc)); [reflexivity|lia].
  - intros Hdd Hfit rbuf Hbuf.
    destruct (Z.eqb_spec (Z.land (rxd_status desc) E1000_TX_DX_STAT_DD) 0);
      [contradiction|].
    destruct (Z.ltb_spec buffer_size (rxd_length desc)); [lia|].
    rewrite Hbuf. eexists. split; [reflexivity|]. split; reflexivity.
  - intros Hdd. rewrite Hdd. reflexivity.
Qed.

End Rings.

(** ** Runs of the rings *)

Section RingRuns.
Import E1000.

Lemma land_pow2_nonzero (x n : Z) :
  0 <= n -> Z.testbit x n = true -> Z.land x (2 ^ n) <> 0.
Proof.
  intros Hn Hbit H. apply (f_equal (fun z => Z.testbit z n)) in H.
  rewrite Z.land_spec, Hbit, Z.pow2_bits_true, Z.bits_0 in H by exact Hn.
  discriminate.
Qed.

Lemma u8_lor_testbit (s m n : Z) :
  0 <= n < 8 -> Z.testbit m n = true -> Z.testbit (u8 (Z.lor s m)) n = true.
Proof.
  intros Hn Hm. rewrite u8_land_ones, Z.land_spec, Z.lor_spec, Hm, orb_true_r.
  rewrite Z.ones_spec_low by lia. reflexivity.
Qed.

(** [status |= DD] leaves the done flag set, whatever the byte was. *)
Lemma set_dd_set (s : Z) :
  Z.land (u8 (Z.lor s E1000_TX_DX_STAT_DD)) E1000_TX_DX_STAT_DD <> 0.
Proof.
  change E1000_TX_DX_STAT_DD with (2 ^ 0) at 2.
  apply land_pow2_nonzero; [lia|]. apply u8_lor_testbit; [lia|reflexivity].
Qed.

Lemma at_index_imap {A B} (f : nat -> A -> B) (l : list A) (i : Z) :
  at_index (imap f l) i = option_map (f (Z.to_nat i)) (at_index l i).
Proof.
  unfold at_index. destruct (i <? 0); [reflexivity|].
  rewrite list_lookup_imap. destruct (l !! Z.to_nat i); reflexivity.
Qed.

(** X1.  [e1000_init_transmit_ring] hands the whole transmit ring to the
    driver: head and tail registers are 0, the length register holds the
    1024 bytes of the 64 descriptors, and every slot has its done flag set,
    "end of packet" and "report status" in its command byte, the address of
    its own buffer, and its length as before; the buffers and the receive
    side are as before. *)
Theorem init_transmit_ring_software_owned (ring_pa bufs_pa : Z) (d : device) :
  let d' := e1000_init_transmit_ring ring_pa bufs_pa d in
  e1000_dma_io d' E1000_TDH = 0 /\
  e1000_dma_io d' E1000_TDT = 0 /\
  e1000_dma_io d' E1000_TDLEN = 1024 /\
  e1000_dma_io d' E1000_TDBAL = u32 ring_pa /\
  e1000_dma_io d' E1000_TDBAH = 0 /\
  length (tx_descriptor_ring d') = length (tx_descriptor_ring d) /\
  tx_buffers d' = tx_buffers d /\
  receive_descriptor_ring d' = receive_descriptor_ring d /\
  receive_buffers d' = receive_buffers d /\
  forall i t, at_index (tx_descriptor_ring d) i = Some t ->
    exists t',
      at_index (tx_descriptor_ring d') i = Some t' /\
      txd_buffer_addr t' = bufs_pa + i * E1000_TX_BUFFER_SIZE /\
      Z.land (txd_status t') E1000_TX_DX_STAT_DD <> 0 /\
      Z.land (txd_cmd t') E1000_TXD_CMD_EOP <> 0 /\
      Z.land (txd_cmd t') E1000_TXD_CMD_RS <> 0 /\
      txd_length t' = txd_length t.
Proof.
  intros d'. subst d'. unfold e1000_init_transmit_ring.
  cbn [set_io set_tx e1000_dma_io tx_descriptor_ring tx_buffers
       receive_descriptor_ring receive_buffers].
  repeat (split; [reflexivity|]).
  split; [apply length_imap|].
  repeat (split; [reflexivity|]).
  intros i t Ht. rewrite at_index_imap, Ht. cbn [option_map].
  eexists. split; [reflexivity|].
  cbn [init_tx_desc txd_buffer_addr txd_status txd_cmd txd_length].
  pose proof (at_index_Some_range _ _ _ Ht) as Hi.
  split; [rewrite Z2Nat.id by lia; reflexivity|].
  split; [apply set_dd_set|].
  split; [|split; [|reflexivity]].
  - change E1000_TXD_CMD_EOP with (2 ^ 0) at 2.
    apply land_pow2_nonzero; [lia|]. apply u8_lor_testbit; [lia|reflexivity].
  - change E1000_TXD_CMD_RS with (2 ^ 3) at 2.
    apply land_pow2_nonzero; [lia|]. apply u8_lor_testbit; [lia|reflexivity].
Qed.

(** X2.  [e1000_init_receive_ring] hands the whole receive ring to the
    card: the tail register is the last slot, the head register 0, every
    slot has its done flag clear and the address of its own buffer; so on a
    ring of the declared size a receive attempt right after it inspects
    slot 0 and returns [-E_NET_QUEUE_EMPTY], with the device, the caller's
    buffer and the cell behind [packet_size] as they were. *)
Theorem recv_after_init_receive_ring_is_empty (ring_pa bufs_pa : Z) (d : device)
    (buffer : list byte) (buffer_size : Z) (packet_size : option Z) :
  length (receive_descriptor_ring d) = Z.to_nat E1000_RX_DESCRIPTORS_COUNT ->
  let d' := e1000_init_receive_ring ring_pa bufs_pa d in
  e1000_dma_io d' E1000_RDT = E1000_RX_DESCRIPTORS_COUNT - 1 /\
  e1000_dma_io d' E1000_RDH = 0 /\
  (forall i r, at_index (receive_descriptor_ring d) i = Some r ->
     exists r',
       at_index (receive_descriptor_ring d') i = Some r' /\
       rxd_buffer_addr r' = bufs_pa + i * E1000_RX_BUFFER_SIZE /\
       Z.land (rxd_status r') E1000_TX_DX_STAT_DD = 0) /\
  e1000_try_recv_packet d' buffer buffer_size packet_size
    = Some (mk_recv d' buffer packet_size (Neg E_NET_QUEUE_EMPTY)).
Proof.
  intros Hlen d'.
  assert (Hslots : forall i r, at_index (receive_descriptor_ring d) i = Some r ->
     exists r',
       at_index (receive_descriptor_ring d') i = Some r' /\
       rxd_buffer_addr r' = bufs_pa + i * E1000_RX_BUFFER_SIZE /\
       Z.land (rxd_status r') E1000_TX_DX_STAT_DD = 0).
  { intros i r Hr. subst d'. unfold e1000_init_receive_ring.
    cbn [set_io set_rx_ring receive_descriptor_ring].
    rewrite at_index_imap, Hr. cbn [option_map].
    eexists. split; [reflexivity|].
    cbn [init_rx_desc rxd_buffer_addr rxd_status].
    pose proof (at_index_Some_range _ _ _ Hr) as Hi.
    split; [rewrite Z2Nat.id by lia; reflexivity|apply clear_dd_clear]. }
  assert (Hrdt : e1000_dma_io d' E1000_RDT = E1000_RX_DESCRIPTORS_COUNT - 1)
    by reflexivity.
  split; [exact Hrdt|]. split; [reflexivity|]. split; [exact Hslots|].
  destruct (at_index_in_range (receive_descriptor_ring d) 0) as [r Hr].
  { rewrite Hlen. unfold E1000_RX_DESCRIPTORS_COUNT. lia. }
  destruct (Hslots 0 r Hr) as (r' & Hr' & _ & Hdd).
  unfold e1000_try_recv_packet. rewrite Hrdt.
  change (u32 (E1000_RX_DESCRIPTORS_COUNT - 1 + 1) mod E1000_RX_DESCRIPTORS_COUNT)
    with 0.
  rewrite Hr', Hdd. reflexivity.
Qed.

(** The slot after [t], [j] steps on, and the slots a run of fewer than 64
    steps passes are all different from the one it started at. *)
Lemma ring_next (t j : Z) :
  ((t + 1) mod E1000_TX_DESCRIPTORS_COUNT + j) mod E1000_TX_DESCRIPTORS_COUNT
    = (t + (j + 1)) mod E1000_TX_DESCRIPTORS_COUNT.
Proof.
  rewrite Z.add_mod_idemp_l by (unfold E1000_TX_DESCRIPTORS_COUNT; lia).
  f_equal. lia.
Qed.

Lemma ring_distinct (t j : Z) :
  0 <= t < E1000_TX_DESCRIPTORS_COUNT -> 1 <= j < E1000_TX_DESCRIPTORS_COUNT ->
  (t + j) mod E1000_TX_DESCRIPTORS_COUNT <> t.
Proof.
  unfold E1000_TX_DESCRIPTORS_COUNT. intros Ht Hj.
  pose proof (Z.div_mod (t + j) 64 ltac:(lia)) as Hdm.
  pose proof (Z.mod_pos_bound (t + j) 64 ltac:(lia)) as Hb.
  lia.
Qed.

(** A transmit attempt that finds the slot at the tail done. *)
Lemma try_transmit_packet_sent (d : device) (packet_data : list byte)
    (packet_size : Z) :
  tx_ring_ok d -> 0 <= packet_size <= E1000_TX_BUFFER_SIZE ->
  (forall desc, at_index (tx_descriptor_ring d) (e1000_dma_io d E1000_TDT) = Some desc ->
     Z.land (txd_status desc) E1000_TX_DX_STAT_DD <> 0) ->
  let tail := e1000_dma_io d E1000_TDT in
  exists d' desc desc' buf,
    e1000_try_transmit_packet d packet_data packet_size = Some (d', Ret 0) /\
    tx_ring_ok d' /\
    at_index (tx_descriptor_ring d) tail = Some desc /\
    at_index (tx_buffers d) tail = Some buf /\
    at_index (tx_descriptor_ring d') tail = Some desc' /\
    Z.land (txd_status desc') E1000_TX_DX_STAT_DD = 0 /\
    txd_length desc' = packet_size /\
    txd_buffer_addr desc' = txd_buffer_addr desc /\
    txd_cmd desc' = txd_cmd desc /\
    at_index (tx_buffers d') tail = Some (memcpy buf packet_data packet_size) /\
    e1000_dma_io d' E1000_TDT = (tail + 1) mod E1000_TX_DESCRIPTORS_COUNT /\
    (forall i, i <> tail ->
       at_index (tx_descriptor_ring d') i = at_index (tx_descriptor_ring d) i /\
       at_index (tx_buffers d') i = at_index (tx_buffers d) i) /\
    (forall r, r <> E1000_TDT -> e1000_dma_io d' r = e1000_dma_io d r) /\
    receive_descriptor_ring d' = receive_descriptor_ring d /\
    receive_buffers d' = receive_buffers d.
Proof.
  intros Hok Hsz Hdone tail.
  pose proof Hok as [Hlr Hlb Htdt].
  assert (Hr : 0 <= tail < Z.of_nat (length (tx_descriptor_ring d))).
  { rewrite Hlr. unfold E1000_TX_DESCRIPTORS_COUNT in *. subst tail. lia. }
  assert (Hb : 0 <= tail < Z.of_nat (length (tx_buffers d))).
  { rewrite Hlb. unfold E1000_TX_DESCRIPTORS_COUNT in *. subst tail. lia. }
  destruct (at_index_in_range _ _ Hr) as [desc Hdesc].
  destruct (at_index_in_range _ _ Hb) as [buf Hbuf].
  pose proof (Hdone desc Hdesc) as Hdd.
  assert (Hrun : exists d', e1000_try_transmit_packet d packet_data packet_size
                   = Some (d', Ret 0)).
  { unfold e1000_try_transmit_packet. fold tail. rewrite Hdesc, Hbuf.
    destruct (Z.ltb_spec E1000_TX_BUFFER_SIZE packet_size); [lia|].
    destruct (Z.eqb_spec (Z.land (txd_status desc) E1000_TX_DX_STAT_DD) 0);
      [contradiction|].
    eexists. reflexivity. }
  destruct Hrun as [d' Hrun].
  exists d'. eexists desc, _, buf.
  split; [exact Hrun|].
  split; [eapply try_transmit_packet_keeps_ring_ok; eassumption|].
  split; [exact Hdesc|]. split; [exact Hbuf|].
  revert Hrun. unfold e1000_try_transmit_packet. fold tail. rewrite Hdesc, Hbuf.
  destruct (Z.ltb_spec E1000_TX_BUFFER_SIZE packet_size); [lia|].
  destruct (Z.eqb_spec (Z.land (txd_status desc) E1000_TX_DX_STAT_DD) 0);
    [contradiction|].
  intros Hrun. injection Hrun as <-.
  cbn [tx_descriptor_ring tx_buffers set_io set_tx e1000_dma_io
       receive_descriptor_ring receive_buffers].
  split; [apply at_index_set_index_eq; exact Hr|].
  cbn [txd_status txd_length txd_buffer_addr txd_cmd tx_set_length tx_set_status].
  split; [apply clear_dd_clear|].
  split; [apply u16_small; unfold E1000_TX_BUFFER_SIZE in *; lia|].
  split; [reflexivity|]. split; [reflexivity|].
  split; [apply at_index_set_index_eq; exact Hb|].
  split.
  { rewrite reg_write_same, u32_small; [reflexivity|].
    unfold E1000_TX_DESCRIPTORS_COUNT in *. subst tail. lia. }
  split.
  { intros i Hi. split; apply at_index_set_index_ne; lia. }
  split; [|split; reflexivity].
  intros r Hr'. apply reg_write_other. exact Hr'.
Qed.

(** A run of at most 64 transmit attempts over slots that are all done:
    every attempt returns 0, packet [j] is in the slot [j] steps after the
    old tail, and the slots the run did not pass are as before. *)
Lemma transmit_packets_run : forall (pkts : list (list byte * Z)) (d : device),
  tx_ring_ok d ->
  Z.of_nat (length pkts) <= E1000_TX_DESCRIPTORS_COUNT ->
  Forall (fun p => 0 <= snd p <= E1000_TX_BUFFER_SIZE) pkts ->
  (forall j desc, 0 <= j < Z.of_nat (length pkts) ->
     at_index (tx_descriptor_ring d)
       ((e1000_dma_io d E1000_TDT + j) mod E1000_TX_DESCRIPTORS_COUNT) = Some desc ->
     Z.land (txd_status desc) E1000_TX_DX_STAT_DD <> 0) ->
  exists d',
    transmit_packets d pkts = Some (d', replicate (length pkts) (Ret 0)) /\
    tx_ring_ok d' /\
    e1000_dma_io d' E1000_TDT
      = (e1000_dma_io d E1000_TDT + Z.of_nat (length pkts))
          mod E1000_TX_DESCRIPTORS_COUNT /\
    (forall (j : nat) packet_data packet_size,
       pkts !! j = Some (packet_data, packet_size) ->
       exists desc desc' buf,
         at_index (tx_descriptor_ring d)
           ((e1000_dma_io d E1000_TDT + Z.of_nat j) mod E1000_TX_DESCRIPTORS_COUNT)
           = Some desc /\
         at_index (tx_descriptor_ring d')
           ((e1000_dma_io d E1000_TDT + Z.of_nat j) mod E1000_TX_DESCRIPTORS_COUNT)
           = Some desc' /\
         Z.land (txd_status desc') E1000_TX_DX_STAT_DD = 0 /\
         txd_length desc' = packet_size /\
         txd_buffer_addr desc' = txd_buffer_addr desc /\
         txd_cmd desc' = txd_cmd desc /\
         at_index (tx_buffers d)
           ((e1000_dma_io d E1000_TDT + Z.of_nat j) mod E1000_TX_DESCRIPTORS_COUNT)
           = Some buf /\
         at_index (tx_buffers d')
           ((e1000_dma_io d E1000_TDT + Z.of_nat j) mod E1000_TX_DESCRIPTORS_COUNT)
           = Some (memcpy buf packet_data packet_size)) /\
    (forall i,
       (forall j, 0 <= j < Z.of_nat (length pkts) ->
          i <> (e1000_dma_io d E1000_TDT + j) mod E1000_TX_DESCRIPTORS_COUNT) ->
       at_index (tx_descriptor_ring d') i = at_index (tx_descriptor_ring d) i /\
       at_index (tx_buffers d') i = at_index (tx_buffers d) i) /\
    receive_descriptor_ring d' = receive_descriptor_ring d /\
    receive_buffers d' = receive_buffers d.
Proof.
  induction pkts as [|[data size] rest IH]; intros d Hok Hlen Hsizes Hdone.
  - exists d. cbn [transmit_packets length replicate].
    pose proof (tdt_range d Hok) as Ht.
    split; [reflexivity|]. split; [exact Hok|].
    split; [rewrite Z.add_0_r, Z.mod_small by exact Ht; reflexivity|].
    split; [intros j pd ps Hj; rewrite lookup_nil in Hj; discriminate|].
    split; [intros i _; split; reflexivity|split; reflexivity].
  - set (t := e1000_dma_io d E1000_TDT) in *.
    pose proof (tdt_range d Hok) as Ht. fold t in Ht.
    cbn [length] in Hlen, Hdone. rewrite Nat2Z.inj_succ in Hlen, Hdone.
    assert (Ht0 : (t + 0) mod E1000_TX_DESCRIPTORS_COUNT = t)
      by (rewrite Z.add_0_r; apply Z.mod_small; exact Ht).
    inversion Hsizes as [|p ps Hsize Hrest]; subst p ps. cbn [snd] in Hsize.
    destruct (try_transmit_packet_sent d data size Hok Hsize) as
      (d1 & desc & desc1 & buf & Hrun & Hok1 & Hdesc & Hbuf & Hdesc1 & Hdd1 &
       Hlen1 & Haddr1 & Hcmd1 & Hbuf1 & Htdt1 & Hframe1 & _ & Hrx1 & Hrxb1).
    { intros desc0 Hdesc0. apply (Hdone 0 desc0); [lia|].
      rewrite Ht0. exact Hdesc0. }
    fold t in Hdesc, Hbuf, Hdesc1, Hbuf1, Htdt1, Hframe1.
    destruct (IH d1 Hok1) as
      (d' & Hrun' & Hok' & Htdt' & Hslots' & Hframe' & Hrx' & Hrxb').
    { lia. }
    { exact Hrest. }
    { intros j desc0 Hj. rewrite Htdt1, ring_next. intros Hdesc0.
      apply (Hdone (j + 1) desc0); [lia|].
      rewrite <- (proj1 (Hframe1 _ (ring_distinct t (j + 1) Ht ltac:(lia)))).
      exact Hdesc0. }
    assert (Hpast : forall j, 0 <= j < Z.of_nat (length rest) ->
              t <> (e1000_dma_io d1 E1000_TDT + j) mod E1000_TX_DESCRIPTORS_COUNT).
    { intros j Hj. rewrite Htdt1, ring_next. intros Heq.
      apply (ring_distinct t (j + 1) Ht); [lia|]. symmetry. exact Heq. }
    exists d'. cbn [transmit_packets length replicate]. rewrite Hrun, Hrun'.
    split; [reflexivity|]. split; [exact Hok'|].
    split.
    { rewrite Htdt', Htdt1. rewrite Nat2Z.inj_succ, ring_next. f_equal; lia. }
    split.
    { intros [|j] pd ps Hj.
      - cbn in Hj. injection Hj as <- <-. change (Z.of_nat 0) with 0.
        destruct (Hframe' t Hpast) as [Hd Hb].
        exists desc, desc1, buf. rewrite Ht0, Hd, Hb.
        repeat split; assumption.
      - cbn in Hj. destruct (Hslots' j pd ps Hj) as
          (desc0 & desc' & buf' & Hd0 & Hd' & Hdd' & Hl' & Ha' & Hc' & Hb1 & Hb').
        rewrite Htdt1, ring_next in Hd0, Hd', Hb1, Hb'.
        rewrite Nat2Z.inj_succ. unfold Z.succ.
        assert (Hjr : Z.of_nat j + 1 < E1000_TX_DESCRIPTORS_COUNT).
        { apply lookup_lt_Some in Hj. lia. }
        destruct (Hframe1 _ (ring_distinct t (Z.of_nat j + 1) Ht ltac:(lia)))
          as [Hsame Hsameb].
        rewrite Hsame in Hd0. rewrite Hsameb in Hb1.
        exists desc0, desc', buf'. repeat split; assumption. }
    split.
    { intros i Hi.
      assert (Hit : i <> t) by (rewrite <- Ht0; apply Hi; lia).
      destruct (Hframe' i) as [Hd Hb].
      { intros j Hj. rewrite Htdt1, ring_next. apply Hi. lia. }
      destruct (Hframe1 i Hit) as [Hd1 Hb1'].
      split; congruence. }
    split; congruence.
Qed.

Lemma transmit_packets_app : forall (a b : list (list byte * Z)) (d : device),
  transmit_packets d (a ++ b) =
    match transmit_packets d a with
    | None => None
    | Some (d1, rs) =>
        match transmit_packets d1 b with
        | None => None
        | Some (d2, rs2) => Some (d2, rs ++ rs2)
        end
    end.
Proof.
  induction a as [|[data size] a IH]; intros b d; cbn [transmit_packets app].
  - destruct (transmit_packets d b) as [[d2 rs2]|]; reflexivity.
  - destruct (e1000_try_transmit_packet d data size) as [[d1 r]|]; [|reflexivity].
    rewrite IH. destruct (transmit_packets d1 a) as [[d2 rs]|]; [|reflexivity].
    destruct (transmit_packets d2 b) as [[d3 rs2]|]; reflexivity.
Qed.

(** X3.  First in, first out from attach on: after
    [e1000_init_transmit_ring] on arrays of the declared size, a run of at
    most 64 transmit attempts with sizes up to the buffer size all return
    0; packet [j] is then in slot [j], whose descriptor carries the
    packet's size, the address of buffer [j], "end of packet" and "report
    status", and a clear done flag, and whose buffer starts with the
    packet's bytes; the tail register is the number of packets modulo
    64. *)
Theorem transmit_packets_after_init (ring_pa bufs_pa : Z) (d0 : device)
    (pkts : list (list byte * Z)) :
  length (tx_descriptor_ring d0) = Z.to_nat E1000_TX_DESCRIPTORS_COUNT ->
  length (tx_buffers d0) = Z.to_nat E1000_TX_DESCRIPTORS_COUNT ->
  Z.of_nat (length pkts) <= E1000_TX_DESCRIPTORS_COUNT ->
  Forall (fun p => 0 <= snd p <= E1000_TX_BUFFER_SIZE) pkts ->
  exists d',
    transmit_packets (e1000_init_transmit_ring ring_pa bufs_pa d0) pkts
      = Some (d', replicate (length pkts) (Ret 0)) /\
    e1000_dma_io d' E1000_TDT
      = Z.of_nat (length pkts) mod E1000_TX_DESCRIPTORS_COUNT /\
    forall (j : nat) packet_data packet_size,
      pkts !! j = Some (packet_data, packet_size) ->
      exists desc' buf,
        at_index (tx_descriptor_ring d') (Z.of_nat j) = Some desc' /\
        Z.land (txd_status desc') E1000_TX_DX_STAT_DD = 0 /\
        txd_length desc' = packet_size /\
        txd_buffer_addr desc' = bufs_pa + Z.of_nat j * E1000_TX_BUFFER_SIZE /\
        Z.land (txd_cmd desc') E1000_TXD_CMD_EOP <> 0 /\
        Z.land (txd_cmd desc') E1000_TXD_CMD_RS <> 0 /\
        at_index (tx_buffers d0) (Z.of_nat j) = Some buf /\
        at_index (tx_buffers d') (Z.of_nat j)
          = Some (take (Z.to_nat packet_size) packet_data
                    ++ drop (Z.to_nat packet_size) buf).
Proof.
  intros Hlr Hlb Hn Hsizes.
  set (d := e1000_init_transmit_ring ring_pa bufs_pa d0).
  assert (Htdt : e1000_dma_io d E1000_TDT = 0) by reflexivity.
  assert (Hok : tx_ring_ok d).
  { split.
    - unfold d, e1000_init_transmit_ring.
      cbn [set_io set_tx tx_descriptor_ring]. rewrite length_imap. exact Hlr.
    - exact Hlb.
    - rewrite Htdt. unfold E1000_TX_DESCRIPTORS_COUNT. lia. }
  assert (Hinit : forall i desc, at_index (tx_descriptor_ring d) i = Some desc ->
            exists t, at_index (tx_descriptor_ring d0) i = Some t /\
                      desc = init_tx_desc bufs_pa (Z.to_nat i) t).
  { intros i desc. unfold d, e1000_init_transmit_ring.
    cbn [set_io set_tx tx_descriptor_ring]. rewrite at_index_imap.
    destruct (at_index (tx_descriptor_ring d0) i) as [t|]; [|discriminate].
    cbn [option_map]. intros H. injection H as <-. exists t. split; reflexivity. }
  destruct (transmit_packets_run pkts d Hok Hn Hsizes) as
    (d' & Hrun & _ & Htdt' & Hslots & _).
  { intros j desc _ Hdesc. destruct (Hinit _ _ Hdesc) as (t & _ & ->).
    cbn [init_tx_desc txd_status]. apply set_dd_set. }
  exists d'. split; [exact Hrun|].
  split; [rewrite Htdt', Htdt; reflexivity|].
  intros j data size Hj.
  destruct (Hslots j data size Hj) as
    (desc & desc' & buf & Hd & Hd' & Hdd & Hl & Ha & Hc & Hb & Hb').
  assert (Hjr : (0 + Z.of_nat j) mod E1000_TX_DESCRIPTORS_COUNT = Z.of_nat j).
  { apply lookup_lt_Some in Hj. apply Z.mod_small. lia. }
  rewrite Htdt, Hjr in Hd, Hd', Hb, Hb'.
  destruct (Hinit _ _ Hd) as (t & _ & ->).
  exists desc', buf. rewrite Ha, Hc.
  cbn [init_tx_desc txd_buffer_addr txd_cmd]. rewrite Nat2Z.id.
  split; [exact Hd'|]. split; [exact Hdd|]. split; [exact Hl|].
  split; [reflexivity|].
  split.
  { change E1000_TXD_CMD_EOP with (2 ^ 0) at 2.
    apply land_pow2_nonzero; [lia|]. apply u8_lor_testbit; [lia|reflexivity]. }
  split.
  { change E1000_TXD_CMD_RS with (2 ^ 3) at 2.
    apply land_pow2_nonzero; [lia|]. apply u8_lor_testbit; [lia|reflexivity]. }
  split; [exact Hb|exact Hb'].
Qed.

(** X4.  The ring holds 64 packets and no more: when every slot is done,
    64 transmit attempts in a row return 0 and bring the tail back to
    where it was, and one more attempt, with the card not having marked any
    slot done in between, returns [-E_NET_QUEUE_FULL] and changes nothing:
    no pending packet is overwritten. *)
Theorem transmit_ring_full_after_64 (d : device) (pkts : list (list byte * Z))
    (packet_data : list byte) (packet_size : Z) :
  tx_ring_ok d ->
  (forall i desc, at_index (tx_descriptor_ring d) i = Some desc ->
     Z.land (txd_status desc) E1000_TX_DX_STAT_DD <> 0) ->
  Z.of_nat (length pkts) = E1000_TX_DESCRIPTORS_COUNT ->
  Forall (fun p => 0 <= snd p <= E1000_TX_BUFFER_SIZE) pkts ->
  packet_size <= E1000_TX_BUFFER_SIZE ->
  exists d',
    transmit_packets d pkts = Some (d', replicate (length pkts) (Ret 0)) /\
    e1000_dma_io d' E1000_TDT = e1000_dma_io d E1000_TDT /\
    e1000_try_transmit_packet d' packet_data packet_size
      = Some (d', Neg E_NET_QUEUE_FULL) /\
    transmit_packets d (pkts ++ [(packet_data, packet_size)])
      = Some (d', replicate (length pkts) (Ret 0) ++ [Neg E_NET_QUEUE_FULL]).
Proof.
  intros Hok Hdone Hn Hsizes Hsize.
  destruct (transmit_packets_run pkts d Hok ltac:(lia) Hsizes) as
    (d' & Hrun & Hok' & Htdt' & Hslots & _).
  { intros j desc _ Hdesc. exact (Hdone _ _ Hdesc). }
  pose proof (tdt_range d Hok) as Ht.
  assert (Htail : e1000_dma_io d' E1000_TDT = e1000_dma_io d E1000_TDT).
  { rewrite Htdt', Hn. unfold E1000_TX_DESCRIPTORS_COUNT in *.
    rewrite <- (Z.mul_1_l 64) at 1. rewrite Z.mod_add by lia.
    apply Z.mod_small. exact Ht. }
  assert (Hfull : e1000_try_transmit_packet d' packet_data packet_size
                    = Some (d', Neg E_NET_QUEUE_FULL)).
  { destruct pkts as [|[data0 size0] rest];
      [cbn in Hn; unfold E1000_TX_DESCRIPTORS_COUNT in Hn; lia|].
    destruct (Hslots 0%nat data0 size0 eq_refl) as
      (desc & desc' & buf & _ & Hd' & Hdd & _).
    change (Z.of_nat 0) with 0 in Hd'.
    rewrite Z.add_0_r, Z.mod_small in Hd' by exact Ht.
    unfold e1000_try_transmit_packet. rewrite Htail, Hd', Hdd.
    destruct (Z.ltb_spec E1000_TX_BUFFER_SIZE packet_size); [lia|reflexivity]. }
  exists d'. split; [exact Hrun|]. split; [exact Htail|]. split; [exact Hfull|].
  rewrite transmit_packets_app, Hrun. cbn [transmit_packets]. rewrite Hfull.
  reflexivity.
Qed.

(** X5.  What a transmit attempt can do, whatever it finds: it returns 0,
    [-E_INVAL] or [-E_NET_QUEUE_FULL]; [-E_INVAL] exactly for a size above
    the buffer size, [-E_NET_QUEUE_FULL] only with the done flag of the
    slot at the tail clear; on either error the device is as before; and
    in every case the receive ring and its buffers, every register but the
    transmit tail, every transmit slot but the one at the tail and the
    sizes of the two transmit arrays are as before. *)
Theorem try_transmit_packet_touches_only_tail (d d' : device)
    (packet_data : list byte) (packet_size : Z) (r : sysret) :
  e1000_try_transmit_packet d packet_data packet_size = Some (d', r) ->
  (r = Ret 0 \/ r = Neg E_INVAL \/ r = Neg E_NET_QUEUE_FULL) /\
  (r = Neg E_INVAL <-> E1000_TX_BUFFER_SIZE < packet_size) /\
  (r = Neg E_NET_QUEUE_FULL ->
     exists desc,
       at_index (tx_descriptor_ring d) (e1000_dma_io d E1000_TDT) = Some desc /\
       Z.land (txd_status desc) E1000_TX_DX_STAT_DD = 0) /\
  (r <> Ret 0 -> d' = d) /\
  receive_descriptor_ring d' = receive_descriptor_ring d /\
  receive_buffers d' = receive_buffers d /\
  (forall reg, reg <> E1000_TDT -> e1000_dma_io d' reg = e1000_dma_io d reg) /\
  (forall i, i <> e1000_dma_io d E1000_TDT ->
     at_index (tx_descriptor_ring d') i = at_index (tx_descriptor_ring d) i /\
     at_index (tx_buffers d') i = at_index (tx_buffers d) i) /\
  length (tx_descriptor_ring d') = length (tx_descriptor_ring d) /\
  length (tx_buffers d') = length (tx_buffers d).
Proof.
  unfold e1000_try_transmit_packet.
  destruct (Z.ltb_spec E1000_TX_BUFFER_SIZE packet_size) as [Hbig|Hfit].
  { intros H. injection H as <- <-.
    split; [auto|]. split; [split; [intros _; exact Hbig|reflexivity]|].
    split; [discriminate|]. repeat split; reflexivity. }
  destruct (at_index (tx_descriptor_ring d) (e1000_dma_io d E1000_TDT))
    as [desc|] eqn:Hdesc; [|discriminate].
  destruct (Z.eqb_spec (Z.land (txd_status desc) E1000_TX_DX_STAT_DD) 0)
    as [Hdd|Hdd].
  { intros H. injection H as <- <-.
    split; [auto|]. split; [split; [discriminate|lia]|].
    split; [intros _; exists desc; split; [reflexivity|exact Hdd]|].
    repeat split; reflexivity. }
  destruct (at_index (tx_buffers d) (e1000_dma_io d E1000_TDT)) as [buf|] eqn:Hbuf;
    [|discriminate].
  intros H. injection H as <- <-.
  pose proof (at_index_Some_range _ _ _ Hdesc) as Hr.
  cbn [set_io set_tx e1000_dma_io tx_descriptor_ring tx_buffers
       receive_descriptor_ring receive_buffers].
  split; [auto|]. split; [split; [discriminate|lia]|].
  split; [discriminate|]. split; [intros H; contradiction H; reflexivity|].
  split; [reflexivity|]. split; [reflexivity|].
  split; [intros reg Hreg; apply reg_write_other; exact Hreg|].
  split; [intros i Hi; split; apply at_index_set_index_ne; lia|].
  unfold set_index. rewrite !length_insert. split; reflexivity.
Qed.

(** X6.  What a receive attempt can do, whatever it finds: it returns 0,
    [-E_INVAL] or [-E_NET_QUEUE_EMPTY]; [-E_NET_QUEUE_EMPTY] exactly when
    the done flag of the inspected slot is clear, [-E_INVAL] exactly when
    it is set and the packet is longer than the caller's buffer; on either
    error the device and the caller's buffer are as before; a NULL
    [packet_size] stays NULL; and in every case the transmit ring and its
    buffers, the receive buffers, every register but the receive tail and
    every receive slot but the inspected one are as before. *)
Theorem try_recv_packet_touches_only_slot (d : device) (buffer : list byte)
    (buffer_size : Z) (packet_size : option Z) (o : recv_outcome) :
  e1000_try_recv_packet d buffer buffer_size packet_size = Some o ->
  let tail := u32 (e1000_dma_io d E1000_RDT + 1) mod E1000_RX_DESCRIPTORS_COUNT in
  exists desc,
    at_index (receive_descriptor_ring d) tail = Some desc /\
    (recv_ret o = Ret 0 \/ recv_ret o = Neg E_INVAL
     \/ recv_ret o = Neg E_NET_QUEUE_EMPTY) /\
    (recv_ret o = Neg E_NET_QUEUE_EMPTY
       <-> Z.land (rxd_status desc) E1000_TX_DX_STAT_DD = 0) /\
    (recv_ret o = Neg E_INVAL
       <-> Z.land (rxd_status desc) E1000_TX_DX_STAT_DD <> 0
           /\ buffer_size < rxd_length desc) /\
    (recv_ret o <> Ret 0 -> recv_dev o = d /\ recv_buffer o = buffer) /\
    (packet_size = None -> recv_packet_size o = None) /\
    tx_descriptor_ring (recv_dev o) = tx_descriptor_ring d /\
    tx_buffers (recv_dev o) = tx_buffers d /\
    receive_buffers (recv_dev o) = receive_buffers d /\
    (forall reg, reg <> E1000_RDT ->
       e1000_dma_io (recv_dev o) reg = e1000_dma_io d reg) /\
    (forall i, i <> tail ->
       at_index (receive_descriptor_ring (recv_dev o)) i
         = at_index (receive_descriptor_ring d) i).
Proof.
  intros H tail. unfold e1000_try_recv_packet in H. fold tail in H.
  destruct (at_index (receive_descriptor_ring d) tail) as [desc|] eqn:Hdesc;
    [|discriminate].
  exists desc. split; [reflexivity|].
  destruct (Z.eqb_spec (Z.land (rxd_status desc) E1000_TX_DX_STAT_DD) 0)
    as [Hdd|Hdd].
  { injection H as <-. cbn [recv_ret recv_dev recv_buffer recv_packet_size].
    split; [auto|]. split; [split; [intros _; exact Hdd|reflexivity]|].
    split; [split; [discriminate|intros [Hc _]; contradiction]|].
    split; [intros _; split; reflexivity|].
    split; [intros Hps; exact Hps|]. repeat split; reflexivity. }
  destruct (Z.ltb_spec buffer_size (rxd_length desc)) as [Hsmall|Hfit].
  { injection H as <-. cbn [recv_ret recv_dev recv_buffer recv_packet_size].
    split; [auto|]. split; [split; [discriminate|intros Hc; contradiction]|].
    split; [split; [intros _; split; assumption|reflexivity]|].
    split; [intros _; split; reflexivity|].
    split; [intros ->; reflexivity|]. repeat split; reflexivity. }
  destruct (at_index (receive_buffers d) tail) as [rbuf|]; [|discriminate].
  injection H as <-.
  pose proof (at_index_Some_range _ _ _ Hdesc) as Hr.
  cbn [recv_ret recv_dev recv_buffer recv_packet_size set_io set_rx_ring
       e1000_dma_io tx_descriptor_ring tx_buffers
       receive_descriptor_ring receive_buffers].
  split; [auto|]. split; [split; [discriminate|intros Hc; contradiction]|].
  split; [split; [discriminate|intros [_ Hc]; lia]|].
  split; [intros Hc; contradiction Hc; reflexivity|].
  split; [intros ->; reflexivity|].
  split; [reflexivity|]. split; [reflexivity|]. split; [reflexivity|].
  split; [intros reg Hreg; apply reg_write_other; exact Hreg|].
  intros i Hi. apply at_index_set_index_ne; lia.
Qed.

(** A receive attempt that finds a packet that fits. *)
Lemma try_recv_packet_received (d : device) (buffer : list byte)
    (buffer_size : Z) (packet_size : option Z)
    (desc : e1000_rx_desc) (rbuf : list byte) :
  let tail := u32 (e1000_dma_io d E1000_RDT + 1) mod E1000_RX_DESCRIPTORS_COUNT in
  at_index (receive_descriptor_ring d) tail = Some desc ->
  at_index (receive_buffers d) tail = Some rbuf ->
  Z.land (rxd_status desc) E1000_TX_DX_STAT_DD <> 0 ->
  rxd_length desc <= buffer_size ->
  exists o desc',
    e1000_try_recv_packet d buffer buffer_size packet_size = Some o /\
    recv_ret o = Ret 0 /\
    recv_buffer o
      = memcpy buffer (receive_buffers_from d tail rbuf (rxd_length desc))
               (rxd_length desc) /\
    recv_packet_size o = option_map (fun _ => rxd_length desc) packet_size /\
    e1000_dma_io (recv_dev o) E1000_RDT = tail /\
    at_index (receive_descriptor_ring (recv_dev o)) tail = Some desc' /\
    Z.land (rxd_status desc') E1000_TX_DX_STAT_DD = 0 /\
    (forall i, i <> tail ->
       at_index (receive_descriptor_ring (recv_dev o)) i
         = at_index (receive_descriptor_ring d) i) /\
    receive_buffers (recv_dev o) = receive_buffers d.
Proof.
  intros tail Hdesc Hbuf Hdd Hfit.
  unfold e1000_try_recv_packet. fold tail. rewrite Hdesc, Hbuf.
  destruct (Z.eqb_spec (Z.land (rxd_status desc) E1000_TX_DX_STAT_DD) 0);
    [contradiction|].
  destruct (Z.ltb_spec buffer_size (rxd_length desc)); [lia|].
  pose proof (at_index_Some_range _ _ _ Hdesc) as Hr.
  eexists _, _. split; [reflexivity|].
  cbn [recv_ret recv_buffer recv_packet_size recv_dev set_io set_rx_ring
       e1000_dma_io receive_descriptor_ring receive_buffers].
  split; [reflexivity|]. split; [reflexivity|].
  split; [destruct packet_size; reflexivity|].
  split; [apply reg_write_same|].
  split; [apply at_index_set_index_eq; exact Hr|].
  split; [cbn [rxd_status rx_set_status]; apply clear_dd_clear|].
  split; [|reflexivity].
  intros i Hi. apply at_index_set_index_ne; lia.
Qed.

(** A descriptor whose length reaches past its slot: the copy takes the
    whole slot and goes on with the bytes of the slot that follows it in
    [receive_buffers]. *)
Lemma try_recv_packet_reads_on (d : device) (buffer : list byte)
    (buffer_size : Z) (packet_size : option Z)
    (desc : e1000_rx_desc) (rbuf rbuf' : list byte) :
  let tail := u32 (e1000_dma_io d E1000_RDT + 1) mod E1000_RX_DESCRIPTORS_COUNT in
  at_index (receive_descriptor_ring d) tail = Some desc ->
  at_index (receive_buffers d) tail = Some rbuf ->
  at_index (receive_buffers d) (tail + 1) = Some rbuf' ->
  length rbuf = Z.to_nat E1000_RX_BUFFER_SIZE ->
  length rbuf' = Z.to_nat E1000_RX_BUFFER_SIZE ->
  Z.land (rxd_status desc) E1000_TX_DX_STAT_DD <> 0 ->
  E1000_RX_BUFFER_SIZE < rxd_length desc <= 2 * E1000_RX_BUFFER_SIZE ->
  rxd_length desc <= buffer_size ->
  exists o,
    e1000_try_recv_packet d buffer buffer_size packet_size = Some o /\
    recv_ret o = Ret 0 /\
    recv_buffer o
      = rbuf ++ take (Z.to_nat (rxd_length desc - E1000_RX_BUFFER_SIZE)) rbuf'
          ++ drop (Z.to_nat (rxd_length desc)) buffer.
Proof.
  intros tail Hdesc Hbuf Hnext Hlen Hlen' Hdd Hlong Hfit.
  destruct (try_recv_packet_received d buffer buffer_size packet_size desc rbuf
              Hdesc Hbuf Hdd Hfit) as (o & desc' & Hrun & Hret & Hbytes & _).
  fold tail in Hbytes.
  exists o. split; [exact Hrun|]. split; [exact Hret|].
  rewrite Hbytes. unfold memcpy.
  rewrite (receive_buffers_from_next_slot d tail rbuf rbuf' _
             (proj1 (rx_tail_range d)) Hnext Hlen Hlen' Hlong).
  rewrite <- app_assoc. reflexivity.
Qed.

(** X7.  Packets come out in ring order: when the slot after the tail and
    the slot after that both hold a packet that fits the caller's buffer,
    two receive attempts in a row return 0 and deliver the first slot's
    packet, then the second slot's: each reports the length of its slot
    and, when that length is within a receive slot
    ([E1000_RX_BUFFER_SIZE]), copies that many bytes of its slot to the
    start of the buffer; afterwards both slots are handed back to the card
    (done flag clear) and the tail register is the second slot. *)
Theorem try_recv_packet_in_ring_order (d : device)
    (buffer1 buffer2 : list byte) (buffer_size1 buffer_size2 : Z)
    (desc1 desc2 : e1000_rx_desc) (rbuf1 rbuf2 : list byte) :
  let slot1 := u32 (e1000_dma_io d E1000_RDT + 1) mod E1000_RX_DESCRIPTORS_COUNT in
  let slot2 := (slot1 + 1) mod E1000_RX_DESCRIPTORS_COUNT in
  at_index (receive_descriptor_ring d) slot1 = Some desc1 ->
  at_index (receive_descriptor_ring d) slot2 = Some desc2 ->
  at_index (receive_buffers d) slot1 = Some rbuf1 ->
  at_index (receive_buffers d) slot2 = Some rbuf2 ->
  Z.land (rxd_status desc1) E1000_TX_DX_STAT_DD <> 0 ->
  Z.land (rxd_status desc2) E1000_TX_DX_STAT_DD <> 0 ->
  rxd_length desc1 <= buffer_size1 ->
  rxd_length desc2 <= buffer_size2 ->
  exists o1 o2 desc1' desc2',
    e1000_try_recv_packet d buffer1 buffer_size1 (Some 0) = Some o1 /\
    recv_ret o1 = Ret 0 /\
    recv_packet_size o1 = Some (rxd_length desc1) /\
    (rxd_length desc1 <= E1000_RX_BUFFER_SIZE ->
       recv_buffer o1
         = take (Z.to_nat (rxd_length desc1)) rbuf1
             ++ drop (Z.to_nat (rxd_length desc1)) buffer1) /\
    e1000_try_recv_packet (recv_dev o1) buffer2 buffer_size2 (Some 0) = Some o2 /\
    recv_ret o2 = Ret 0 /\
    recv_packet_size o2 = Some (rxd_length desc2) /\
    (rxd_length desc2 <= E1000_RX_BUFFER_SIZE ->
       recv_buffer o2
         = take (Z.to_nat (rxd_length desc2)) rbuf2
             ++ drop (Z.to_nat (rxd_length desc2)) buffer2) /\
    e1000_dma_io (recv_dev o2) E1000_RDT = slot2 /\
    at_index (receive_descriptor_ring (recv_dev o2)) slot1 = Some desc1' /\
    Z.land (rxd_status desc1') E1000_TX_DX_STAT_DD = 0 /\
    at_index (receive_descriptor_ring (recv_dev o2)) slot2 = Some desc2' /\
    Z.land (rxd_status desc2') E1000_TX_DX_STAT_DD = 0.
Proof.
  intros slot1 slot2 Hd1 Hd2 Hb1 Hb2 Hdd1 Hdd2 Hfit1 Hfit2.
  assert (Hs1 : 0 <= slot1 < E1000_RX_DESCRIPTORS_COUNT) by apply rx_tail_range.
  assert (Hne : slot2 <> slot1).
  { unfold slot2. unfold E1000_RX_DESCRIPTORS_COUNT in *.
    pose proof (Z.div_mod (slot1 + 1) 128 ltac:(lia)) as Hdm.
    pose proof (Z.mod_pos_bound (slot1 + 1) 128 ltac:(lia)) as Hb.
    lia. }
  destruct (try_recv_packet_received d buffer1 buffer_size1 (Some 0) desc1 rbuf1
              Hd1 Hb1 Hdd1 Hfit1)
    as (o1 & desc1' & Hrun1 & Hret1 & Hbuf1 & Hps1 & Hrdt1 & Hslot1 & Hclr1 &
        Hframe1 & Hrb1).
  fold slot1 in Hrdt1, Hslot1, Hframe1.
  assert (Hnext : u32 (e1000_dma_io (recv_dev o1) E1000_RDT + 1)
                    mod E1000_RX_DESCRIPTORS_COUNT = slot2).
  { rewrite Hrdt1. unfold slot2. f_equal. apply u32_small.
    unfold E1000_RX_DESCRIPTORS_COUNT in Hs1. lia. }
  destruct (try_recv_packet_received (recv_dev o1) buffer2 buffer_size2 (Some 0)
              desc2 rbuf2)
    as (o2 & desc2' & Hrun2 & Hret2 & Hbuf2 & Hps2 & Hrdt2 & Hslot2 & Hclr2 &
        Hframe2 & Hrb2); try assumption.
  { rewrite Hnext, (Hframe1 _ Hne). exact Hd2. }
  { rewrite Hnext, Hrb1. exact Hb2. }
  rewrite Hnext in Hrdt2, Hslot2, Hframe2.
  exists o1, o2, desc1', desc2'.
  split; [exact Hrun1|]. split; [exact Hret1|]. split; [exact Hps1|].
  split.
  { intros Hlen1. rewrite Hbuf1, receive_buffers_from_slot by exact Hlen1.
    reflexivity. }
  split; [exact Hrun2|]. split; [exact Hret2|].
  split; [exact Hps2|].
  split.
  { intros Hlen2. rewrite Hbuf2, receive_buffers_from_slot by exact Hlen2.
    reflexivity. }
  split; [exact Hrdt2|].
  split; [rewrite (Hframe2 slot1 ltac:(congruence)); exact Hslot1|].
  split; [exact Hclr1|]. split; [exact Hslot2|exact Hclr2].
Qed.

(** X23.  [e1000_pci_attach] on arrays of the declared sizes: it stops
    at its [assert] unless the status register reads [0x80080783];
    otherwise it returns 0 and leaves both rings ready, neither
    initialisation having disturbed the other: the transmit ring is wholly
    the driver's (head and tail 0, every done flag set), the receive ring
    wholly the card's (head 0, tail 127, every done flag clear), the
    control registers hold "enable, pad short packets, collision threshold
    0x10, collision distance 0x40" ([TCTL] = [0x4010A]), an inter-packet
    gap of 8 and "enable, accept broadcast, 2048-byte buffers, strip CRC"
    ([RCTL] = [0x4008002]), and the status register is as it was; a first
    transmit attempt of up to 2048 bytes then returns 0 and moves the tail
    to 1, and a first receive attempt returns [-E_NET_QUEUE_EMPTY] and
    changes nothing. *)
Theorem pci_attach_readies_both_rings (io : Z -> Z)
    (tx_ring_pa tx_bufs_pa rx_ring_pa rx_bufs_pa : Z) (d : device) :
  length (tx_descriptor_ring d) = Z.to_nat E1000_TX_DESCRIPTORS_COUNT ->
  length (tx_buffers d) = Z.to_nat E1000_TX_DESCRIPTORS_COUNT ->
  length (receive_descriptor_ring d) = Z.to_nat E1000_RX_DESCRIPTORS_COUNT ->
  length (receive_buffers d) = Z.to_nat E1000_RX_DESCRIPTORS_COUNT ->
  (io E1000_STATUS <> 0x80080783 ->
     e1000_pci_attach io tx_ring_pa tx_bufs_pa rx_ring_pa rx_bufs_pa d = None) /\
  (io E1000_STATUS = 0x80080783 ->
   exists d',
     e1000_pci_attach io tx_ring_pa tx_bufs_pa rx_ring_pa rx_bufs_pa d
       = Some (d', 0) /\
     tx_ring_ok d' /\ rx_ring_ok d' /\
     e1000_dma_io d' E1000_TDH = 0 /\ e1000_dma_io d' E1000_TDT = 0 /\
     e1000_dma_io d' E1000_RDH = 0 /\ e1000_dma_io d' E1000_RDT = 127 /\
     e1000_dma_io d' E1000_TCTL = 0x4010A /\
     e1000_dma_io d' E1000_TIPG = 8 /\
     e1000_dma_io d' E1000_RCTL = 0x4008002 /\
     e1000_dma_io d' E1000_STATUS = 0x80080783 /\
     (forall i t, at_index (tx_descriptor_ring d') i = Some t ->
        Z.land (txd_status t) E1000_TX_DX_STAT_DD <> 0) /\
     (forall i r, at_index (receive_descriptor_ring d') i = Some r ->
        Z.land (rxd_status r) E1000_TX_DX_STAT_DD = 0) /\
     (forall packet_data packet_size,
        0 <= packet_size <= E1000_TX_BUFFER_SIZE ->
        exists d'',
          e1000_try_transmit_packet d' packet_data packet_size = Some (d'', Ret 0) /\
          e1000_dma_io d'' E1000_TDT = 1) /\
     (forall buffer buffer_size packet_size,
        e1000_try_recv_packet d' buffer buffer_size packet_size
          = Some (mk_recv d' buffer packet_size (Neg E_NET_QUEUE_EMPTY)))).
Proof.
  intros Hlt Hlb Hlr Hlrb. unfold e1000_pci_attach. cbn [set_io e1000_dma_io].
  split.
  { intros Hst. destruct (Z.eqb_spec (io E1000_STATUS) 0x80080783);
      [contradiction|reflexivity]. }
  intros Hst. rewrite Hst. change (0x80080783 =? 0x80080783) with true. cbv iota.
  set (d' := e1000_init_receive_ring rx_ring_pa rx_bufs_pa
               (e1000_init_transmit_ring tx_ring_pa tx_bufs_pa
                  (set_io d io))).
  assert (Htx : tx_descriptor_ring d'
                = imap (init_tx_desc tx_bufs_pa) (tx_descriptor_ring d))
    by reflexivity.
  assert (Hrx : receive_descriptor_ring d'
                = imap (init_rx_desc rx_bufs_pa) (receive_descriptor_ring d))
    by reflexivity.
  assert (Htdt : e1000_dma_io d' E1000_TDT = 0) by reflexivity.
  assert (Hrdt : e1000_dma_io d' E1000_RDT = 127) by reflexivity.
  assert (Hok : tx_ring_ok d').
  { split.
    - rewrite Htx, length_imap. exact Hlt.
    - exact Hlb.
    - rewrite Htdt. unfold E1000_TX_DESCRIPTORS_COUNT. lia. }
  assert (Hdone : forall i t, at_index (tx_descriptor_ring d') i = Some t ->
            Z.land (txd_status t) E1000_TX_DX_STAT_DD <> 0).
  { intros i t. rewrite Htx, at_index_imap.
    destruct (at_index (tx_descriptor_ring d) i) as [t0|]; [|discriminate].
    cbn [option_map]. intros H. injection H as <-.
    cbn [init_tx_desc txd_status]. apply set_dd_set. }
  assert (Hclear : forall i r, at_index (receive_descriptor_ring d') i = Some r ->
            Z.land (rxd_status r) E1000_TX_DX_STAT_DD = 0).
  { intros i r. rewrite Hrx, at_index_imap.
    destruct (at_index (receive_descriptor_ring d) i) as [r0|]; [|discriminate].
    cbn [option_map]. intros H. injection H as <-.
    cbn [init_rx_desc rxd_status]. apply clear_dd_clear. }
  exists d'. split; [reflexivity|]. split; [exact Hok|].
  split.
  { split; [rewrite Hrx, length_imap; exact Hlr|exact Hlrb]. }
  repeat (split; [reflexivity|]).
  split; [exact Hst|]. split; [exact Hdone|]. split; [exact Hclear|].
  split.
  - intros packet_data packet_size Hsize.
    pose proof (try_transmit_packet_sent d' packet_data packet_size Hok Hsize
                  (Hdone (e1000_dma_io d' E1000_TDT))) as Hsent.
    cbv zeta in Hsent.
    destruct Hsent
      as (d'' & desc & desc' & buf & Hrun & _ & _ & _ & _ & _ & _ & _ & _ & _ &
          Htail & _).
    exists d''. split; [exact Hrun|]. rewrite Htail, Htdt. reflexivity.
  - intros buffer buffer_size packet_size.
    destruct (at_index_in_range (receive_descriptor_ring d') 0) as [r Hr].
    { rewrite Hrx, length_imap, Hlr. unfold E1000_RX_DESCRIPTORS_COUNT. lia. }
    unfold e1000_try_recv_packet. rewrite Hrdt.
    change (u32 (127 + 1) mod E1000_RX_DESCRIPTORS_COUNT) with 0.
    rewrite Hr, (Hclear 0 r Hr). reflexivity.
Qed.

End RingRuns.

(** ** Page-table entries *)

Section Entries.
Import Kern Syscall.

Lemma testbit_above (q m : Z) : 0 <= q < 2 ^ 12 -> 12 <= m -> Z.testbit q m = false.
Proof.
  intros [Hlo Hhi] Hm.
  destruct (Z.eq_dec q 0) as [->|Hq]; [apply Z.bits_0|].
  apply Z.bits_above_log2; [exact Hlo|].
  assert (Z.log2 q < 12) by (apply Z.log2_lt_pow2; lia). lia.
Qed.

(** A permission word inside [PTE_SYSCALL] fits the low twelve bits. *)
Lemma perm_in_syscall_range (perm : Z) :
  Z.land perm (Z.lnot PTE_SYSCALL) = 0 -> 0 <= perm < 2 ^ 12.
Proof.
  intros H.
  assert (E : perm = Z.land perm (Z.ones 12)).
  { apply Z.bits_inj'. intros n Hn. rewrite Z.land_spec.
    destruct (Z.ltb_spec n 12) as [Hlt|Hge].
    - rewrite Z.ones_spec_low by lia. rewrite andb_true_r. reflexivity.
    - rewrite Z.ones_spec_high by lia. rewrite andb_false_r.
      apply (f_equal (fun z => Z.testbit z n)) in H.
      rewrite Z.land_spec, Z.lnot_spec, Z.bits_0 in H by lia.
      replace (Z.testbit PTE_SYSCALL n) with false in H.
      + rewrite andb_true_r in H. exact H.
      + symmetry. apply testbit_above; [|exact Hge]. change PTE_SYSCALL with 0xE07. lia. }
  rewrite E, Z.land_ones by lia. apply Z.mod_pos_bound. lia.
Qed.

Lemma perm_appropriate_range (perm : Z) :
  perm_inappropriate perm = false -> 0 <= perm < 2 ^ 12.
Proof.
  unfold perm_inappropriate. intros H.
  apply orb_false_elim in H as [H _].
  apply negb_false_iff, Z.eqb_eq in H.
  apply perm_in_syscall_range. exact H.
Qed.

Lemma lor_range12 (a b : Z) : 0 <= a < 2 ^ 12 -> 0 <= b < 2 ^ 12 -> 0 <= Z.lor a b < 2 ^ 12.
Proof.
  intros Ha Hb.
  assert (E : Z.lor a b = Z.land (Z.lor a b) (Z.ones 12)).
  { apply Z.bits_inj'. intros n Hn. rewrite Z.land_spec, Z.lor_spec.
    destruct (Z.ltb_spec n 12) as [Hlt|Hge].
    - rewrite Z.ones_spec_low by lia. rewrite andb_true_r. reflexivity.
    - rewrite !testbit_above by assumption. reflexivity. }
  rewrite E, Z.land_ones by lia. apply Z.mod_pos_bound. lia.
Qed.

(** The entry [page2pa pp | q] splits back into its page and its low
    twelve bits. *)
Lemma pte_split (pp q : Z) :
  0 <= pp < 2 ^ 20 -> 0 <= q < 2 ^ 12 ->
  let pte := u32 (Z.lor (page2pa pp) q) in
  pa2page (PTE_ADDR pte) = pp /\ Z.land pte 0xFFF = q /\ 0 <= pte < 2 ^ 32.
Proof.
  intros Hpp Hq.
  assert (Hpa : page2pa pp = Z.shiftl pp 12).
  { unfold page2pa, PGSHIFT. apply u32_small.
    rewrite Z.shiftl_mul_pow2 by lia. lia. }
  set (x := Z.lor (Z.shiftl pp 12) q).
  assert (Hhi : Z.shiftr x 12 = pp).
  { apply Z.bits_inj'. intros n Hn. unfold x.
    rewrite Z.shiftr_spec, Z.lor_spec, Z.shiftl_spec by lia.
    rewrite (testbit_above q) by lia.
    replace (n + 12 - 12) with n by lia. apply orb_false_r. }
  assert (Hlo : Z.land x (Z.ones 12) = q).
  { apply Z.bits_inj'. intros n Hn. unfold x.
    rewrite Z.land_spec, Z.lor_spec.
    destruct (Z.ltb_spec n 12) as [Hlt|Hge].
    - rewrite Z.shiftl_spec_low by lia. rewrite Z.ones_spec_low by lia.
      rewrite andb_true_r. reflexivity.
    - rewrite Z.ones_spec_high by lia. rewrite andb_false_r.
      symmetry. apply testbit_above; assumption. }
  assert (Hx : 0 <= x < 2 ^ 32).
  { rewrite Z.shiftr_div_pow2 in Hhi by lia.
    rewrite Z.land_ones in Hlo by lia.
    pose proof (Z.div_mod x (2 ^ 12) ltac:(lia)) as Hdm.
    rewrite Hhi, Hlo in Hdm. lia. }
  cbv zeta. rewrite Hpa. fold x. rewrite (u32_small x Hx).
  split; [|split; [exact Hlo|exact Hx]].
  unfold pa2page, PGNUM, PTE_ADDR, PGSHIFT.
  change 0xFFF with (Z.ones 12).
  rewrite <- Z.ldiff_land, Z.ldiff_ones_r by lia.
  rewrite Hhi. rewrite Z.shiftr_shiftl_l by lia. apply Z.shiftl_0_r.
Qed.

(** The page of a 32-bit entry is a 20-bit page number. *)
Lemma pa2page_range (pte : Z) :
  0 <= pte < 2 ^ 32 -> 0 <= pa2page (PTE_ADDR pte) < 2 ^ 20.
Proof.
  intros H. unfold pa2page, PGNUM, PTE_ADDR, PGSHIFT.
  change 0xFFF with (Z.ones 12).
  rewrite <- Z.ldiff_land, Z.ldiff_ones_r by lia.
  rewrite Z.shiftr_shiftl_l by lia. rewrite Z.shiftl_0_r.
  rewrite Z.shiftr_div_pow2 by lia.
  split; [apply Z.div_pos; lia|apply Z.div_lt_upper_bound; lia].
Qed.

(** Testing one flag of an entry. *)
Lemma land_flag_of_low (pte flag : Z) :
  0 <= flag < 2 ^ 12 -> Z.land pte flag = Z.land (Z.land pte 0xFFF) flag.
Proof.
  intros Hf. rewrite <- Z.land_assoc. f_equal.
  change 0xFFF with (Z.ones 12).
  rewrite Z.land_comm, Z.land_ones by lia. symmetry. apply Z.mod_small. exact Hf.
Qed.

(** The "present" test reads bit 0. *)
Lemma land_P_bit0 (x : Z) : Z.land x PTE_P = Z.b2z (Z.testbit x 0).
Proof.
  unfold PTE_P. change 1 with (Z.ones 1).
  rewrite Z.land_ones by lia. rewrite Z.bit0_mod. reflexivity.
Qed.

Lemma lor_has_P (perm : Z) : Z.land (Z.lor perm PTE_P) PTE_P = PTE_P.
Proof.
  rewrite land_P_bit0, Z.lor_spec.
  change (Z.testbit PTE_P 0) with true. rewrite orb_true_r. reflexivity.
Qed.

Lemma pde_has_P (x y : Z) : Z.land (Z.lor x (Z.lor PTE_P y)) PTE_P <> 0.
Proof.
  rewrite land_P_bit0, !Z.lor_spec.
  change (Z.testbit PTE_P 0) with true. rewrite orb_true_l, orb_true_r.
  discriminate.
Qed.

End Entries.

(** ** Address spaces *)

Section AddressSpaces.
Import Kern Syscall.

Lemma upd_same {A} (f : Z -> A) i x : upd f i x i = x.
Proof. unfold upd. rewrite Z.eqb_refl. reflexivity. Qed.

Lemma upd_other {A} (f : Z -> A) i j x : j <> i -> upd f i x j = f j.
Proof. intros H. unfold upd. destruct (Z.eqb_spec j i); [contradiction|reflexivity]. Qed.

Lemma envs_set_env_same k e v : envs (set_env k e v) e = v.
Proof. apply upd_same. Qed.

Lemma envs_set_env_other k e v e' : e' <> e -> envs (set_env k e v) e' = envs k e'.
Proof. apply upd_other. Qed.

Lemma page_remove_uvpd m pg va :
  uvpd (snd (page_remove m pg va)) = uvpd pg.
Proof. unfold page_remove. destruct (page_lookup pg va) as [[pp pte]|]; reflexivity. Qed.

(** The three outcomes of the walk that [page_insert] starts with. *)
Lemma pgdir_walk_create m pg va :
  (Z.land (uvpd pg (PDX va)) PTE_P <> 0 /\ pgdir_walk m pg va true = Some (m, pg))
  \/ (Z.land (uvpd pg (PDX va)) PTE_P = 0 /\ page_free_list m = []
      /\ pgdir_walk m pg va true = None)
  \/ (Z.land (uvpd pg (PDX va)) PTE_P = 0 /\
      exists p rest m1 pg1,
        page_free_list m = p :: rest /\
        pgdir_walk m pg va true = Some (m1, pg1) /\
        Z.land (uvpd pg1 (PDX va)) PTE_P <> 0).
Proof.
  unfold pgdir_walk, page_alloc.
  destruct (Z.eqb_spec (Z.land (uvpd pg (PDX va)) PTE_P) 0) as [Hz|Hnz].
  - destruct (page_free_list m) as [|p rest] eqn:Hfl.
    + right; left. auto.
    + right; right. split; [exact Hz|].
      eexists p, rest, _, _. split; [reflexivity|]. split; [reflexivity|].
      cbn [uvpd]. rewrite upd_same. apply pde_has_P.
  - left. auto.
Qed.

(** A successful [page_insert] returns 0 and leaves the entry of [va]
    present in a present page table, holding [page2pa pp | perm | PTE_P]. *)
Lemma page_insert_inv m pg pp va perm m' pg' v :
  page_insert m pg pp va perm = (m', pg', Ret v) ->
  v = 0 /\
  Z.land (uvpd pg' (PDX va)) PTE_P <> 0 /\
  uvpt pg' (PGNUM va) = u32 (Z.lor (page2pa pp) (Z.lor perm PTE_P)).
Proof.
  unfold page_insert.
  destruct (pgdir_walk_create m pg va)
    as [[Hp Hw]|[(Hz & Hfl & Hw)|(Hz & p & rest & m1 & pg1 & Hfl & Hw & Hp)]];
    rewrite Hw; [|discriminate|].
  - destruct (Z.land (uvpt pg (PGNUM va)) PTE_P =? 0).
    + intros H. injection H as _ <- <-. cbn [uvpd uvpt]. rewrite upd_same. auto.
    + pose proof (page_remove_uvpd (incref m pp) pg va) as Hu.
      destruct (page_remove (incref m pp) pg va) as [m3 pg3]. cbn [snd] in Hu.
      intros H. injection H as _ <- <-. cbn [uvpd uvpt]. rewrite upd_same, Hu. auto.
  - destruct (Z.land (uvpt pg1 (PGNUM va)) PTE_P =? 0).
    + intros H. injection H as _ <- <-. cbn [uvpd uvpt]. rewrite upd_same. auto.
    + pose proof (page_remove_uvpd (incref m1 pp) pg1 va) as Hu.
      destruct (page_remove (incref m1 pp) pg1 va) as [m3 pg3]. cbn [snd] in Hu.
      intros H. injection H as _ <- <-. cbn [uvpd uvpt]. rewrite upd_same, Hu. auto.
Qed.

(** The only failure of [page_insert] is [-E_NO_MEM], with nothing
    changed. *)
Lemma page_insert_fail m pg pp va perm m' pg' e :
  page_insert m pg pp va perm = (m', pg', Neg e) ->
  e = E_NO_MEM /\ m' = m /\ pg' = pg.
Proof.
  unfold page_insert.
  destruct (pgdir_walk m pg va true) as [[m1 pg1]|].
  - destruct (Z.land (uvpt pg1 (PGNUM va)) PTE_P =? 0).
    + discriminate.
    + destruct (page_remove (incref m1 pp) pg1 va). discriminate.
  - intros H. injection H as <- <- <-. auto.
Qed.

(** [page_insert] goes through as soon as the page table of [va] exists or
    a free page is left to build it. *)
Lemma page_insert_avail m pg pp va perm :
  Z.land (uvpd pg (PDX va)) PTE_P <> 0 \/ page_free_list m <> [] ->
  exists m' pg', page_insert m pg pp va perm = (m', pg', Ret 0).
Proof.
  intros Hav. unfold page_insert.
  destruct (pgdir_walk_create m pg va)
    as [[Hp Hw]|[(Hz & Hfl & Hw)|(Hz & p & rest & m1 & pg1 & Hfl & Hw & Hp)]];
    rewrite Hw.
  - destruct (Z.land (uvpt pg (PGNUM va)) PTE_P =? 0); [eauto|].
    destruct (page_remove (incref m pp) pg va). eauto.
  - destruct Hav as [Hav|Hav]; contradiction.
  - destruct (Z.land (uvpt pg1 (PGNUM va)) PTE_P =? 0); [eauto|].
    destruct (page_remove (incref m1 pp) pg1 va). eauto.
Qed.

(** Looking up [va] after a successful [page_insert] finds the inserted
    page, with [perm | PTE_P] as its twelve permission bits. *)
Lemma page_lookup_insert m pg pp va perm m' pg' v :
  page_insert m pg pp va perm = (m', pg', Ret v) ->
  0 <= pp < 2 ^ 20 -> 0 <= perm < 2 ^ 12 ->
  exists pte,
    page_lookup pg' va = Some (pp, pte) /\
    Z.land pte 0xFFF = Z.lor perm PTE_P /\
    0 <= pte < 2 ^ 32.
Proof.
  intros Hins Hpp Hperm.
  destruct (page_insert_inv _ _ _ _ _ _ _ _ Hins) as (_ & Hpde & Hpte).
  assert (Hq : 0 <= Z.lor perm PTE_P < 2 ^ 12).
  { apply lor_range12; [exact Hperm|]. unfold PTE_P. lia. }
  destruct (pte_split pp (Z.lor perm PTE_P) Hpp Hq) as (Hpage & Hlow & Hrange).
  cbv zeta in Hpage, Hlow, Hrange. rewrite <- Hpte in Hpage, Hlow, Hrange.
  exists (uvpt pg' (PGNUM va)).
  split; [|split; assumption].
  unfold page_lookup.
  destruct (Z.eqb_spec (Z.land (uvpd pg' (PDX va)) PTE_P) 0); [contradiction|].
  assert (HP : Z.land (uvpt pg' (PGNUM va)) PTE_P = PTE_P).
  { rewrite (land_flag_of_low _ PTE_P) by (unfold PTE_P; lia).
    rewrite Hlow. apply lor_has_P. }
  rewrite HP. change (PTE_P =? 0) with false. cbv iota. rewrite Hpage. reflexivity.
Qed.

Lemma page_lookup_Some pg va pp pte :
  page_lookup pg va = Some (pp, pte) ->
  Z.land (uvpd pg (PDX va)) PTE_P <> 0 /\
  pte = uvpt pg (PGNUM va) /\
  Z.land pte PTE_P <> 0 /\
  pp = pa2page (PTE_ADDR pte).
Proof.
  unfold page_lookup.
  destruct (Z.eqb_spec (Z.land (uvpd pg (PDX va)) PTE_P) 0); [discriminate|].
  destruct (Z.eqb_spec (Z.land (uvpt pg (PGNUM va)) PTE_P) 0); [discriminate|].
  intros H. injection H as <- <-. auto.
Qed.

End AddressSpaces.

(** ** [sys_page_map] *)

Section PageMap.
Import Kern Syscall.

(** What a call that returns 0 went through. *)
Lemma sys_page_map_inv k srcenvid srcva dstenvid dstva perm k' v :
  sys_page_map k srcenvid srcva dstenvid dstva perm = (k', Ret v) ->
  exists s d pp spte m1 pg,
    envid2env k srcenvid true = inl s /\
    envid2env k dstenvid true = inl d /\
    va_invalid srcva = false /\ va_invalid dstva = false /\
    perm_inappropriate perm = false /\
    page_lookup (env_pgdir (envs k s)) srcva = Some (pp, spte) /\
    (Z.land perm PTE_W <> 0 -> Z.land spte PTE_W <> 0) /\
    page_insert (phys k) (env_pgdir (envs k d)) pp dstva perm = (m1, pg, Ret v) /\
    k' = set_env (set_phys k m1) d (env_set_pgdir (envs k d) pg).
Proof.
  unfold sys_page_map.
  destruct (envid2env k srcenvid true) as [s|e]; [|discriminate].
  destruct (envid2env k dstenvid true) as [d|e]; [|discriminate].
  destruct (va_invalid srcva) eqn:Hsva; [discriminate|].
  destruct (va_invalid dstva) eqn:Hdva; [discriminate|]. cbn [orb].
  destruct (perm_inappropriate perm) eqn:Hperm; [discriminate|].
  destruct (page_lookup (env_pgdir (envs k s)) srcva) as [[pp spte]|] eqn:Hl;
    [|discriminate].
  destruct (Z.eqb_spec (Z.land perm PTE_W) 0) as [Hw|Hw]; cbn [negb andb].
  - destruct (page_insert (phys k) (env_pgdir (envs k d)) pp dstva perm)
      as [[m1 pg] ret] eqn:Hins.
    intros H. injection H as <- ->.
    exists s, d, pp, spte, m1, pg. repeat split; auto.
  - destruct (Z.eqb_spec (Z.land spte PTE_W) 0) as [Hs|Hs]; [discriminate|].
    destruct (page_insert (phys k) (env_pgdir (envs k d)) pp dstva perm)
      as [[m1 pg] ret] eqn:Hins.
    intros H. injection H as <- ->.
    exists s, d, pp, spte, m1, pg. repeat split; auto.
Qed.

(** A call whose checks all pass is the [page_insert] it ends with. *)
Lemma sys_page_map_run k srcenvid srcva dstenvid dstva perm s d pp spte :
  envid2env k srcenvid true = inl s ->
  envid2env k dstenvid true = inl d ->
  va_invalid srcva = false -> va_invalid dstva = false ->
  perm_inappropriate perm = false ->
  page_lookup (env_pgdir (envs k s)) srcva = Some (pp, spte) ->
  Z.land perm PTE_W = 0 \/ Z.land spte PTE_W <> 0 ->
  sys_page_map k srcenvid srcva dstenvid dstva perm =
    let '(m1, pg, ret) :=
      page_insert (phys k) (env_pgdir (envs k d)) pp dstva perm in
    (set_env (set_phys k m1) d (env_set_pgdir (envs k d) pg), ret).
Proof.
  intros Hs Hd Hsva Hdva Hperm Hl Hw. unfold sys_page_map.
  rewrite Hs, Hd, Hsva, Hdva, Hperm, Hl. cbn [orb].
  destruct Hw as [Hw|Hw].
  - rewrite Hw. reflexivity.
  - destruct (Z.eqb_spec (Z.land spte PTE_W) 0); [contradiction|].
    rewrite andb_false_r. reflexivity.
Qed.

Lemma spec_perm_allowed_appropriate perm :
  spec_perm_allowed perm = true ->
  perm_inappropriate perm = false /\ Z.lor perm PTE_P = perm /\ 0 <= perm < 2 ^ 12.
Proof.
  unfold spec_perm_allowed, perm_inappropriate. intros H.
  apply andb_prop in H as [H HU]. apply andb_prop in H as [HS HP].
  apply Z.eqb_eq in HS. apply negb_true_iff, Z.eqb_neq in HP.
  apply negb_true_iff, Z.eqb_neq in HU.
  split; [|split].
  - rewrite HS. cbn [negb orb].
    apply Z.eqb_neq. intros Hz.
    apply HP. rewrite land_P_bit0.
    apply (f_equal (fun z => Z.testbit z 0)) in Hz.
    rewrite Z.land_spec, Z.bits_0 in Hz.
    change (Z.testbit (Z.lor PTE_U PTE_P) 0) with true in Hz.
    rewrite andb_true_r in Hz. rewrite Hz. reflexivity.
  - rewrite land_P_bit0 in HP.
    apply Z.bits_inj'. intros n Hn. rewrite Z.lor_spec.
    destruct (Z.eq_dec n 0) as [->|Hne].
    + destruct (Z.testbit perm 0); [reflexivity|]. contradiction HP. reflexivity.
    + replace (Z.testbit PTE_P n) with false; [apply orb_false_r|].
      symmetry. unfold PTE_P. change 1 with (2 ^ 0). apply Z.pow2_bits_false. lia.
  - apply perm_in_syscall_range. exact HS.
Qed.

(** C6.  For environments the caller may name and a 32-bit source address
    space: (1) after a call of [sys_page_map] that returns 0 with an allowed
    permission word, the source address was mapped to some page [pp],
    looking up the destination address in the destination environment
    finds the same page [pp] with exactly the requested permission bits,
    and the new entry is writable only if the source entry was; (2) a call
    that asks for [PTE_W] while the source address has no writable mapping
    returns [-E_INVAL] and leaves the whole kernel state, the destination
    address space included, as it was. *)
Theorem sys_page_map_spec (k : kernel) (srcenvid srcva dstenvid dstva perm s d : Z) :
  envid2env k srcenvid true = inl s ->
  envid2env k dstenvid true = inl d ->
  pgdir_ok (env_pgdir (envs k s)) ->
  (forall k' v,
     spec_perm_allowed perm = true ->
     sys_page_map k srcenvid srcva dstenvid dstva perm = (k', Ret v) ->
     v = 0 /\
     exists pp spte dpte,
       page_lookup (env_pgdir (envs k s)) srcva = Some (pp, spte) /\
       page_lookup (env_pgdir (envs k' d)) dstva = Some (pp, dpte) /\
       Z.land dpte 0xFFF = perm /\
       (Z.land dpte PTE_W <> 0 -> Z.land spte PTE_W <> 0)) /\
  (Z.land perm PTE_W <> 0 ->
   (forall pp spte, page_lookup (env_pgdir (envs k s)) srcva = Some (pp, spte) ->
                    Z.land spte PTE_W = 0) ->
   sys_page_map k srcenvid srcva dstenvid dstva perm = (k, Neg E_INVAL)).
Proof.
  intros Hs Hd Hok. split.
  - intros k' v Hallowed Hcall.
    destruct (spec_perm_allowed_appropriate perm Hallowed) as (_ & HP & Hrange).
    destruct (sys_page_map_inv _ _ _ _ _ _ _ _ Hcall)
      as (s' & d' & pp & spte & m1 & pg & Hs' & Hd' & _ & _ & _ & Hl & Hw & Hins & ->).
    rewrite Hs in Hs'. injection Hs' as <-.
    rewrite Hd in Hd'. injection Hd' as <-.
    destruct (page_lookup_Some _ _ _ _ Hl) as (_ & Hspte & _ & Hpp).
    assert (Hppr : 0 <= pp < 2 ^ 20).
    { rewrite Hpp. apply pa2page_range. rewrite Hspte. apply Hok. }
    destruct (page_lookup_insert _ _ _ _ _ _ _ _ Hins Hppr Hrange)
      as (dpte & Hdl & Hlow & _).
    destruct (page_insert_inv _ _ _ _ _ _ _ _ Hins) as (-> & _).
    split; [reflexivity|].
    exists pp, spte, dpte. split; [exact Hl|].
    rewrite envs_set_env_same. cbn [env_pgdir env_set_pgdir].
    split; [exact Hdl|]. rewrite HP in Hlow. split; [exact Hlow|].
    intros Hdw. apply Hw.
    rewrite (land_flag_of_low dpte PTE_W) in Hdw by (unfold PTE_W; lia).
    rewrite Hlow in Hdw. exact Hdw.
  - intros Hw Hro. unfold sys_page_map. rewrite Hs, Hd.
    destruct (va_invalid srcva || va_invalid dstva); [reflexivity|].
    destruct (perm_inappropriate perm); [reflexivity|].
    destruct (page_lookup (env_pgdir (envs k s)) srcva) as [[pp spte]|] eqn:Hl;
      [|reflexivity].
    rewrite (Hro _ _ eq_refl).
    destruct (Z.eqb_spec (Z.land perm PTE_W) 0); [contradiction|]. reflexivity.
Qed.

End PageMap.

(** ** The permission test *)

Section Permissions.
Import Kern Syscall Sample.

(** What the test in the three syscalls lets through: words inside
    [PTE_SYSCALL] with at least one of [PTE_P] and [PTE_U]. *)
Lemma perm_inappropriate_false_iff (perm : Z) :
  perm_inappropriate perm = false <->
  Z.land perm (Z.lnot PTE_SYSCALL) = 0 /\ Z.land perm (Z.lor PTE_U PTE_P) <> 0.
Proof.
  unfold perm_inappropriate. split.
  - intros H. apply orb_false_elim in H as [H1 H2].
    apply negb_false_iff, Z.eqb_eq in H1. apply Z.eqb_neq in H2. auto.
  - intros [H1 H2]. rewrite H1. cbn [negb orb]. apply Z.eqb_neq. exact H2.
Qed.

(** Whatever the specification allows passes the test. *)
Lemma spec_perm_allowed_passes (perm : Z) :
  spec_perm_allowed perm = true -> perm_inappropriate perm = false.
Proof. intros H. apply spec_perm_allowed_appropriate. exact H. Qed.

(** C5.  The permission test of [sys_page_alloc], [sys_page_map] and
    [sys_ipc_try_send] does not reject a word that misses one of
    "present" and "user-accessible": [PTE_P] alone and [PTE_U] alone are
    not allowed words, yet the test passes them, [sys_page_alloc] with
    [perm = PTE_P] returns 0 and maps a page the user cannot access,
    [sys_page_map] with [perm = PTE_U] returns 0 and [sys_ipc_try_send]
    with [perm = PTE_P] returns 0 and transfers the page. *)
Theorem perm_test_accepts_single_bit :
  spec_perm_allowed PTE_P = false /\ perm_inappropriate PTE_P = false /\
  spec_perm_allowed PTE_U = false /\ perm_inappropriate PTE_U = false /\
  snd (sys_page_alloc k0 0 0x6000 PTE_P) = Ret 0 /\
  page_lookup (env_pgdir (envs (fst (sys_page_alloc k0 0 0x6000 PTE_P)) 0)) 0x6000
    = Some (30, Z.lor (page2pa 30) PTE_P) /\
  snd (sys_page_map k0 0 0x1000 0x1001 0x1000 PTE_U) = Ret 0 /\
  snd (sys_ipc_try_send k0 0x1002 42 0x1000 PTE_P) = Ret 0 /\
  page_lookup (env_pgdir (envs (fst (sys_ipc_try_send k0 0x1002 42 0x1000 PTE_P)) 2))
              0x5000
    = Some (20, Z.lor (page2pa 20) PTE_P).
Proof. vm_compute. repeat split; reflexivity. Qed.

End Permissions.

(** ** [sys_page_alloc] *)

Section PageAlloc.
Import Kern Syscall Sample.

(** A failed handle check comes after [page_alloc]: the call reports the
    error with the head of the free pool taken and not given back. *)
Lemma sys_page_alloc_bad_env k envid va perm p rest e :
  va_invalid va = false -> perm_inappropriate perm = false ->
  page_free_list (phys k) = p :: rest ->
  envid2env k envid true = inr e ->
  sys_page_alloc k envid va perm
    = (set_phys k (mk_phys (pp_ref (phys k)) rest), Neg e).
Proof.
  intros Hva Hperm Hfl He. unfold sys_page_alloc, page_alloc.
  rewrite Hva, Hperm, Hfl.
  change (envid2env (set_phys k (mk_phys (pp_ref (phys k)) rest)) envid true)
    with (envid2env k envid true).
  rewrite He. reflexivity.
Qed.

(** The same when [page_insert] cannot build the page table: the page
    taken for the mapping was the last one, and it is not given back. *)
Lemma sys_page_alloc_no_page_table k envid va perm p e :
  va_invalid va = false -> perm_inappropriate perm = false ->
  page_free_list (phys k) = [p] ->
  envid2env k envid true = inl e ->
  Z.land (uvpd (env_pgdir (envs k e)) (PDX va)) PTE_P = 0 ->
  snd (sys_page_alloc k envid va perm) = Neg E_NO_MEM /\
  page_free_list (phys (fst (sys_page_alloc k envid va perm))) = [].
Proof.
  intros Hva Hperm Hfl He Hpde. unfold sys_page_alloc, page_alloc.
  rewrite Hva, Hperm, Hfl.
  change (envid2env (set_phys k (mk_phys (pp_ref (phys k)) [])) envid true)
    with (envid2env k envid true).
  rewrite He. unfold page_insert, pgdir_walk, page_alloc.
  cbn [set_phys phys envs page_free_list]. rewrite Hpde.
  cbn. auto.
Qed.

(** C7.  [sys_page_alloc] does mutate state before it reports a failure.
    In [k0] the free pool is [30; 31; 32]; the call for the handle
    [0x7777], which names no environment, returns [-E_BAD_ENV] and leaves
    the pool at [31; 32], with page 30 mapped nowhere (reference count 0).
    In [k_low] the pool is [30]; the call for an address whose page table
    does not exist yet returns [-E_NO_MEM] and leaves the pool empty. *)
Theorem sys_page_alloc_error_loses_page :
  envid2env k0 0x7777 true = inr E_BAD_ENV /\
  page_free_list (phys k0) = [30; 31; 32] /\
  snd (sys_page_alloc k0 0x7777 0x6000 7) = Neg E_BAD_ENV /\
  page_free_list (phys (fst (sys_page_alloc k0 0x7777 0x6000 7))) = [31; 32] /\
  pp_ref (phys (fst (sys_page_alloc k0 0x7777 0x6000 7))) 30 = 0 /\
  page_free_list (phys k_low) = [30] /\
  snd (sys_page_alloc k_low 0 0x400000 7) = Neg E_NO_MEM /\
  page_free_list (phys (fst (sys_page_alloc k_low 0 0x400000 7))) = [] /\
  pp_ref (phys (fst (sys_page_alloc k_low 0 0x400000 7))) 30 = 0.
Proof. vm_compute. repeat split; reflexivity. Qed.

End PageAlloc.

(** ** [sys_exofork] *)

Section Exofork.
Import Kern Syscall Fork Sample.

Lemma s32_range (x : Z) : - 2 ^ 31 <= s32 x < 2 ^ 31.
Proof.
  unfold s32, u32. pose proof (Z.mod_pos_bound x (2 ^ 32) ltac:(lia)) as H.
  destruct (Z.ltb_spec (x mod 2 ^ 32) (2 ^ 31)); lia.
Qed.

Lemma s32_small (x : Z) : 0 <= x < 2 ^ 31 -> s32 x = x.
Proof.
  intros H. unfold s32, u32. rewrite Z.mod_small by lia.
  destruct (Z.ltb_spec x (2 ^ 31)); lia.
Qed.

Lemma s32_wraps_negative (x : Z) : 2 ^ 31 <= x < 2 ^ 32 -> s32 x < 0.
Proof.
  intros H. unfold s32, u32. rewrite Z.mod_small by lia.
  destruct (Z.ltb_spec x (2 ^ 31)); lia.
Qed.

(** Masking the slot bits away rounds down to a multiple of [NENV]. *)
Lemma land_lnot_slot_bits (x : Z) :
  Z.land x (Z.lnot (NENV - 1)) = 1024 * (x / 1024).
Proof.
  change (NENV - 1) with (Z.ones 10).
  rewrite <- Z.ldiff_land, Z.ldiff_ones_r by lia.
  rewrite Z.shiftl_mul_pow2, Z.shiftr_div_pow2 by lia.
  change (2 ^ 10) with 1024. lia.
Qed.

(** A generation and a slot number do not overlap. *)
Lemma lor_generation_slot (g e : Z) :
  0 <= e < 1024 -> Z.lor (1024 * g) e = 1024 * g + e.
Proof.
  intros He.
  assert (Hland : Z.land (1024 * g) e = 0).
  { apply Z.bits_inj'. intros n Hn. rewrite Z.land_spec, Z.bits_0.
    destruct (Z.ltb_spec n 10) as [Hlt|Hge].
    - replace (1024 * g) with (g * 2 ^ 10) by lia.
      rewrite Z.mul_pow2_bits_low by lia. reflexivity.
    - destruct (Z.eq_dec e 0) as [->|Hne]; [rewrite Z.bits_0; apply andb_false_r|].
      rewrite (Z.bits_above_log2 e n); [apply andb_false_r|lia|].
      assert (Z.log2 e < 10) by (apply Z.log2_lt_pow2; lia). lia. }
  pose proof (Z.add_lor_land (1024 * g) e) as H. rewrite Hland in H. lia.
Qed.

(** The next handle of a slot: positive, carrying the slot number in its
    low bits, and different from the handle the slot had before. *)
Lemma next_env_id_spec (old_id e : Z) :
  0 <= e < NENV ->
  0 < next_env_id old_id e /\
  ENVX (next_env_id old_id e) = e /\
  next_env_id old_id e <> old_id.
Proof.
  change NENV with 1024. intros He. unfold next_env_id.
  change (Z.shiftl 1 ENVGENSHIFT) with 4096.
  rewrite land_lnot_slot_bits.
  pose proof (s32_range (old_id + 4096)) as Hs.
  set (s := s32 (old_id + 4096)) in *.
  set (g := if 1024 * (s / 1024) <=? 0 then 4096 else 1024 * (s / 1024)).
  assert (Hg : exists h, g = 1024 * h /\ 0 < h).
  { unfold g. destruct (Z.leb_spec (1024 * (s / 1024)) 0).
    - exists 4. lia.
    - exists (s / 1024). lia. }
  destruct Hg as (h & Hgh & Hh). rewrite Hgh.
  rewrite lor_generation_slot by exact He.
  split; [lia|]. split.
  - unfold ENVX. change (NENV - 1) with (Z.ones 10).
    rewrite Z.land_ones by lia. change (2 ^ 10) with 1024.
    rewrite Z.add_comm, Z.mul_comm, Z.mod_add by lia. apply Z.mod_small. lia.
  - intros Heq. subst old_id.
    unfold g in Hgh. destruct (Z.leb_spec (1024 * (s / 1024)) 0) as [Hle|Hgt].
    + assert (h = 4) by lia. subst h.
      assert (Hs' : s = 1024 * 4 + e + 4096) by (apply s32_small; lia).
      assert (s / 1024 = 8).
      { rewrite Hs'. replace (1024 * 4 + e + 4096) with (e + 8 * 1024) by lia.
        rewrite Z.div_add by lia. rewrite Z.div_small by lia. lia. }
      lia.
    + assert (Hdm := Z.div_mod s 1024 ltac:(lia)).
      assert (Hm := Z.mod_pos_bound s 1024 ltac:(lia)).
      destruct (Z.lt_ge_cases (1024 * h + e + 4096) (2 ^ 31)) as [Hfit|Hwrap].
      * assert (Hs' : s = 1024 * h + e + 4096) by (apply s32_small; lia).
        assert (s / 1024 = h + 4).
        { rewrite Hs'. replace (1024 * h + e + 4096) with (e + (h + 4) * 1024) by lia.
          rewrite Z.div_add by lia. rewrite Z.div_small by lia. lia. }
        lia.
      * assert (s < 0) by (apply s32_wraps_negative; lia).
        lia.
Qed.

(** C4.  With the free slots of the environment table being slots of the
    table: a call of [sys_exofork] that returns a handle [id] took the head
    [e] of the free list; the new environment in slot [e] carries [id],
    which is positive, has [e] as its slot bits and differs from the handle
    the slot had before; it is [ENV_NOT_RUNNABLE]; its saved registers are
    the caller's with [reg_eax] set to 0, so it resumes at the caller's
    [tf_eip] reading 0 as the result, while the caller gets [id]; its
    parent is the caller; and [fork] takes its parent branch on the
    caller's result and its child branch on the register the new
    environment resumes with.  The call does return a handle whenever a
    free slot and a free page exist. *)
Theorem sys_exofork_spec (k : kernel) :
  Forall (fun e => 0 <= e < NENV) (env_free_list k) ->
  ~ In (curenv k) (env_free_list k) ->
  (forall k' id,
     sys_exofork k = (k', Ret id) ->
     exists e,
       env_free_list k = e :: env_free_list k' /\
       env_id (envs k' e) = id /\
       0 < id /\ ENVX id = e /\ id <> env_id (envs k e) /\
       env_status (envs k' e) = ENV_NOT_RUNNABLE /\
       env_tf (envs k' e) = set_eax (env_tf (envs k (curenv k))) 0 /\
       reg_eax (tf_regs (env_tf (envs k' e))) = 0 /\
       tf_eip (env_tf (envs k' e)) = tf_eip (env_tf (envs k (curenv k))) /\
       env_parent_id (envs k' e) = env_id (envs k (curenv k)) /\
       fork_dispatch id = Fork_parent /\
       fork_dispatch (reg_eax (tf_regs (env_tf (envs k' e)))) = Fork_child /\
       curenv k' = curenv k /\
       envs k' (curenv k) = envs k (curenv k)) /\
  (env_free_list k <> [] -> page_free_list (phys k) <> [] ->
   exists k' id, sys_exofork k = (k', Ret id)).
Proof.
  intros Hfree Hcur. unfold sys_exofork, env_alloc, page_alloc. split.
  - intros k' id.
    destruct (env_free_list k) as [|e rest] eqn:Hfl; [discriminate|].
    destruct (page_free_list (phys k)) as [|p prest]; [discriminate|].
    assert (He : 0 <= e < NENV) by (inversion Hfree; assumption).
    assert (Hne : curenv k <> e) by (intros E; apply Hcur; left; auto).
    destruct (next_env_id_spec (env_id (envs k e)) e He) as (Hpos & Hslot & Hnew).
    intros H. injection H as <- <-.
    exists e. cbn [env_free_list curenv]. rewrite envs_set_env_same.
    rewrite envs_set_env_other by exact Hne.
    cbn [env_id env_status env_tf env_parent_id env_set_tf env_set_status
         envs set_eax tf_regs reg_eax tf_eip].
    rewrite upd_same, (upd_other _ e (curenv k)) by exact Hne.
    cbn [env_id env_tf env_parent_id].
    repeat split; auto.
    unfold fork_dispatch.
    destruct (Z.ltb_spec (next_env_id (env_id (envs k e)) e) 0); [lia|].
    destruct (Z.eqb_spec (next_env_id (env_id (envs k e)) e) 0); [lia|reflexivity].
  - intros He Hp.
    destruct (env_free_list k) as [|e rest]; [contradiction|].
    destruct (page_free_list (phys k)) as [|p prest]; [contradiction|].
    eauto.
Qed.

End Exofork.

(** ** Rendezvous IPC *)

Section Ipc.
Import Kern Syscall Sample.

(** What [ipc_deliver] writes into the target and what it keeps. *)
Lemma ipc_deliver_target k T value :
  let d := envs (ipc_deliver k T value) T in
  env_ipc_recving d = false /\
  env_ipc_from d = env_id (envs k (curenv k)) /\
  env_ipc_value d = value /\
  env_status d = ENV_RUNNABLE /\
  reg_eax (tf_regs (env_tf d)) = 0 /\
  env_ipc_perm d = env_ipc_perm (envs k T) /\
  env_pgdir d = env_pgdir (envs k T).
Proof.
  unfold ipc_deliver. cbv zeta. rewrite envs_set_env_same.
  cbn. repeat split; reflexivity.
Qed.

(** A receive that passes its alignment check does not return: the caller
    is parked, not runnable and receiving.  A destination below [UTOP] is
    recorded; any other leaves [env_ipc_dstva] as it was. *)
Lemma sys_ipc_recv_parks k dstva :
  (dstva < UTOP -> dstva mod PGSIZE = 0) ->
  let k' := fst (sys_ipc_recv k dstva) in
  snd (sys_ipc_recv k dstva) = None /\
  env_status (envs k' (curenv k)) = ENV_NOT_RUNNABLE /\
  env_ipc_recving (envs k' (curenv k)) = true /\
  env_ipc_dstva (envs k' (curenv k))
    = (if dstva <? UTOP then dstva else env_ipc_dstva (envs k (curenv k))) /\
  env_ipc_perm (envs k' (curenv k)) = env_ipc_perm (envs k (curenv k)).
Proof.
  intros Hal. cbv zeta. unfold sys_ipc_recv.
  destruct (Z.ltb_spec dstva UTOP) as [Hlt|Hge].
  - rewrite (Hal Hlt). change (0 =? 0) with true.
    cbn [negb andb fst snd]. rewrite envs_set_env_same.
    cbn. repeat split; reflexivity.
  - cbn [andb fst snd]. rewrite envs_set_env_same. cbn. repeat split; reflexivity.
Qed.

(** A send to an environment that is not receiving fails at once and
    changes nothing. *)
Lemma sys_ipc_try_send_not_recving k envid value srcva perm T :
  envid2env k envid false = inl T ->
  env_ipc_recving (envs k T) = false ->
  sys_ipc_try_send k envid value srcva perm = (k, Neg E_IPC_NOT_RECV).
Proof.
  intros HT Hr. unfold sys_ipc_try_send. rewrite HT, Hr. reflexivity.
Qed.

(** Every successful send, case by case.  The mailbox flag, sender, value
    and run state are written in all three cases.  [env_ipc_perm] and the
    target's address space depend on the case: a page offered and wanted is
    mapped with [perm] and [env_ipc_perm] is [perm]; no page offered leaves
    the address space alone and sets [env_ipc_perm] to 0; a page offered
    but not wanted leaves the address space alone and [env_ipc_perm] as it
    was. *)
Lemma sys_ipc_try_send_success k envid value srcva perm k' v :
  sys_ipc_try_send k envid value srcva perm = (k', Ret v) ->
  exists T,
    envid2env k envid false = inl T /\
    env_ipc_recving (envs k T) = true /\
    v = 0 /\
    env_ipc_recving (envs k' T) = false /\
    env_ipc_from (envs k' T) = env_id (envs k (curenv k)) /\
    env_ipc_value (envs k' T) = value /\
    env_status (envs k' T) = ENV_RUNNABLE /\
    reg_eax (tf_regs (env_tf (envs k' T))) = 0 /\
    ((srcva < UTOP /\ env_ipc_dstva (envs k T) < UTOP /\
      env_ipc_perm (envs k' T) = perm /\
      (pgdir_ok (env_pgdir (envs k (curenv k))) ->
       exists pp spte dpte,
         page_lookup (env_pgdir (envs k (curenv k))) srcva = Some (pp, spte) /\
         page_lookup (env_pgdir (envs k' T)) (env_ipc_dstva (envs k T))
           = Some (pp, dpte) /\
         Z.land dpte 0xFFF = Z.lor perm PTE_P))
     \/ (UTOP <= srcva /\
         env_ipc_perm (envs k' T) = 0 /\
         env_pgdir (envs k' T) = env_pgdir (envs k T))
     \/ (srcva < UTOP /\ UTOP <= env_ipc_dstva (envs k T) /\
         env_ipc_perm (envs k' T) = env_ipc_perm (envs k T) /\
         env_pgdir (envs k' T) = env_pgdir (envs k T))).
Proof.
  unfold sys_ipc_try_send.
  destruct (envid2env k envid false) as [T|e] eqn:HT; [|discriminate].
  destruct (env_ipc_recving (envs k T)) eqn:Hrecv; [|discriminate]. cbn [negb].
  destruct (Z.ltb_spec srcva UTOP) as [Hsrc|Hsrc].
  - destruct (srcva mod PGSIZE =? 0); [|discriminate]. cbn [negb].
    destruct (perm_inappropriate perm) eqn:Hperm; [discriminate|].
    destruct (page_lookup (env_pgdir (envs k (curenv k))) srcva)
      as [[pp spte]|] eqn:Hl; [|discriminate].
    destruct (negb (Z.land perm PTE_W =? 0) && (Z.land spte PTE_W =? 0));
      [discriminate|].
    destruct (Z.ltb_spec (env_ipc_dstva (envs k T)) UTOP) as [Hdst|Hdst].
    + destruct (page_insert (phys k) (env_pgdir (envs k T))
                  (pa2page (PTE_ADDR spte)) (env_ipc_dstva (envs k T)) perm)
        as [[m1 pg] ret] eqn:Hins.
      destruct ret as [v0|e]; [|discriminate].
      intros H. injection H as <- <-.
      exists T. split; [reflexivity|]. split; [exact Hrecv|]. split; [reflexivity|].
      match goal with |- context [ipc_deliver ?k2 T value] =>
        destruct (ipc_deliver_target k2 T value)
          as (H1 & H2 & H3 & H4 & H5 & H6 & H7) end.
      cbv zeta in *. rewrite H1, H2, H3, H4, H5, H6, H7.
      rewrite !envs_set_env_same. cbn [env_ipc_perm env_set_ipc_perm env_pgdir].
      rewrite !upd_same. cbn [env_pgdir env_set_pgdir].
      repeat split; try reflexivity.
      * destruct (Z.eq_dec (curenv k) T) as [Heq|Hne].
        -- cbn [set_env set_phys curenv envs]. rewrite Heq, !upd_same. reflexivity.
        -- cbn [set_env set_phys curenv envs]. rewrite !upd_other by exact Hne. reflexivity.
      * left. split; [exact Hsrc|]. split; [exact Hdst|]. split; [reflexivity|].
        intros Hok. destruct (page_lookup_Some _ _ _ _ Hl) as (_ & Hspte & _ & Hpp).
        assert (Hppr : 0 <= pp < 2 ^ 20).
        { rewrite Hpp. apply pa2page_range. rewrite Hspte. apply Hok. }
        rewrite <- Hpp in Hins.
        destruct (page_lookup_insert _ _ _ _ _ _ _ _ Hins Hppr
                    (perm_appropriate_range _ Hperm)) as (dpte & Hdl & Hlow & _).
        exists pp, spte, dpte. split; [reflexivity|]. split; [exact Hdl|exact Hlow].
    + intros H. injection H as <- <-.
      exists T. split; [reflexivity|]. split; [exact Hrecv|]. split; [reflexivity|].
      destruct (ipc_deliver_target k T value) as (H1 & H2 & H3 & H4 & H5 & H6 & H7).
      cbv zeta in *. rewrite H1, H2, H3, H4, H5, H6, H7.
      repeat split; try reflexivity. right; right. auto.
  - intros H. injection H as <- <-.
    exists T. split; [reflexivity|]. split; [exact Hrecv|]. split; [reflexivity|].
    match goal with |- context [ipc_deliver ?k2 T value] =>
      destruct (ipc_deliver_target k2 T value)
        as (H1 & H2 & H3 & H4 & H5 & H6 & H7) end.
    cbv zeta in *. rewrite H1, H2, H3, H4, H5, H6, H7.
    rewrite !envs_set_env_same. cbn [env_ipc_perm env_set_ipc_perm env_pgdir].
    repeat split; try reflexivity.
    + destruct (Z.eq_dec (curenv k) T) as [Heq|Hne].
      * cbn [set_env set_phys curenv envs]. rewrite Heq, !upd_same. reflexivity.
      * cbn [set_env set_phys curenv envs]. rewrite !upd_other by exact Hne. reflexivity.
    + right; left. auto.
Qed.

(** A failed send leaves the target's receiving flag as it was. *)
Lemma sys_ipc_try_send_failure k envid value srcva perm k' e T :
  envid2env k envid false = inl T ->
  sys_ipc_try_send k envid value srcva perm = (k', Neg e) ->
  env_ipc_recving (envs k' T) = env_ipc_recving (envs k T).
Proof.
  intros HT. unfold sys_ipc_try_send. rewrite HT.
  destruct (env_ipc_recving (envs k T)) eqn:Hrecv; cbn [negb];
    [|intros H; injection H as <- _; exact Hrecv].
  destruct (srcva <? UTOP); [|discriminate].
  destruct (srcva mod PGSIZE =? 0); cbn [negb];
    [|intros H; injection H as <- _; exact Hrecv].
  destruct (perm_inappropriate perm); [intros H; injection H as <- _; exact Hrecv|].
  destruct (page_lookup (env_pgdir (envs k (curenv k))) srcva) as [[pp spte]|];
    [|intros H; injection H as <- _; exact Hrecv].
  destruct (negb (Z.land perm PTE_W =? 0) && (Z.land spte PTE_W =? 0));
    [intros H; injection H as <- _; exact Hrecv|].
  destruct (env_ipc_dstva (envs k T) <? UTOP); [|discriminate].
  destruct (page_insert (phys k) (env_pgdir (envs k T))
              (pa2page (PTE_ADDR spte)) (env_ipc_dstva (envs k T)) perm)
    as [[m1 pg] ret].
  destruct ret as [v0|e0]; [discriminate|].
  intros H. injection H as <- _. rewrite envs_set_env_same. exact Hrecv.
Qed.

End Ipc.

(** ** Copy-on-write duplication *)

Section Duppage.
Import Kern Syscall Fork Sample.

Lemma page_address (pn : Z) :
  0 <= pn < PGNUM UTOP ->
  u32 (pn * PGSIZE) = pn * PGSIZE /\
  va_invalid (pn * PGSIZE) = false /\
  PGNUM (pn * PGSIZE) = pn.
Proof.
  change (PGNUM UTOP) with 0xEEC00. intros H. unfold PGSIZE.
  split; [apply u32_small; lia|]. split.
  - unfold va_invalid, PGSIZE. change UTOP with 0xeec00000.
    destruct (Z.leb_spec 0xeec00000 (pn * 4096)); [lia|].
    rewrite Z.mod_mul by lia. reflexivity.
  - unfold PGNUM, PGSHIFT. rewrite Z.shiftr_div_pow2 by lia.
    change (2 ^ 12) with 4096. apply Z.div_mul. lia.
Qed.

Lemma envid2env_self k checkperm : envid2env k 0 checkperm = inl (curenv k).
Proof. reflexivity. Qed.

(** The first [sys_page_map] of [duppage]: the parent's page into the
    child, at the same address. *)
Lemma map_into_child k envid c addr pp pte perm :
  envid2env k envid true = inl c ->
  va_invalid addr = false ->
  perm_inappropriate perm = false -> Z.land perm PTE_W = 0 ->
  page_lookup (env_pgdir (envs k (curenv k))) addr = Some (pp, pte) ->
  sys_page_map k 0 addr envid addr perm =
    let '(m1, pg, ret) :=
      page_insert (phys k) (env_pgdir (envs k c)) pp addr perm in
    (set_env (set_phys k m1) c (env_set_pgdir (envs k c) pg), ret).
Proof.
  intros Hc Hva Hperm Hw Hl.
  apply (sys_page_map_run k 0 addr envid addr perm (curenv k) c pp pte);
    auto using envid2env_self.
Qed.

Lemma low_bits_flag (pte perm flag : Z) :
  Z.land pte 0xFFF = perm -> 0 <= flag < 2 ^ 12 ->
  Z.land pte flag = Z.land perm flag.
Proof. intros H Hf. rewrite (land_flag_of_low pte flag Hf), H. reflexivity. Qed.

(** On a page the caller has mapped, [duppage] is the two [page_insert]
    of [round_result]: every check of the two [sys_page_map] passes. *)
Lemma duppage_run k envid pn c pp pte :
  0 <= pn < PGNUM UTOP ->
  envid2env k envid true = inl c ->
  c <> curenv k ->
  page_lookup (env_pgdir (envs k (curenv k))) (pn * PGSIZE) = Some (pp, pte) ->
  duppage k envid pn
    = round_result k c pp (pn * PGSIZE)
        (negb (Z.land pte (Z.lor PTE_W PTE_COW) =? 0)).
Proof.
  intros Hpn Hc Hne Hl.
  destruct (page_address pn Hpn) as (Hu32 & Hva & Hpgnum).
  set (addr := pn * PGSIZE) in *.
  destruct (page_lookup_Some _ _ _ _ Hl) as (Hpde & Hpteq & Hpresent & _).
  rewrite Hpgnum in Hpteq.
  unfold duppage, round_result, cur_uvpt. fold addr. rewrite Hu32, <- Hpteq.
  destruct (Z.eqb_spec (Z.land pte PTE_P) 0); [contradiction|].
  destruct (negb (Z.land pte (Z.lor PTE_W PTE_COW) =? 0)).
  - rewrite (map_into_child k envid c addr pp pte cow_perm) by auto.
    destruct (page_insert (phys k) (env_pgdir (envs k c)) pp addr cow_perm)
      as [[m1 pg1] r1].
    destruct (is_neg r1); [reflexivity|].
    set (k1 := set_env (set_phys k m1) c (env_set_pgdir (envs k c) pg1)).
    assert (Hpar1 : envs k1 (curenv k) = envs k (curenv k)).
    { unfold k1. rewrite envs_set_env_other by auto. reflexivity. }
    assert (Hsecond : sys_page_map k1 0 addr 0 addr cow_perm =
              let '(m2, pg, ret) :=
                page_insert (phys k1) (env_pgdir (envs k1 (curenv k))) pp addr
                            cow_perm in
              (set_env (set_phys k1 m2) (curenv k)
                       (env_set_pgdir (envs k1 (curenv k)) pg), ret)).
    { apply (sys_page_map_run k1 0 addr 0 addr cow_perm (curenv k) (curenv k) pp pte);
        try reflexivity; auto.
      change (curenv k1) with (curenv k). rewrite Hpar1. exact Hl. }
    rewrite Hsecond.
    destruct (page_insert (phys k1) (env_pgdir (envs k1 (curenv k))) pp addr cow_perm)
      as [[m2 pg2] r2].
    reflexivity.
  - rewrite (map_into_child k envid c addr pp pte ro_perm) by auto.
    destruct (page_insert (phys k) (env_pgdir (envs k c)) pp addr ro_perm)
      as [[m1 pg1] r1].
    reflexivity.
Qed.

(** A [round_result] that is [Done] returned 0. *)
Lemma round_result_ret k c pp addr shared k' r :
  round_result k c pp addr shared = Done k' r -> r = Ret 0.
Proof.
  unfold round_result.
  destruct (page_insert (phys k) (env_pgdir (envs k c)) pp addr
              (if shared then cow_perm else ro_perm)) as [[m1 pg1] r1] eqn:Hins1.
  destruct r1 as [v1|e1]; [|discriminate].
  destruct (page_insert_inv _ _ _ _ _ _ _ _ Hins1) as (-> & _). clear Hins1.
  cbn [is_neg]. change (0 <? 0) with false. cbv iota.
  destruct shared.
  - destruct (page_insert _ _ pp addr cow_perm) as [[m2 pg2] r2].
    cbv zeta. destruct (is_neg r2); [discriminate|].
    intros H. injection H as _ <-. reflexivity.
  - cbv zeta. intros H. injection H as _ <-. reflexivity.
Qed.

(** On a mapped page other than the exception stack, the round of the loop
    is [duppage]. *)
Lemma fork_page_run k envid pn c pp pte :
  0 <= pn < PGNUM UTOP ->
  pn * PGSIZE <> UXSTACKTOP - PGSIZE ->
  envid2env k envid true = inl c ->
  c <> curenv k ->
  page_lookup (env_pgdir (envs k (curenv k))) (pn * PGSIZE) = Some (pp, pte) ->
  fork_page k envid pn = duppage k envid pn.
Proof.
  intros Hpn Hxstack Hc Hne Hl.
  pose proof (duppage_run k envid pn c pp pte Hpn Hc Hne Hl) as Hdup.
  destruct (page_address pn Hpn) as (Hu32 & Hva & Hpgnum).
  destruct (page_lookup_Some _ _ _ _ Hl) as (Hpde & Hpteq & Hpresent & _).
  rewrite Hpgnum in Hpteq.
  unfold fork_page. rewrite Hu32.
  destruct (Z.eqb_spec (pn * PGSIZE) (UXSTACKTOP - PGSIZE)); [contradiction|].
  unfold cur_uvpd, cur_uvpt. rewrite <- Hpteq.
  destruct (Z.eqb_spec (Z.land (uvpd (env_pgdir (envs k (curenv k)))
                                     (PDX (pn * PGSIZE))) PTE_P) 0);
    [contradiction|].
  destruct (Z.eqb_spec (Z.land pte PTE_P) 0); [contradiction|].
  rewrite Hdup.
  destruct (round_result k c pp (pn * PGSIZE)
              (negb (Z.land pte (Z.lor PTE_W PTE_COW) =? 0)))
    as [k1 ret|k1] eqn:Hd; [|reflexivity].
  apply round_result_ret in Hd. subst ret. reflexivity.
Qed.

(** What a completed [round_result] leaves at the duplicated address. *)
Lemma round_result_post k c pp addr pte k' r :
  c <> curenv k ->
  0 <= pp < 2 ^ 20 ->
  page_lookup (env_pgdir (envs k (curenv k))) addr = Some (pp, pte) ->
  round_result k c pp addr (negb (Z.land pte (Z.lor PTE_W PTE_COW) =? 0))
    = Done k' r ->
  curenv k' = curenv k /\
  exists cpte,
    page_lookup (env_pgdir (envs k' c)) addr = Some (pp, cpte) /\
    Z.land cpte PTE_W = 0 /\
    if negb (Z.land pte (Z.lor PTE_W PTE_COW) =? 0) then
      Z.land cpte 0xFFF = cow_perm /\
      exists ppte,
        page_lookup (env_pgdir (envs k' (curenv k))) addr = Some (pp, ppte) /\
        Z.land ppte 0xFFF = cow_perm /\
        Z.land ppte PTE_W = 0
    else
      Z.land cpte 0xFFF = ro_perm /\
      envs k' (curenv k) = envs k (curenv k).
Proof.
  intros Hne Hppr Hl. unfold round_result.
  assert (Hcow : 0 <= cow_perm < 2 ^ 12) by (vm_compute; split; [discriminate|reflexivity]).
  assert (Hro : 0 <= ro_perm < 2 ^ 12) by (vm_compute; split; [discriminate|reflexivity]).
  assert (HW : 0 <= PTE_W < 2 ^ 12) by (unfold PTE_W; lia).
  destruct (negb (Z.land pte (Z.lor PTE_W PTE_COW) =? 0)).
  - destruct (page_insert (phys k) (env_pgdir (envs k c)) pp addr cow_perm)
      as [[m1 pg1] r1] eqn:Hins1.
    destruct r1 as [v1|e1]; [|discriminate].
    destruct (page_insert_inv _ _ _ _ _ _ _ _ Hins1) as (-> & _).
    cbn [is_neg]. change (0 <? 0) with false. cbv iota.
    set (k1 := set_env (set_phys k m1) c (env_set_pgdir (envs k c) pg1)).
    destruct (page_insert (phys k1) (env_pgdir (envs k1 (curenv k))) pp addr cow_perm)
      as [[m2 pg2] r2] eqn:Hins2.
    destruct r2 as [v2|e2]; [|discriminate].
    destruct (page_insert_inv _ _ _ _ _ _ _ _ Hins2) as (-> & _).
    cbn [is_neg]. change (0 <? 0) with false. cbv iota.
    intros H. injection H as <- <-.
    split; [reflexivity|].
    destruct (page_lookup_insert _ _ _ _ _ _ _ _ Hins1 Hppr Hcow)
      as (cpte & Hcl & Hclow & _).
    destruct (page_lookup_insert _ _ _ _ _ _ _ _ Hins2 Hppr Hcow)
      as (ppte & Hpl & Hplow & _).
    change (Z.lor cow_perm PTE_P) with cow_perm in Hclow, Hplow.
    exists cpte. split.
    { rewrite envs_set_env_other by auto. unfold k1.
      cbn [set_phys envs]. rewrite envs_set_env_same. exact Hcl. }
    split; [rewrite (low_bits_flag _ _ PTE_W Hclow HW); reflexivity|].
    split; [exact Hclow|].
    exists ppte. rewrite envs_set_env_same. cbn [env_pgdir env_set_pgdir].
    split; [exact Hpl|]. split; [exact Hplow|].
    rewrite (low_bits_flag _ _ PTE_W Hplow HW). reflexivity.
  - destruct (page_insert (phys k) (env_pgdir (envs k c)) pp addr ro_perm)
      as [[m1 pg1] r1] eqn:Hins1.
    destruct r1 as [v1|e1]; [|discriminate].
    destruct (page_insert_inv _ _ _ _ _ _ _ _ Hins1) as (-> & _).
    cbn [is_neg]. change (0 <? 0) with false. cbv iota.
    intros H. injection H as <- <-.
    split; [reflexivity|].
    destruct (page_lookup_insert _ _ _ _ _ _ _ _ Hins1 Hppr Hro)
      as (cpte & Hcl & Hclow & _).
    change (Z.lor ro_perm PTE_P) with ro_perm in Hclow.
    exists cpte. rewrite envs_set_env_same. cbn [env_pgdir env_set_pgdir].
    split; [exact Hcl|].
    split; [rewrite (low_bits_flag _ _ PTE_W Hclow HW); reflexivity|].
    split; [exact Hclow|].
    rewrite envs_set_env_other by auto. reflexivity.
Qed.

(** A [round_result] completes as soon as the child's page table exists or
    can be built; the parent's exists, the page being mapped there. *)
Lemma round_result_completes k c pp addr pte shared :
  c <> curenv k ->
  page_lookup (env_pgdir (envs k (curenv k))) addr = Some (pp, pte) ->
  Z.land (uvpd (env_pgdir (envs k c)) (PDX addr)) PTE_P <> 0
    \/ page_free_list (phys k) <> [] ->
  exists k', round_result k c pp addr shared = Done k' (Ret 0).
Proof.
  intros Hne Hl Hav. unfold round_result.
  destruct (page_lookup_Some _ _ _ _ Hl) as (Hpde & _).
  destruct (page_insert_avail (phys k) (env_pgdir (envs k c)) pp addr
              (if shared then cow_perm else ro_perm) Hav) as (m1 & pg1 & ->).
  cbn [is_neg]. change (0 <? 0) with false. cbv iota.
  destruct shared; [|eauto].
  set (k1 := set_env (set_phys k m1) c (env_set_pgdir (envs k c) pg1)).
  assert (Hpar1 : envs k1 (curenv k) = envs k (curenv k)).
  { unfold k1. rewrite envs_set_env_other by auto. reflexivity. }
  destruct (page_insert_avail (phys k1) (env_pgdir (envs k1 (curenv k))) pp addr
              cow_perm) as (m2 & pg2 & ->).
  { left. rewrite Hpar1. exact Hpde. }
  cbn [is_neg]. change (0 <? 0) with false. cbv iota. eauto.
Qed.

(** One round of the loop of [fork] on a page [pn] below [UTOP] that
    is not the exception-stack page and that the caller has mapped to page
    [pp] by the 32-bit entry [pte], for a child handle that names another
    environment [c].  The round is a call of [duppage].  Whenever it
    completes: if [pte] has [PTE_W] or [PTE_COW], the child maps the
    address to [pp] with exactly [PTE_P | PTE_U | PTE_COW] (not writable)
    and so does the parent afterwards; otherwise the child maps the address
    to [pp] with exactly [PTE_P | PTE_U] and the parent environment, its
    address space included, is as before.  The round does complete
    whenever the child's page table for the address exists or a free page
    is left to build it. *)
Theorem fork_page_duplicates (k : kernel) (envid pn c pp pte : Z) :
  0 <= pn < PGNUM UTOP ->
  pn * PGSIZE <> UXSTACKTOP - PGSIZE ->
  envid2env k envid true = inl c ->
  c <> curenv k ->
  page_lookup (env_pgdir (envs k (curenv k))) (pn * PGSIZE) = Some (pp, pte) ->
  0 <= pte < 2 ^ 32 ->
  let addr := pn * PGSIZE in
  let shared := negb (Z.land pte (Z.lor PTE_W PTE_COW) =? 0) in
  fork_page k envid pn = duppage k envid pn /\
  (forall k' r,
     duppage k envid pn = Done k' r ->
     r = Ret 0 /\ curenv k' = curenv k /\
     exists cpte,
       page_lookup (env_pgdir (envs k' c)) addr = Some (pp, cpte) /\
       Z.land cpte PTE_W = 0 /\
       if shared then
         Z.land cpte 0xFFF = cow_perm /\
         exists ppte,
           page_lookup (env_pgdir (envs k' (curenv k))) addr = Some (pp, ppte) /\
           Z.land ppte 0xFFF = cow_perm /\
           Z.land ppte PTE_W = 0
       else
         Z.land cpte 0xFFF = ro_perm /\
         envs k' (curenv k) = envs k (curenv k)) /\
  (Z.land (uvpd (env_pgdir (envs k c)) (PDX addr)) PTE_P <> 0
   \/ page_free_list (phys k) <> [] ->
   exists k', duppage k envid pn = Done k' (Ret 0)).
Proof.
  intros Hpn Hxstack Hc Hne Hl Hpte addr shared.
  destruct (page_lookup_Some _ _ _ _ Hl) as (_ & _ & _ & Hppeq).
  assert (Hppr : 0 <= pp < 2 ^ 20) by (rewrite Hppeq; apply pa2page_range; exact Hpte).
  split; [apply (fork_page_run k envid pn c pp pte); assumption|].
  rewrite (duppage_run k envid pn c pp pte Hpn Hc Hne Hl). fold addr shared.
  split.
  - intros k' r Hdone.
    split; [apply (round_result_ret _ _ _ _ _ _ _ Hdone)|].
    apply (round_result_post k c pp addr pte k' r Hne Hppr Hl Hdone).
  - intros Hav. apply (round_result_completes k c pp addr pte shared Hne Hl Hav).
Qed.

End Duppage.

(** ** The loop of [fork] *)

Section ForkLoop.
Import Kern Syscall Fork.

Lemma PDX_of_page (x : Z) : PDX (Z.shiftl (PGNUM x) PGSHIFT) = PDX x.
Proof.
  unfold PDX, PGNUM, PGSHIFT, PDXSHIFT. f_equal.
  rewrite Z.shiftl_mul_pow2, !Z.shiftr_div_pow2 by lia.
  change (2 ^ 22) with (2 ^ 10 * 2 ^ 12).
  rewrite Z.div_mul_cancel_r by lia.
  rewrite Z.div_div by lia. reflexivity.
Qed.

Lemma page_lookup_upd_other pg n v va' :
  PGNUM va' <> n ->
  page_lookup (mk_pgdir (uvpd pg) (upd (uvpt pg) n v)) va' = page_lookup pg va'.
Proof.
  intros H. unfold page_lookup. cbn [uvpd uvpt].
  rewrite upd_other by exact H. reflexivity.
Qed.

(** Building a page table changes no lookup: the new table is empty. *)
Lemma pgdir_walk_lookup m pg va m1 pg1 va' :
  pgdir_walk m pg va true = Some (m1, pg1) ->
  page_lookup pg1 va' = page_lookup pg va'.
Proof.
  unfold pgdir_walk.
  destruct (Z.eqb_spec (Z.land (uvpd pg (PDX va)) PTE_P) 0) as [Hz|Hnz].
  - destruct (page_alloc m) as [[p m0]|]; [|discriminate].
    intros H.
    assert (Hpg : pg1 = mk_pgdir
                    (upd (uvpd pg) (PDX va)
                         (Z.lor (page2pa p) (Z.lor PTE_P (Z.lor PTE_W PTE_U))))
                    (fun n => if PDX (Z.shiftl n PGSHIFT) =? PDX va then 0
                              else uvpt pg n)) by congruence.
    clear H. subst pg1.
    unfold page_lookup. cbn [uvpd uvpt]. rewrite PDX_of_page. unfold upd.
    destruct (Z.eqb_spec (PDX va') (PDX va)) as [Heq|Hneq].
    + rewrite Heq, Hz. change (Z.land 0 PTE_P =? 0) with true.
      destruct (Z.land _ PTE_P =? 0); reflexivity.
    + reflexivity.
  - intros H. injection H as _ <-. reflexivity.
Qed.

Lemma page_remove_lookup m pg va va' :
  PGNUM va' <> PGNUM va ->
  page_lookup (snd (page_remove m pg va)) va' = page_lookup pg va'.
Proof.
  intros H. unfold page_remove.
  destruct (page_lookup pg va) as [[pp pte]|]; [|reflexivity].
  cbn [snd]. apply page_lookup_upd_other. exact H.
Qed.

(** [page_insert] at one address changes no lookup at another page. *)
Lemma page_insert_frame m pg pp va perm m' pg' r va' :
  page_insert m pg pp va perm = (m', pg', r) ->
  PGNUM va' <> PGNUM va ->
  page_lookup pg' va' = page_lookup pg va'.
Proof.
  unfold page_insert. intros H Hne.
  destruct (pgdir_walk m pg va true) as [[m1 pg1]|] eqn:Hw.
  - rewrite <- (pgdir_walk_lookup _ _ _ _ _ va' Hw).
    destruct (Z.land (uvpt pg1 (PGNUM va)) PTE_P =? 0).
    + injection H as _ <- _. apply page_lookup_upd_other. exact Hne.
    + pose proof (page_remove_lookup (incref m1 pp) pg1 va va' Hne) as Hr.
      destruct (page_remove (incref m1 pp) pg1 va) as [m3 pg3]. cbn [snd] in Hr.
      injection H as _ <- _. rewrite page_lookup_upd_other by exact Hne. exact Hr.
  - injection H as _ <- _. reflexivity.
Qed.

(** What a completed round leaves alone: the running environment, the
    identity, run state and parent of every environment, and every lookup
    at another page. *)
Lemma round_result_frame k c pp addr shared k' r :
  round_result k c pp addr shared = Done k' r ->
  curenv k' = curenv k /\
  (forall e, env_id (envs k' e) = env_id (envs k e) /\
             env_status (envs k' e) = env_status (envs k e) /\
             env_parent_id (envs k' e) = env_parent_id (envs k e)) /\
  (forall e va', PGNUM va' <> PGNUM addr ->
     page_lookup (env_pgdir (envs k' e)) va' = page_lookup (env_pgdir (envs k e)) va').
Proof.
  unfold round_result.
  destruct (page_insert (phys k) (env_pgdir (envs k c)) pp addr
              (if shared then cow_perm else ro_perm)) as [[m1 pg1] r1] eqn:Hins1.
  set (k1 := set_env (set_phys k m1) c (env_set_pgdir (envs k c) pg1)).
  assert (Hk1 : (forall e, env_id (envs k1 e) = env_id (envs k e) /\
                           env_status (envs k1 e) = env_status (envs k e) /\
                           env_parent_id (envs k1 e) = env_parent_id (envs k e)) /\
                (forall e va', PGNUM va' <> PGNUM addr ->
                   page_lookup (env_pgdir (envs k1 e)) va'
                     = page_lookup (env_pgdir (envs k e)) va')).
  { split; intros e.
    - destruct (Z.eq_dec e c) as [->|He].
      + unfold k1. rewrite envs_set_env_same. auto.
      + unfold k1. rewrite envs_set_env_other by exact He. auto.
    - intros va' Hva. destruct (Z.eq_dec e c) as [->|He].
      + unfold k1. rewrite envs_set_env_same. cbn [env_pgdir env_set_pgdir].
        apply (page_insert_frame _ _ _ _ _ _ _ _ _ Hins1 Hva).
      + unfold k1. rewrite envs_set_env_other by exact He. reflexivity. }
  destruct Hk1 as [Hid1 Hl1].
  destruct (is_neg r1); [discriminate|].
  destruct shared.
  - destruct (page_insert (phys k1) (env_pgdir (envs k1 (curenv k))) pp addr cow_perm)
      as [[m2 pg2] r2] eqn:Hins2.
    cbv zeta. destruct (is_neg r2); [discriminate|].
    intros H. injection H as <- _.
    split; [reflexivity|]. split; intros e.
    + destruct (Z.eq_dec e (curenv k)) as [->|He].
      * rewrite envs_set_env_same. apply Hid1.
      * rewrite envs_set_env_other by exact He. apply Hid1.
    + intros va' Hva. destruct (Z.eq_dec e (curenv k)) as [->|He].
      * rewrite envs_set_env_same. cbn [env_pgdir env_set_pgdir].
        rewrite (page_insert_frame _ _ _ _ _ _ _ _ _ Hins2 Hva). apply Hl1. exact Hva.
      * rewrite envs_set_env_other by exact He. apply Hl1. exact Hva.
  - intros H. injection H as <- _.
    split; [reflexivity|]. split; [exact Hid1|exact Hl1].
Qed.

(** Handles resolve the same way as long as identities, run states and
    parents stay. *)
Lemma envid2env_frame k k' envid checkperm :
  curenv k' = curenv k ->
  (forall e, env_id (envs k' e) = env_id (envs k e) /\
             env_status (envs k' e) = env_status (envs k e) /\
             env_parent_id (envs k' e) = env_parent_id (envs k e)) ->
  envid2env k' envid checkperm = envid2env k envid checkperm.
Proof.
  intros Hcur Hid. unfold envid2env. rewrite Hcur.
  destruct (Hid (ENVX envid)) as (-> & -> & ->).
  destruct (Hid (curenv k)) as (-> & _). reflexivity.
Qed.

(** The loop passes over the exception stack and over what is not
    mapped. *)
Lemma fork_page_skip k envid pn :
  0 <= pn < PGNUM UTOP ->
  pn * PGSIZE = UXSTACKTOP - PGSIZE
    \/ page_lookup (env_pgdir (envs k (curenv k))) (pn * PGSIZE) = None ->
  fork_page k envid pn = Done k (Ret 0).
Proof.
  intros Hpn Hskip.
  destruct (page_address pn Hpn) as (Hu32 & _ & Hpgnum).
  unfold fork_page. rewrite Hu32.
  destruct (Z.eqb_spec (pn * PGSIZE) (UXSTACKTOP - PGSIZE)) as [|Hx]; [reflexivity|].
  destruct Hskip as [Hs|Hs]; [contradiction|].
  unfold page_lookup in Hs. rewrite Hpgnum in Hs. unfold cur_uvpd, cur_uvpt.
  destruct (Z.land (uvpd (env_pgdir (envs k (curenv k))) (PDX (pn * PGSIZE))) PTE_P =? 0);
    [reflexivity|].
  destruct (Z.land (uvpt (env_pgdir (envs k (curenv k))) pn) PTE_P =? 0);
    [reflexivity|discriminate].
Qed.

Lemma page_duplicated_transport before after child after' child' pn :
  page_lookup after' (pn * PGSIZE) = page_lookup after (pn * PGSIZE) ->
  page_lookup child' (pn * PGSIZE) = page_lookup child (pn * PGSIZE) ->
  page_duplicated before after child pn ->
  page_duplicated before after' child' pn.
Proof.
  intros Ha Hc H pp pte Hl. unfold page_duplicated in H.
  rewrite Ha, Hc. apply H. exact Hl.
Qed.

Lemma PGNUM_page (pn : Z) : PGNUM (pn * PGSIZE) = pn.
Proof.
  unfold PGNUM, PGSHIFT, PGSIZE. rewrite Z.shiftr_div_pow2 by lia.
  change (2 ^ 12) with 4096. apply Z.div_mul. lia.
Qed.

(** One round keeps the invariant. *)
Lemma loop_inv_step k envid c ki i k1 r :
  c <> curenv k ->
  pgdir_ok (env_pgdir (envs k (curenv k))) ->
  0 <= i < PGNUM UTOP ->
  loop_inv k envid c ki i ->
  fork_page ki envid i = Done k1 r ->
  loop_inv k envid c k1 (i + 1).
Proof.
  intros Hne Hok Hi [Hcur Hchild Htodo Hdone] Hround.
  destruct (Z.eq_dec (i * PGSIZE) (UXSTACKTOP - PGSIZE)) as [Hx|Hx].
  { rewrite fork_page_skip in Hround by (rewrite ?Hcur; auto).
    injection Hround as <- _.
    split; auto.
    - intros pn Hpn. apply Htodo. lia.
    - intros pn Hpn Hnx. destruct (Z.eq_dec pn i) as [->|Hni]; [contradiction|].
      apply Hdone; [lia|exact Hnx]. }
  destruct (page_lookup (env_pgdir (envs ki (curenv ki))) (i * PGSIZE))
    as [[pp pte]|] eqn:Hl.
  - (* a mapped page: the round is [duppage] *)
    assert (Hne' : c <> curenv ki) by (rewrite Hcur; exact Hne).
    rewrite (fork_page_run ki envid i c pp pte) in Hround by auto.
    rewrite (duppage_run ki envid i c pp pte) in Hround by (auto; lia).
    destruct (round_result_frame _ _ _ _ _ _ _ Hround) as (Hcur1 & Hid1 & Hfr1).
    assert (Hl0 : page_lookup (env_pgdir (envs k (curenv k))) (i * PGSIZE)
                  = Some (pp, pte)).
    { rewrite <- (Htodo i) by lia. rewrite <- Hcur. exact Hl. }
    destruct (page_lookup_Some _ _ _ _ Hl0) as (_ & Hpteq & _ & Hppeq).
    assert (Hppr : 0 <= pp < 2 ^ 20).
    { rewrite Hppeq. apply pa2page_range. rewrite Hpteq. apply Hok. }
    destruct (round_result_post ki c pp (i * PGSIZE) pte k1 r Hne' Hppr Hl Hround)
      as (_ & cpte & Hcl & Hcw & Hcase).
    split.
    + rewrite Hcur1. exact Hcur.
    + rewrite (envid2env_frame ki k1) by assumption. exact Hchild.
    + intros pn Hpn. rewrite Hfr1 by (rewrite !PGNUM_page; lia). apply Htodo. lia.
    + intros pn Hpn Hnx. destruct (Z.eq_dec pn i) as [->|Hni].
      * intros pp' pte' Hl'. rewrite Hl0 in Hl'. injection Hl' as <- <-.
        exists cpte. split; [exact Hcl|]. split; [exact Hcw|].
        rewrite Hcur in Hcase.
        destruct (negb (Z.land pte (Z.lor PTE_W PTE_COW) =? 0)).
        -- exact Hcase.
        -- destruct Hcase as [Hlow Hsame]. split; [exact Hlow|].
           rewrite Hsame. rewrite <- Hcur. exact Hl.
      * apply (page_duplicated_transport _ (env_pgdir (envs ki (curenv k)))
                 (env_pgdir (envs ki c))).
        -- apply Hfr1. rewrite !PGNUM_page. exact Hni.
        -- apply Hfr1. rewrite !PGNUM_page. exact Hni.
        -- apply Hdone; [lia|exact Hnx].
  - (* nothing mapped: the round does nothing *)
    rewrite fork_page_skip in Hround by auto.
    injection Hround as <- _.
    split; auto.
    + intros pn Hpn. apply Htodo. lia.
    + intros pn Hpn Hnx. destruct (Z.eq_dec pn i) as [->|Hni].
      * intros pp pte Hl0. rewrite <- (Htodo i) in Hl0 by lia.
        rewrite <- Hcur in Hl0. rewrite Hl in Hl0. discriminate.
      * apply Hdone; [lia|exact Hnx].
Qed.

Lemma loop_inv_run k envid c (n : nat) : forall ki i k' r,
  c <> curenv k ->
  pgdir_ok (env_pgdir (envs k (curenv k))) ->
  0 <= i -> i + Z.of_nat n <= PGNUM UTOP ->
  loop_inv k envid c ki i ->
  fork_pages n ki envid i = Done k' r ->
  loop_inv k envid c k' (i + Z.of_nat n).
Proof.
  induction n as [|n IH]; intros ki i k' r Hne Hok Hi Hn Hinv Hrun.
  - cbn in Hrun. injection Hrun as <- _. rewrite Z.add_0_r. exact Hinv.
  - cbn [fork_pages] in Hrun.
    destruct (fork_page ki envid i) as [k1 r1|k1] eqn:Hround; [|discriminate].
    replace (i + Z.of_nat (S n)) with (i + 1 + Z.of_nat n) by lia.
    apply (IH k1 (i + 1) k' r); auto; try lia.
    apply (loop_inv_step k envid c ki i k1 r1); auto. lia.
Qed.

(** X14.  The whole loop of [fork]: when the [n] rounds from page 0 end
    without [panic], every page below [n] other than the exception stack
    that the parent had mapped at the start is duplicated in the final
    state: mapped in the child to the same physical page, copy-on-write in
    both when it was writable or copy-on-write, read-only in the child and
    as before in the parent otherwise. *)
Theorem fork_pages_duplicate_all (k : kernel) (envid c : Z) (n : nat)
    (k' : kernel) (r : sysret) :
  envid2env k envid true = inl c ->
  c <> curenv k ->
  pgdir_ok (env_pgdir (envs k (curenv k))) ->
  Z.of_nat n <= PGNUM UTOP ->
  fork_pages n k envid 0 = Done k' r ->
  forall pn, 0 <= pn < Z.of_nat n -> pn * PGSIZE <> UXSTACKTOP - PGSIZE ->
    page_duplicated (env_pgdir (envs k (curenv k)))
                    (env_pgdir (envs k' (curenv k))) (env_pgdir (envs k' c)) pn.
Proof.
  intros Hc Hne Hok Hn Hrun.
  assert (Hinv0 : loop_inv k envid c k 0).
  { split; auto. intros pn Hpn. lia. }
  pose proof (loop_inv_run k envid c n k 0 k' r Hne Hok ltac:(lia) ltac:(lia) Hinv0 Hrun)
    as [_ _ _ Hdone].
  exact Hdone.
Qed.

End ForkLoop.

(** ** What the syscalls check *)

Section SyscallChecks.
Import Kern Syscall.

Lemma u32_testbit (x n : Z) :
  0 <= n -> Z.testbit (u32 x) n = (n <? 32) && Z.testbit x n.
Proof.
  intros Hn. unfold u32. destruct (Z.ltb_spec n 32).
  - rewrite Z.mod_pow2_bits_low by lia. reflexivity.
  - rewrite Z.mod_pow2_bits_high by lia. reflexivity.
Qed.

Lemma testbit_above_pow2 (q w m : Z) :
  0 <= q < 2 ^ w -> 0 <= w <= m -> Z.testbit q m = false.
Proof.
  intros Hq Hm. rewrite <- (Z.mod_small q (2 ^ w)) by exact Hq.
  apply Z.mod_pow2_bits_high. exact Hm.
Qed.

(** [x &= ~m; x |= f] on a 32-bit word, for masks that share no bit: the
    bits of [m] end up clear, those of [f] set, the others as they were. *)
Lemma clear_then_set (x m f : Z) :
  0 <= f < 2 ^ 32 -> Z.land f m = 0 ->
  let y := u32 (Z.lor (u32 (Z.land x (Z.lnot m))) f) in
  Z.land y m = 0 /\ Z.land y f = f /\
  forall n, 0 <= n < 32 -> Z.testbit m n = false -> Z.testbit f n = false ->
    Z.testbit y n = Z.testbit x n.
Proof.
  intros Hf Hfm y.
  assert (Hbit : forall n, 0 <= n ->
            Z.testbit y n
              = (n <? 32) && (((n <? 32) && (Z.testbit x n && negb (Z.testbit m n)))
                               || Z.testbit f n)).
  { intros n Hn. unfold y.
    rewrite u32_testbit, Z.lor_spec, u32_testbit, Z.land_spec, Z.lnot_spec
      by exact Hn. reflexivity. }
  assert (Hdisj : forall n, 0 <= n -> Z.testbit f n && Z.testbit m n = false).
  { intros n Hn. rewrite <- Z.land_spec, Hfm. apply Z.bits_0. }
  split; [|split].
  - apply Z.bits_inj'. intros n Hn. rewrite Z.land_spec, Hbit, Z.bits_0 by exact Hn.
    specialize (Hdisj n Hn).
    destruct (n <? 32), (Z.testbit x n), (Z.testbit m n), (Z.testbit f n);
      try reflexivity; discriminate.
  - apply Z.bits_inj'. intros n Hn. rewrite Z.land_spec, Hbit by exact Hn.
    destruct (Z.ltb_spec n 32) as [Hlt|Hge].
    + destruct (Z.testbit x n), (Z.testbit m n), (Z.testbit f n); reflexivity.
    + rewrite (testbit_above_pow2 f 32 n) by lia. reflexivity.
  - intros n Hn Hm0 Hf0. rewrite Hbit, Hm0, Hf0 by lia.
    destruct (Z.ltb_spec n 32); [|lia].
    destruct (Z.testbit x n); reflexivity.
Qed.

(** X8.  [sys_env_set_trapframe] on a handle the caller may use returns 0
    and stores the caller's struct as the target's saved registers with
    four fields forced: the code and data segments are the caller's own,
    the two I/O-privilege bits of the flags are clear and the interrupt
    flag is set, whatever the caller supplied; the other flag bits, the
    registers, instruction and stack pointers and the [es] and [ss]
    selectors are stored as supplied.  The patched struct is also what the
    caller's memory holds afterwards, the rest of the target and all other
    environments are as before.  On a handle that [envid2env] refuses the
    call returns that error and changes nothing. *)
Theorem sys_env_set_trapframe_sanitizes (k : kernel) (envid : Z) (tf : Trapframe) :
  match envid2env k envid true with
  | inr err => sys_env_set_trapframe k envid tf = (k, tf, Neg err)
  | inl e =>
      exists k' tf',
        sys_env_set_trapframe k envid tf = (k', tf', Ret 0) /\
        env_tf (envs k' e) = tf' /\
        Z.land (tf_eflags tf') FL_IOPL_MASK = 0 /\
        Z.land (tf_eflags tf') FL_IF = FL_IF /\
        (forall n, 0 <= n < 32 -> n <> 9 -> n <> 12 -> n <> 13 ->
           Z.testbit (tf_eflags tf') n = Z.testbit (tf_eflags tf) n) /\
        tf_cs tf' = tf_cs (env_tf (envs k (curenv k))) /\
        tf_ds tf' = tf_ds (env_tf (envs k (curenv k))) /\
        tf_regs tf' = tf_regs tf /\ tf_eip tf' = tf_eip tf /\
        tf_esp tf' = tf_esp tf /\ tf_es tf' = tf_es tf /\ tf_ss tf' = tf_ss tf /\
        envs k' e = env_set_tf (envs k e) tf' /\
        (forall e', e' <> e -> envs k' e' = envs k e') /\
        curenv k' = curenv k /\ phys k' = phys k
  end.
Proof.
  unfold sys_env_set_trapframe.
  destruct (envid2env k envid true) as [e|err]; [|reflexivity].
  eexists _, _. split; [reflexivity|].
  rewrite envs_set_env_same. cbn [env_tf env_set_tf tf_eflags tf_cs tf_ds
    tf_regs tf_eip tf_esp tf_es tf_ss set_env curenv phys].
  destruct (clear_then_set (tf_eflags tf) FL_IOPL_MASK FL_IF) as (Hm & Hf & Hrest).
  { unfold FL_IF. lia. }
  { reflexivity. }
  split; [reflexivity|]. split; [exact Hm|]. split; [exact Hf|].
  split.
  { intros n Hn H9 H12 H13. apply Hrest; [exact Hn| |].
    - change FL_IOPL_MASK with (Z.lor (2 ^ 12) (2 ^ 13)).
      rewrite Z.lor_spec, !Z.pow2_bits_eqb by lia.
      destruct (Z.eqb_spec 12 n); [lia|]. destruct (Z.eqb_spec 13 n); [lia|].
      reflexivity.
    - change FL_IF with (2 ^ 9). rewrite Z.pow2_bits_eqb by lia.
      destruct (Z.eqb_spec 9 n); [lia|reflexivity]. }
  repeat (split; [reflexivity|]).
  split; [|split; reflexivity].
  intros e' He'. apply upd_other. exact He'.
Qed.

(** The only error of [envid2env]. *)
Lemma envid2env_error k envid checkperm err :
  envid2env k envid checkperm = inr err -> err = E_BAD_ENV.
Proof.
  unfold envid2env. destruct (envid =? 0); [discriminate|].
  destruct (env_status (envs k (ENVX envid)));
    repeat match goal with
           | |- context [if ?b then _ else _] => destruct b
           end; congruence.
Qed.

(** A handle that names neither the caller nor one of its children. *)
Lemma envid2env_stranger k envid :
  envid <> 0 ->
  ENVX envid <> curenv k ->
  env_parent_id (envs k (ENVX envid)) <> env_id (envs k (curenv k)) ->
  envid2env k envid true = inr E_BAD_ENV.
Proof.
  intros H0 Hcur Hpar. unfold envid2env.
  destruct (Z.eqb_spec envid 0); [contradiction|].
  destruct (Z.eqb_spec (ENVX envid) (curenv k)); [contradiction|].
  destruct (Z.eqb_spec (env_parent_id (envs k (ENVX envid)))
                       (env_id (envs k (curenv k)))); [contradiction|].
  cbn [negb andb].
  destruct (env_status (envs k (ENVX envid)));
    destruct (negb (env_id (envs k (ENVX envid)) =? envid)); reflexivity.
Qed.

(** Without the permission check a live environment is found by its
    handle. *)
Lemma envid2env_live k envid :
  envid <> 0 ->
  env_status (envs k (ENVX envid)) <> ENV_FREE ->
  env_id (envs k (ENVX envid)) = envid ->
  envid2env k envid false = inl (ENVX envid).
Proof.
  intros H0 Hlive Hid. unfold envid2env.
  destruct (Z.eqb_spec envid 0); [contradiction|].
  rewrite Hid, Z.eqb_refl. cbn [negb andb].
  destruct (env_status (envs k (ENVX envid))); try reflexivity.
  contradiction Hlive. reflexivity.
Qed.

Lemma envid2env_set_phys k m envid checkperm :
  envid2env (set_phys k m) envid checkperm = envid2env k envid checkperm.
Proof. reflexivity. Qed.

(** X9.  The capability check: a handle that is not 0 and whose slot is
    neither the caller's nor that of a child of the caller is refused with
    [-E_BAD_ENV], and the kernel left as it was, by [sys_env_set_status],
    [sys_env_set_pgfault_upcall], [sys_env_set_trapframe],
    [sys_page_unmap] and, on either side, [sys_page_map]; [sys_page_alloc]
    returns an error and changes no environment.  [sys_ipc_try_send] does
    not ask for that right: when the handle names a live environment that
    waits in [sys_ipc_recv], a send of a value alone returns 0 and stores
    the value there. *)
Theorem syscalls_refuse_stranger (k : kernel) (envid : Z) :
  envid <> 0 ->
  ENVX envid <> curenv k ->
  env_parent_id (envs k (ENVX envid)) <> env_id (envs k (curenv k)) ->
  (forall status, status = ENV_RUNNABLE \/ status = ENV_NOT_RUNNABLE ->
     sys_env_set_status k envid status = (k, Neg E_BAD_ENV)) /\
  (forall func, sys_env_set_pgfault_upcall k envid func = (k, Neg E_BAD_ENV)) /\
  (forall tf, sys_env_set_trapframe k envid tf = (k, tf, Neg E_BAD_ENV)) /\
  (forall va, sys_page_unmap k envid va = (k, Neg E_BAD_ENV)) /\
  (forall srcva other dstva perm,
     sys_page_map k envid srcva other dstva perm = (k, Neg E_BAD_ENV)) /\
  (forall other srcva dstva perm,
     sys_page_map k other srcva envid dstva perm = (k, Neg E_BAD_ENV)) /\
  (forall va perm, exists k' err,
     sys_page_alloc k envid va perm = (k', Neg err) /\
     forall e, envs k' e = envs k e) /\
  (env_status (envs k (ENVX envid)) <> ENV_FREE ->
   env_id (envs k (ENVX envid)) = envid ->
   env_ipc_recving (envs k (ENVX envid)) = true ->
   forall value, exists k',
     sys_ipc_try_send k envid value UTOP 0 = (k', Ret 0) /\
     env_ipc_value (envs k' (ENVX envid)) = value /\
     env_ipc_from (envs k' (ENVX envid)) = env_id (envs k (curenv k))).
Proof.
  intros H0 Hcur Hpar.
  pose proof (envid2env_stranger k envid H0 Hcur Hpar) as Hbad.
  split; [|split; [|split; [|split; [|split; [|split; [|split]]]]]].
  - intros status [-> | ->]; unfold sys_env_set_status; rewrite Hbad; reflexivity.
  - intros func. unfold sys_env_set_pgfault_upcall. rewrite Hbad. reflexivity.
  - intros tf. unfold sys_env_set_trapframe. rewrite Hbad. reflexivity.
  - intros va. unfold sys_page_unmap. rewrite Hbad. reflexivity.
  - intros srcva other dstva perm. unfold sys_page_map. rewrite Hbad. reflexivity.
  - intros other srcva dstva perm. unfold sys_page_map. rewrite Hbad.
    destruct (envid2env k other true) as [s|err] eqn:Hother; [reflexivity|].
    rewrite (envid2env_error _ _ _ _ Hother). reflexivity.
  - intros va perm. unfold sys_page_alloc.
    destruct (va_invalid va); [exists k, E_INVAL; split; reflexivity|].
    destruct (perm_inappropriate perm); [exists k, E_INVAL; split; reflexivity|].
    destruct (page_alloc (phys k)) as [[p m1]|];
      [|exists k, E_NO_MEM; split; reflexivity].
    rewrite envid2env_set_phys, Hbad.
    eexists _, _. split; reflexivity.
  - intros Hlive Hid Hrecv value.
    unfold sys_ipc_try_send. rewrite (envid2env_live k envid H0 Hlive Hid), Hrecv.
    cbn [negb]. destruct (Z.ltb_spec UTOP UTOP); [lia|].
    eexists. split; [reflexivity|].
    pose proof (ipc_deliver_target
                  (set_env k (ENVX envid)
                     (env_set_ipc_perm (envs k (ENVX envid)) 0))
                  (ENVX envid) value) as Hdel.
    cbv zeta in Hdel. destruct Hdel as (_ & Hfrom & Hval & _).
    split; [exact Hval|]. rewrite Hfrom. cbn [curenv set_env].
    rewrite envs_set_env_other by (intros E; apply Hcur; symmetry; exact E).
    reflexivity.
Qed.

(** The low twelve bits of an entry are the flags it was built with. *)
Lemma pte_low_bits (pp q : Z) :
  0 <= q < 2 ^ 12 -> Z.land (u32 (Z.lor (page2pa pp) q)) 0xFFF = q.
Proof.
  intros Hq. apply Z.bits_inj'. intros n Hn.
  change 0xFFF with (Z.ones 12). rewrite Z.land_spec, u32_testbit by exact Hn.
  destruct (Z.ltb_spec n 12) as [Hlow|Hhigh].
  - rewrite Z.ones_spec_low by lia. rewrite Z.lor_spec. unfold page2pa.
    rewrite u32_testbit by exact Hn. unfold PGSHIFT.
    rewrite Z.shiftl_spec_low by lia.
    destruct (Z.ltb_spec n 32); [|lia].
    cbn [andb orb]. rewrite andb_true_r. reflexivity.
  - rewrite Z.ones_spec_high by lia. rewrite andb_false_r.
    symmetry. apply (testbit_above_pow2 q 12 n); lia.
Qed.

(** What a call of [sys_page_alloc] that returns 0 went through. *)
Lemma sys_page_alloc_inv k envid va perm k' v :
  sys_page_alloc k envid va perm = (k', Ret v) ->
  exists e p rest m2 pg,
    va_invalid va = false /\ perm_inappropriate perm = false /\
    page_free_list (phys k) = p :: rest /\
    envid2env k envid true = inl e /\
    page_insert (mk_phys (pp_ref (phys k)) rest) (env_pgdir (envs k e)) p va perm
      = (m2, pg, Ret v) /\
    k' = set_env (set_phys (set_phys k (mk_phys (pp_ref (phys k)) rest)) m2) e
                 (env_set_pgdir (envs k e) pg).
Proof.
  unfold sys_page_alloc.
  destruct (va_invalid va); [discriminate|].
  destruct (perm_inappropriate perm); [discriminate|].
  unfold page_alloc. destruct (page_free_list (phys k)) as [|p rest]; [discriminate|].
  rewrite envid2env_set_phys.
  destruct (envid2env k envid true) as [e|err]; [|discriminate].
  cbn [phys set_phys envs].
  destruct (page_insert (mk_phys (pp_ref (phys k)) rest) (env_pgdir (envs k e))
                        p va perm) as [[m2 pg] ret] eqn:Hins.
  intros H. injection H as <- ->.
  exists e, p, rest, m2, pg. repeat split; first [reflexivity | exact Hins].
Qed.

(** X10.  A call of [sys_page_alloc] that returns 0 was given an address
    below [UTOP] on a page boundary and a permission word inside
    [PTE_SYSCALL]; the page it mapped is the head of the free pool; the
    entry installed for the address in the target's space has exactly the
    flags [perm | PTE_P], none outside [PTE_SYSCALL], and names that page;
    the target's other addresses and all other environments are as
    before. *)
Theorem sys_page_alloc_maps_fresh_page (k : kernel) (envid va perm : Z)
    (k' : kernel) (v : Z) :
  sys_page_alloc k envid va perm = (k', Ret v) ->
  v = 0 /\ va < UTOP /\ va mod PGSIZE = 0 /\
  Z.land perm (Z.lnot PTE_SYSCALL) = 0 /\
  exists e p rest,
    envid2env k envid true = inl e /\
    page_free_list (phys k) = p :: rest /\
    uvpt (env_pgdir (envs k' e)) (PGNUM va)
      = u32 (Z.lor (page2pa p) (Z.lor perm PTE_P)) /\
    Z.land (uvpt (env_pgdir (envs k' e)) (PGNUM va)) 0xFFF = Z.lor perm PTE_P /\
    Z.land (Z.lor perm PTE_P) (Z.lnot PTE_SYSCALL) = 0 /\
    (0 <= p < 2 ^ 20 ->
     exists pte, page_lookup (env_pgdir (envs k' e)) va = Some (p, pte)) /\
    (forall va', PGNUM va' <> PGNUM va ->
       page_lookup (env_pgdir (envs k' e)) va'
         = page_lookup (env_pgdir (envs k e)) va') /\
    (forall e', e' <> e -> envs k' e' = envs k e') /\
    curenv k' = curenv k.
Proof.
  intros H.
  destruct (sys_page_alloc_inv _ _ _ _ _ _ H) as
    (e & p & rest & m2 & pg & Hva & Hperm & Hfree & He & Hins & ->).
  destruct (page_insert_inv _ _ _ _ _ _ _ _ Hins) as (-> & Hpde & Hpte).
  pose proof (proj1 (perm_inappropriate_false_iff perm) Hperm) as [Hsub _].
  pose proof (perm_appropriate_range perm Hperm) as Hrange.
  unfold va_invalid in Hva. apply orb_false_iff in Hva. destruct Hva as [Hu Ha].
  apply Z.leb_gt in Hu. apply negb_false_iff in Ha. apply Z.eqb_eq in Ha.
  split; [reflexivity|]. split; [exact Hu|]. split; [exact Ha|].
  split; [exact Hsub|].
  exists e, p, rest. rewrite envs_set_env_same. cbn [env_pgdir env_set_pgdir].
  split; [exact He|]. split; [exact Hfree|]. split; [exact Hpte|].
  assert (Hflags : 0 <= Z.lor perm PTE_P < 2 ^ 12).
  { apply lor_range12; [exact Hrange|unfold PTE_P; lia]. }
  split; [rewrite Hpte; apply pte_low_bits; exact Hflags|].
  split.
  { rewrite Z.land_lor_distr_l, Hsub. reflexivity. }
  split.
  { intros Hp.
    destruct (page_lookup_insert _ _ _ _ _ _ _ _ Hins Hp Hrange) as (pte & Hl & _).
    exists pte. exact Hl. }
  split.
  { intros va' Hva'. eapply page_insert_frame; eassumption. }
  split; [|reflexivity].
  intros e' He'. cbn [set_env set_phys envs]. apply upd_other. exact He'.
Qed.

Lemma env_set_pgdir_same (e : Env) : env_set_pgdir e (env_pgdir e) = e.
Proof. destruct e. reflexivity. Qed.

Lemma same_state_refl k : same_state k k.
Proof. repeat split; reflexivity. Qed.

(** A [page_insert] that failed, written back into the environment. *)
Lemma same_state_failed_insert k d pp va perm m1 pg err :
  page_insert (phys k) (env_pgdir (envs k d)) pp va perm = (m1, pg, Neg err) ->
  err = E_NO_MEM /\
  same_state k (set_env (set_phys k m1) d (env_set_pgdir (envs k d) pg)).
Proof.
  intros Hins. destruct (page_insert_fail _ _ _ _ _ _ _ _ Hins) as (-> & -> & ->).
  split; [reflexivity|].
  repeat split; try reflexivity.
  intros e. cbn [set_env set_phys envs].
  destruct (Z.eq_dec e d) as [->|Hne].
  - rewrite upd_same. apply env_set_pgdir_same.
  - apply upd_other. exact Hne.
Qed.

(** X11.  A call that reports an error has changed nothing, and the error
    is one of those its header comment lists: for [sys_env_set_status],
    [sys_env_set_pgfault_upcall], [sys_env_set_trapframe], [sys_page_map],
    [sys_page_unmap], [sys_ipc_try_send] and [sys_ipc_recv] the running
    environment, the free environments, the physical pages and every
    environment are as before.  [sys_page_alloc] is the exception the
    other way round: environments and reference counts are as before, but
    the free pool may have lost its head. *)
Theorem failed_syscall_changes_nothing (k : kernel) :
  (forall envid status k' err,
     sys_env_set_status k envid status = (k', Neg err) ->
     same_state k k' /\ (err = E_INVAL \/ err = E_BAD_ENV)) /\
  (forall envid func k' err,
     sys_env_set_pgfault_upcall k envid func = (k', Neg err) ->
     same_state k k' /\ err = E_BAD_ENV) /\
  (forall envid tf k' tf' err,
     sys_env_set_trapframe k envid tf = (k', tf', Neg err) ->
     same_state k k' /\ tf' = tf /\ err = E_BAD_ENV) /\
  (forall srcenvid srcva dstenvid dstva perm k' err,
     sys_page_map k srcenvid srcva dstenvid dstva perm = (k', Neg err) ->
     same_state k k' /\ (err = E_BAD_ENV \/ err = E_INVAL \/ err = E_NO_MEM)) /\
  (forall envid va k' err,
     sys_page_unmap k envid va = (k', Neg err) ->
     same_state k k' /\ (err = E_BAD_ENV \/ err = E_INVAL)) /\
  (forall envid value srcva perm k' err,
     sys_ipc_try_send k envid value srcva perm = (k', Neg err) ->
     same_state k k' /\
     (err = E_BAD_ENV \/ err = E_IPC_NOT_RECV \/ err = E_INVAL \/ err = E_NO_MEM)) /\
  (forall dstva k' r,
     sys_ipc_recv k dstva = (k', Some r) ->
     same_state k k' /\ r = Neg E_INVAL /\ dstva < UTOP /\ dstva mod PGSIZE <> 0) /\
  (forall envid va perm k' err,
     sys_page_alloc k envid va perm = (k', Neg err) ->
     (err = E_BAD_ENV \/ err = E_INVAL \/ err = E_NO_MEM) /\
     curenv k' = curenv k /\ env_free_list k' = env_free_list k /\
     (forall e, envs k' e = envs k e) /\
     pp_ref (phys k') = pp_ref (phys k) /\
     (page_free_list (phys k') = page_free_list (phys k)
      \/ exists p, page_free_list (phys k) = p :: page_free_list (phys k'))).
Proof.
  split; [|split; [|split; [|split; [|split; [|split; [|split]]]]]].
  - intros envid status k' err. unfold sys_env_set_status.
    destruct status; try (intros H; injection H as <- <-;
                          split; [apply same_state_refl|auto]).
    + destruct (envid2env k envid true) as [e|err0] eqn:He; [discriminate|].
      intros H. injection H as <- <-. rewrite (envid2env_error _ _ _ _ He).
      split; [apply same_state_refl|auto].
    + destruct (envid2env k envid true) as [e|err0] eqn:He; [discriminate|].
      intros H. injection H as <- <-. rewrite (envid2env_error _ _ _ _ He).
      split; [apply same_state_refl|auto].
  - intros envid func k' err. unfold sys_env_set_pgfault_upcall.
    destruct (envid2env k envid true) as [e|err0] eqn:He; [discriminate|].
    intros H. injection H as <- <-.
    split; [apply same_state_refl|apply (envid2env_error _ _ _ _ He)].
  - intros envid tf k' tf' err. unfold sys_env_set_trapframe.
    destruct (envid2env k envid true) as [e|err0] eqn:He; [discriminate|].
    intros H. injection H as <- <- <-.
    split; [apply same_state_refl|].
    split; [reflexivity|apply (envid2env_error _ _ _ _ He)].
  - intros srcenvid srcva dstenvid dstva perm k' err. unfold sys_page_map.
    destruct (envid2env k srcenvid true) as [s|err0] eqn:Hs.
    2:{ intros H. injection H as <- <-. rewrite (envid2env_error _ _ _ _ Hs).
        split; [apply same_state_refl|auto]. }
    destruct (envid2env k dstenvid true) as [d|err0] eqn:Hd.
    2:{ intros H. injection H as <- <-. rewrite (envid2env_error _ _ _ _ Hd).
        split; [apply same_state_refl|auto]. }
    destruct (va_invalid srcva || va_invalid dstva).
    { intros H. injection H as <- <-. split; [apply same_state_refl|auto]. }
    destruct (perm_inappropriate perm).
    { intros H. injection H as <- <-. split; [apply same_state_refl|auto]. }
    destruct (page_lookup (env_pgdir (envs k s)) srcva) as [[pp spte]|].
    2:{ intros H. injection H as <- <-. split; [apply same_state_refl|auto]. }
    destruct (negb (Z.land perm PTE_W =? 0) && (Z.land spte PTE_W =? 0)).
    { intros H. injection H as <- <-. split; [apply same_state_refl|auto]. }
    destruct (page_insert (phys k) (env_pgdir (envs k d)) pp dstva perm)
      as [[m1 pg] ret] eqn:Hins.
    intros H. injection H as <- ->.
    destruct (same_state_failed_insert _ _ _ _ _ _ _ _ Hins) as [-> Hsame].
    split; [exact Hsame|auto].
  - intros envid va k' err. unfold sys_page_unmap.
    destruct (envid2env k envid true) as [e|err0] eqn:He.
    2:{ intros H. injection H as <- <-. rewrite (envid2env_error _ _ _ _ He).
        split; [apply same_state_refl|auto]. }
    destruct (va_invalid va).
    { intros H. injection H as <- <-. split; [apply same_state_refl|auto]. }
    destruct (page_remove (phys k) (env_pgdir (envs k e)) va). discriminate.
  - intros envid value srcva perm k' err. unfold sys_ipc_try_send.
    destruct (envid2env k envid false) as [T|err0] eqn:HT.
    2:{ intros H. injection H as <- <-. rewrite (envid2env_error _ _ _ _ HT).
        split; [apply same_state_refl|auto]. }
    destruct (negb (env_ipc_recving (envs k T))).
    { intros H. injection H as <- <-. split; [apply same_state_refl|auto]. }
    destruct (srcva <? UTOP); [|discriminate].
    destruct (negb (srcva mod PGSIZE =? 0)).
    { intros H. injection H as <- <-. split; [apply same_state_refl|auto]. }
    destruct (perm_inappropriate perm).
    { intros H. injection H as <- <-. split; [apply same_state_refl|auto]. }
    destruct (page_lookup (env_pgdir (envs k (curenv k))) srcva) as [[pp spte]|].
    2:{ intros H. injection H as <- <-. split; [apply same_state_refl|auto]. }
    destruct (negb (Z.land perm PTE_W =? 0) && (Z.land spte PTE_W =? 0)).
    { intros H. injection H as <- <-. split; [apply same_state_refl|auto]. }
    destruct (env_ipc_dstva (envs k T) <? UTOP); [|discriminate].
    destruct (page_insert (phys k) (env_pgdir (envs k T)) (pa2page (PTE_ADDR spte))
                (env_ipc_dstva (envs k T)) perm) as [[m1 pg] ret] eqn:Hins.
    destruct ret as [v0|err0]; [discriminate|].
    intros H. injection H as <- <-.
    destruct (same_state_failed_insert _ _ _ _ _ _ _ _ Hins) as [-> Hsame].
    split; [exact Hsame|auto].
  - intros dstva k' r. unfold sys_ipc_recv.
    destruct (Z.ltb_spec dstva UTOP) as [Hlt|Hge]; cbn [andb]; [|discriminate].
    destruct (Z.eqb_spec (dstva mod PGSIZE) 0) as [Hal|Hal]; cbn [negb];
      [discriminate|].
    intros H. injection H as <- <-.
    split; [apply same_state_refl|]. split; [reflexivity|]. split; assumption.
  - intros envid va perm k' err. unfold sys_page_alloc.
    destruct (va_invalid va).
    { intros H. injection H as <- <-. repeat split; auto. }
    destruct (perm_inappropriate perm).
    { intros H. injection H as <- <-. repeat split; auto. }
    unfold page_alloc.
    destruct (page_free_list (phys k)) as [|p rest] eqn:Hfree.
    { intros H. injection H as <- <-. repeat split; auto. }
    rewrite envid2env_set_phys.
    destruct (envid2env k envid true) as [e|err0] eqn:He.
    2:{ intros H. injection H as <- <-. rewrite (envid2env_error _ _ _ _ He).
        cbn [set_phys curenv env_free_list envs phys pp_ref page_free_list].
        repeat split; auto. right. exists p. reflexivity. }
    cbn [phys set_phys envs].
    destruct (page_insert (mk_phys (pp_ref (phys k)) rest) (env_pgdir (envs k e))
                          p va perm) as [[m2 pg] ret] eqn:Hins.
    intros H. injection H as <- ->.
    destruct (page_insert_fail _ _ _ _ _ _ _ _ Hins) as (-> & -> & ->).
    cbn [set_env set_phys curenv env_free_list envs phys pp_ref page_free_list].
    split; [auto|]. split; [reflexivity|]. split; [reflexivity|].
    split.
    { intros e0. destruct (Z.eq_dec e0 e) as [->|Hne].
      - rewrite upd_same. apply env_set_pgdir_same.
      - apply upd_other. exact Hne. }
    split; [reflexivity|]. right. exists p. reflexivity.
Qed.

(** A send with a page to a waiting receiver that asked for one goes
    through when the page table for the destination is there or can be
    built. *)
Lemma sys_ipc_try_send_page_runs k envid value srcva perm T pp spte :
  envid2env k envid false = inl T ->
  env_ipc_recving (envs k T) = true ->
  srcva < UTOP -> srcva mod PGSIZE = 0 ->
  perm_inappropriate perm = false ->
  page_lookup (env_pgdir (envs k (curenv k))) srcva = Some (pp, spte) ->
  Z.land perm PTE_W = 0 \/ Z.land spte PTE_W <> 0 ->
  env_ipc_dstva (envs k T) < UTOP ->
  Z.land (uvpd (env_pgdir (envs k T)) (PDX (env_ipc_dstva (envs k T)))) PTE_P <> 0
    \/ page_free_list (phys k) <> [] ->
  exists k', sys_ipc_try_send k envid value srcva perm = (k', Ret 0).
Proof.
  intros HT Hrecv Hsrc Hal Hperm Hl Hw Hdst Havail.
  unfold sys_ipc_try_send. rewrite HT, Hrecv. cbn [negb].
  destruct (Z.ltb_spec srcva UTOP); [|lia].
  rewrite Hal. change (0 =? 0) with true. cbn [negb].
  rewrite Hperm, Hl.
  assert (Hwb : negb (Z.land perm PTE_W =? 0) && (Z.land spte PTE_W =? 0) = false).
  { destruct Hw as [Hw|Hw].
    - rewrite Hw. reflexivity.
    - destruct (Z.eqb_spec (Z.land spte PTE_W) 0); [contradiction|].
      apply andb_false_r. }
  rewrite Hwb.
  destruct (Z.ltb_spec (env_ipc_dstva (envs k T)) UTOP); [|lia].
  destruct (page_insert_avail (phys k) (env_pgdir (envs k T))
              (pa2page (PTE_ADDR spte)) (env_ipc_dstva (envs k T)) perm Havail)
    as (m' & pg' & Hins).
  rewrite Hins. eexists. reflexivity.
Qed.

(** X12.  Rendezvous: once an environment has called [sys_ipc_recv] with
    a page-aligned address below [UTOP], it is parked (not runnable,
    receiving), and a later [sys_ipc_try_send] to it by whoever runs then,
    with a mapped page, an accepted permission word that asks for no more
    write access than the sender has, and room for the receiver's page
    table, returns 0: the receiver has the sender's physical page at the
    address it asked for with flags [perm | PTE_P], the value, the sender's
    handle and [perm] in its mailbox, 0 as the return value of its
    [sys_ipc_recv], and is runnable and no longer receiving. *)
Theorem ipc_rendezvous_transfers_page (k : kernel) (dstva : Z) (k2 : kernel)
    (envid value srcva perm pp spte : Z) :
  let R := curenv k in
  let k1 := fst (sys_ipc_recv k dstva) in
  dstva < UTOP -> dstva mod PGSIZE = 0 ->
  envs k2 R = envs k1 R ->
  envid2env k2 envid false = inl R ->
  srcva < UTOP -> srcva mod PGSIZE = 0 ->
  perm_inappropriate perm = false ->
  pgdir_ok (env_pgdir (envs k2 (curenv k2))) ->
  page_lookup (env_pgdir (envs k2 (curenv k2))) srcva = Some (pp, spte) ->
  Z.land perm PTE_W = 0 \/ Z.land spte PTE_W <> 0 ->
  Z.land (uvpd (env_pgdir (envs k2 R)) (PDX dstva)) PTE_P <> 0
    \/ page_free_list (phys k2) <> [] ->
  snd (sys_ipc_recv k dstva) = None /\
  env_status (envs k1 R) = ENV_NOT_RUNNABLE /\
  env_ipc_recving (envs k1 R) = true /\
  exists k3 dpte,
    sys_ipc_try_send k2 envid value srcva perm = (k3, Ret 0) /\
    page_lookup (env_pgdir (envs k3 R)) dstva = Some (pp, dpte) /\
    Z.land dpte 0xFFF = Z.lor perm PTE_P /\
    env_ipc_value (envs k3 R) = value /\
    env_ipc_from (envs k3 R) = env_id (envs k2 (curenv k2)) /\
    env_ipc_perm (envs k3 R) = perm /\
    reg_eax (tf_regs (env_tf (envs k3 R))) = 0 /\
    env_status (envs k3 R) = ENV_RUNNABLE /\
    env_ipc_recving (envs k3 R) = false.
Proof.
  intros R k1 Hdst Hdal Hsame HT Hsrc Hsal Hperm Hok Hl Hw Havail.
  destruct (sys_ipc_recv_parks k dstva (fun _ => Hdal))
    as (Hnone & Hst & Hrecv & Hva & _).
  fold R k1 in Hst, Hrecv, Hva.
  destruct (Z.ltb_spec dstva UTOP); [|lia].
  split; [exact Hnone|]. split; [exact Hst|]. split; [exact Hrecv|].
  assert (Hdstva : env_ipc_dstva (envs k2 R) = dstva) by (rewrite Hsame; exact Hva).
  destruct (sys_ipc_try_send_page_runs k2 envid value srcva perm R pp spte)
    as [k3 Hrun]; try assumption.
  { rewrite Hsame. exact Hrecv. }
  { rewrite Hdstva. exact Hdst. }
  { rewrite Hdstva. exact Havail. }
  destruct (sys_ipc_try_send_success _ _ _ _ _ _ _ Hrun) as
    (T & HT' & _ & _ & Hr3 & Hfrom & Hval & Hst3 & Heax & Hcases).
  assert (T = R) by congruence. subst T.
  exists k3.
  destruct Hcases as [(_ & _ & Hp3 & Hpage) | [(Hc & _) | (_ & Hc & _)]];
    [|lia|rewrite Hdstva in Hc; lia].
  destruct (Hpage Hok) as (pp' & spte' & dpte & Hl' & Hdl & Hlow).
  assert (pp' = pp) by congruence. subst pp'.
  rewrite Hdstva in Hdl.
  exists dpte. repeat split; assumption.
Qed.

(** X13.  [sys_ipc_recv] with an address at or above [UTOP], the way to
    ask for no page, leaves [env_ipc_dstva] as the last receive set it; so
    when that old address is below [UTOP], a later send with a page that
    returns 0 maps the sender's page at the old address in the receiver
    and records [perm] in its mailbox, although no page was asked for. *)
Theorem sys_ipc_recv_keeps_old_dstva (k : kernel) (dstva : Z) (k2 : kernel)
    (envid value srcva perm : Z) (k3 : kernel) (v : Z) :
  let R := curenv k in
  let k1 := fst (sys_ipc_recv k dstva) in
  UTOP <= dstva ->
  env_ipc_dstva (envs k R) < UTOP ->
  envs k2 R = envs k1 R ->
  envid2env k2 envid false = inl R ->
  srcva < UTOP ->
  pgdir_ok (env_pgdir (envs k2 (curenv k2))) ->
  sys_ipc_try_send k2 envid value srcva perm = (k3, Ret v) ->
  snd (sys_ipc_recv k dstva) = None /\
  env_ipc_recving (envs k1 R) = true /\
  env_ipc_dstva (envs k1 R) = env_ipc_dstva (envs k R) /\
  exists pp spte dpte,
    page_lookup (env_pgdir (envs k2 (curenv k2))) srcva = Some (pp, spte) /\
    page_lookup (env_pgdir (envs k3 R)) (env_ipc_dstva (envs k R))
      = Some (pp, dpte) /\
    Z.land dpte 0xFFF = Z.lor perm PTE_P /\
    env_ipc_perm (envs k3 R) = perm.
Proof.
  intros R k1 Hdst Hold Hsame HT Hsrc Hok Hrun.
  destruct (sys_ipc_recv_parks k dstva ltac:(lia))
    as (Hnone & _ & Hrecv & Hva & _).
  fold R k1 in Hrecv, Hva.
  destruct (Z.ltb_spec dstva UTOP); [lia|].
  split; [exact Hnone|]. split; [exact Hrecv|]. split; [exact Hva|].
  assert (Hdstva : env_ipc_dstva (envs k2 R) = env_ipc_dstva (envs k R))
    by (rewrite Hsame; exact Hva).
  destruct (sys_ipc_try_send_success _ _ _ _ _ _ _ Hrun) as
    (T & HT' & _ & _ & _ & _ & _ & _ & _ & Hcases).
  assert (T = R) by congruence. subst T.
  destruct Hcases as [(_ & _ & Hp3 & Hpage) | [(Hc & _) | (_ & Hc & _)]];
    [|lia|rewrite Hdstva in Hc; lia].
  destruct (Hpage Hok) as (pp & spte & dpte & Hl & Hdl & Hlow).
  rewrite Hdstva in Hdl.
  exists pp, spte, dpte. repeat split; assumption.
Qed.

End SyscallChecks.

(** ** Delivery of a message, and who gets to deliver it *)

Section IpcDelivery.
Import Kern Syscall Sample.

(** A well-formed send to a receiving environment returns 0. *)
Lemma sys_ipc_try_send_runs k envid value srcva perm T :
  envid2env k envid false = inl T ->
  env_ipc_recving (envs k T) = true ->
  send_well_formed k T srcva perm ->
  exists k', sys_ipc_try_send k envid value srcva perm = (k', Ret 0).
Proof.
  intros HT Hrecv [Hnone | (Hal & Hperm & pp & spte & Hl & Hw & Hroom)].
  - unfold sys_ipc_try_send. rewrite HT, Hrecv. cbn [negb].
    destruct (Z.ltb_spec srcva UTOP); [lia|]. eexists. reflexivity.
  - destruct (Z.ltb_spec srcva UTOP) as [Hsrc|Hsrc].
    + destruct (Z.ltb_spec (env_ipc_dstva (envs k T)) UTOP) as [Hdst|Hdst].
      * apply (sys_ipc_try_send_page_runs k envid value srcva perm T pp spte);
          auto.
        destruct Hroom as [Hr | Hr]; [lia | exact Hr].
      * unfold sys_ipc_try_send. rewrite HT, Hrecv. cbn [negb].
        destruct (Z.ltb_spec srcva UTOP); [|lia].
        rewrite Hal. change (0 =? 0) with true. cbn [negb].
        rewrite Hperm, Hl.
        assert (Hwb : negb (Z.land perm PTE_W =? 0) && (Z.land spte PTE_W =? 0)
                      = false).
        { destruct Hw as [Hw|Hw].
          - rewrite Hw. reflexivity.
          - destruct (Z.eqb_spec (Z.land spte PTE_W) 0); [contradiction|].
            apply andb_false_r. }
        rewrite Hwb.
        destruct (Z.ltb_spec (env_ipc_dstva (envs k T)) UTOP); [lia|].
        eexists. reflexivity.
    + unfold sys_ipc_try_send. rewrite HT, Hrecv. cbn [negb].
      destruct (Z.ltb_spec srcva UTOP); [lia|]. eexists. reflexivity.
Qed.


(** Two sends of a writable, mapped, aligned page to an environment that
    waits for a page, when no free page is left for the receiver's page
    table: both return [-E_NO_MEM] and the receive is still pending, so it
    is not the case that one of the two succeeds and the other observes
    "not receiving". *)
Lemma two_page_sends_both_out_of_memory :
  let r1 := sys_ipc_try_send k_full 0x1002 1 0x1000 7 in
  let r2 := sys_ipc_try_send (fst r1) 0x1002 2 0x1000 7 in
  envid2env k_full 0x1002 false = inl 2 /\
  env_ipc_recving (envs k_full 2) = true /\
  env_ipc_dstva (envs k_full 2) = 0x5000 /\
  page_lookup (env_pgdir (envs k_full (curenv k_full))) 0x1000 = Some (20, 0x14007) /\
  perm_inappropriate 7 = false /\
  snd r1 = Neg E_NO_MEM /\ snd r2 = Neg E_NO_MEM /\
  env_ipc_recving (envs (fst r2) 2) = true /\
  ~ ((snd r1 = Ret 0 /\ snd r2 = Neg E_IPC_NOT_RECV)
     \/ (snd r1 = Neg E_IPC_NOT_RECV /\ snd r2 = Ret 0)).
Proof.
  vm_compute. repeat split; try reflexivity.
  intros [[H _]|[H _]]; discriminate.
Qed.

(** C2, amended.  For a handle that names environment [T].  A send while
    [T] is not receiving returns [-E_IPC_NOT_RECV] and leaves the whole
    kernel state as it was.  While [T] has a pending receive, a
    well-formed send (one that passes the argument checks of the call and
    finds the memory the receiver's page table may need) returns 0 and
    clears the receiving flag, and every send that names [T] after it, by
    any environment and with any arguments, from any state in which [T] is
    as the first send left it, returns [-E_IPC_NOT_RECV] and changes
    nothing: exactly one of the two succeeds and the other observes "not
    receiving".  No two sends both succeed, whatever their arguments.  A
    send that fails leaves the receiving flag as it was, so that the
    receive is still there for the next send. *)
Theorem sys_ipc_try_send_exactly_once (k : kernel) (envid T : Z) :
  envid2env k envid false = inl T ->
  (env_ipc_recving (envs k T) = false ->
   forall value srcva perm,
     sys_ipc_try_send k envid value srcva perm = (k, Neg E_IPC_NOT_RECV)) /\
  (env_ipc_recving (envs k T) = true ->
   forall value srcva perm,
     send_well_formed k T srcva perm ->
     exists k1,
       sys_ipc_try_send k envid value srcva perm = (k1, Ret 0) /\
       env_ipc_recving (envs k1 T) = false /\
       forall k2 envid2 value2 srcva2 perm2,
         envid2env k2 envid2 false = inl T ->
         envs k2 T = envs k1 T ->
         sys_ipc_try_send k2 envid2 value2 srcva2 perm2
           = (k2, Neg E_IPC_NOT_RECV)) /\
  (forall value srcva perm k1 v,
     sys_ipc_try_send k envid value srcva perm = (k1, Ret v) ->
     env_ipc_recving (envs k T) = true /\
     forall k2 envid2 value2 srcva2 perm2,
       envid2env k2 envid2 false = inl T ->
       envs k2 T = envs k1 T ->
       sys_ipc_try_send k2 envid2 value2 srcva2 perm2
         = (k2, Neg E_IPC_NOT_RECV)) /\
  (forall value srcva perm k1 e,
     sys_ipc_try_send k envid value srcva perm = (k1, Neg e) ->
     env_ipc_recving (envs k1 T) = env_ipc_recving (envs k T)).
Proof.
  intros HT.
  assert (Hlater : forall value srcva perm k1 v,
            sys_ipc_try_send k envid value srcva perm = (k1, Ret v) ->
            env_ipc_recving (envs k T) = true /\
            env_ipc_recving (envs k1 T) = false /\
            forall k2 envid2 value2 srcva2 perm2,
              envid2env k2 envid2 false = inl T ->
              envs k2 T = envs k1 T ->
              sys_ipc_try_send k2 envid2 value2 srcva2 perm2
                = (k2, Neg E_IPC_NOT_RECV)).
  { intros value srcva perm k1 v Hsend.
    destruct (sys_ipc_try_send_success _ _ _ _ _ _ _ Hsend)
      as (T' & HT' & Hrecv & _ & Hcleared & _).
    rewrite HT in HT'. injection HT' as <-.
    split; [exact Hrecv|]. split; [exact Hcleared|].
    intros k2 envid2 value2 srcva2 perm2 HT2 Hsame.
    apply (sys_ipc_try_send_not_recving _ _ _ _ _ T); [exact HT2|].
    rewrite Hsame. exact Hcleared. }
  split; [|split; [|split]].
  - intros Hr value srcva perm.
    apply (sys_ipc_try_send_not_recving _ _ _ _ _ T); assumption.
  - intros Hrecv value srcva perm Hwf.
    destruct (sys_ipc_try_send_runs k envid value srcva perm T HT Hrecv Hwf)
      as [k1 Hsend].
    exists k1. split; [exact Hsend|].
    destruct (Hlater value srcva perm k1 0 Hsend) as (_ & Hclr & Hnext).
    split; [exact Hclr|exact Hnext].
  - intros value srcva perm k1 v Hsend.
    destruct (Hlater value srcva perm k1 v Hsend) as (Hrecv & _ & Hnext).
    split; [exact Hrecv|exact Hnext].
  - intros value srcva perm k1 e Hsend.
    apply (sys_ipc_try_send_failure _ _ _ _ _ _ _ _ HT Hsend).
Qed.

End IpcDelivery.

(** ** [fork] from [sys_exofork] to the end of its loop *)

Section ForkWhole.
Import Kern Syscall Fork.

Lemma same_but_pages_refl k : same_but_pages k k.
Proof.
  split; [reflexivity|]. split; [reflexivity|].
  intros e. apply env_set_pgdir_same.
Qed.

Lemma same_but_pages_trans k1 k2 k3 :
  same_but_pages k1 k2 -> same_but_pages k2 k3 -> same_but_pages k1 k3.
Proof.
  intros (Hc1 & Hf1 & He1) (Hc2 & Hf2 & He2).
  split; [congruence|]. split; [congruence|].
  intros e. specialize (He1 e). specialize (He2 e).
  destruct (envs k1 e), (envs k2 e), (envs k3 e).
  unfold env_set_pgdir in *. cbn in *. congruence.
Qed.

(** All that is not the address space is kept. *)
Lemma same_but_pages_fields k k' :
  same_but_pages k k' ->
  forall e,
    env_id (envs k' e) = env_id (envs k e) /\
    env_status (envs k' e) = env_status (envs k e) /\
    env_parent_id (envs k' e) = env_parent_id (envs k e) /\
    env_pgfault_upcall (envs k' e) = env_pgfault_upcall (envs k e) /\
    env_tf (envs k' e) = env_tf (envs k e).
Proof.
  intros (_ & _ & He) e. specialize (He e).
  destruct (envs k e), (envs k' e).
  unfold env_set_pgdir in He. cbn in *.
  injection He as -> -> -> -> -> -> -> -> -> ->. repeat split.
Qed.

Lemma same_but_pages_envid2env k k' envid checkperm :
  same_but_pages k k' ->
  envid2env k' envid checkperm = envid2env k envid checkperm.
Proof.
  intros Hs. apply envid2env_frame.
  - apply Hs.
  - intros e. destruct (same_but_pages_fields k k' Hs e) as (H1 & H2 & H3 & _).
    auto.
Qed.

(** The address space of [d] replaced, the physical pages with it. *)
Lemma same_but_pages_set_pgdir k m d pg :
  same_but_pages k (set_env (set_phys k m) d (env_set_pgdir (envs k d) pg)).
Proof.
  split; [reflexivity|]. split; [reflexivity|].
  intros e. cbn [set_env set_phys envs].
  destruct (Z.eq_dec e d) as [->|Hne].
  - rewrite upd_same. destruct (envs k d). reflexivity.
  - rewrite upd_other by exact Hne. apply env_set_pgdir_same.
Qed.

(** What one [page_insert] into the space of [d] can change. *)
Lemma insert_into_env_frame k m d pp va perm m1 pg r :
  page_insert m (env_pgdir (envs k d)) pp va perm = (m1, pg, r) ->
  let k' := set_env (set_phys k m1) d (env_set_pgdir (envs k d) pg) in
  same_but_pages k k' /\
  (forall e, e <> d -> envs k' e = envs k e) /\
  (forall e va', PGNUM va' <> PGNUM va ->
     page_lookup (env_pgdir (envs k' e)) va'
       = page_lookup (env_pgdir (envs k e)) va').
Proof.
  intros Hins k'. split; [apply same_but_pages_set_pgdir|].
  split.
  - intros e He. unfold k'. cbn [set_env set_phys envs]. apply upd_other. exact He.
  - intros e va' Hva. unfold k'. cbn [set_env set_phys envs].
    destruct (Z.eq_dec e d) as [->|Hne].
    + rewrite upd_same. cbn [env_pgdir env_set_pgdir].
      eapply page_insert_frame; eassumption.
    + rewrite upd_other by exact Hne. reflexivity.
Qed.

(** [sys_page_map] changes nothing but the destination address in the
    destination's space, whatever it returns. *)
Lemma sys_page_map_frame k srcenvid srcva dstenvid dstva perm k' r :
  sys_page_map k srcenvid srcva dstenvid dstva perm = (k', r) ->
  same_but_pages k k' /\
  (forall e va', PGNUM va' <> PGNUM dstva ->
     page_lookup (env_pgdir (envs k' e)) va'
       = page_lookup (env_pgdir (envs k e)) va').
Proof.
  unfold sys_page_map.
  assert (Hsame : forall r0, (k, r0) = (k', r) ->
    same_but_pages k k' /\
    (forall e va', PGNUM va' <> PGNUM dstva ->
       page_lookup (env_pgdir (envs k' e)) va'
         = page_lookup (env_pgdir (envs k e)) va')).
  { intros r0 H. injection H as <- _. split; [apply same_but_pages_refl|].
    intros; reflexivity. }
  destruct (envid2env k srcenvid true) as [s|]; [|apply Hsame].
  destruct (envid2env k dstenvid true) as [d|]; [|apply Hsame].
  destruct (va_invalid srcva || va_invalid dstva); [apply Hsame|].
  destruct (perm_inappropriate perm); [apply Hsame|].
  destruct (page_lookup (env_pgdir (envs k s)) srcva) as [[pp spte]|];
    [|apply Hsame].
  destruct (negb (Z.land perm PTE_W =? 0) && (Z.land spte PTE_W =? 0));
    [apply Hsame|].
  destruct (page_insert (phys k) (env_pgdir (envs k d)) pp dstva perm)
    as [[m1 pg] ret] eqn:Hins.
  intros H. injection H as <- _.
  destruct (insert_into_env_frame k (phys k) d pp dstva perm m1 pg ret Hins)
    as (H1 & _ & H3).
  split; assumption.
Qed.

(** [sys_page_alloc] changes nothing but the address in the target's
    space, whatever it returns. *)
Lemma sys_page_alloc_frame k envid va perm k' r :
  sys_page_alloc k envid va perm = (k', r) ->
  same_but_pages k k' /\
  (forall e va', PGNUM va' <> PGNUM va ->
     page_lookup (env_pgdir (envs k' e)) va'
       = page_lookup (env_pgdir (envs k e)) va') /\
  (forall c, envid2env k envid true = inl c ->
     forall e, e <> c -> envs k' e = envs k e).
Proof.
  unfold sys_page_alloc.
  assert (Hsame : forall m r0, (set_phys k m, r0) = (k', r) ->
    same_but_pages k k' /\
    (forall e va', PGNUM va' <> PGNUM va ->
       page_lookup (env_pgdir (envs k' e)) va'
         = page_lookup (env_pgdir (envs k e)) va') /\
    (forall c, envid2env k envid true = inl c ->
       forall e, e <> c -> envs k' e = envs k e)).
  { intros m r0 H. injection H as <- _.
    split; [|split; intros; reflexivity].
    split; [reflexivity|]. split; [reflexivity|].
    intros e. apply env_set_pgdir_same. }
  assert (Hk : forall r0, (k, r0) = (k', r) ->
    same_but_pages k k' /\
    (forall e va', PGNUM va' <> PGNUM va ->
       page_lookup (env_pgdir (envs k' e)) va'
         = page_lookup (env_pgdir (envs k e)) va') /\
    (forall c, envid2env k envid true = inl c ->
       forall e, e <> c -> envs k' e = envs k e)).
  { intros r0 H. injection H as <- _.
    split; [apply same_but_pages_refl|split; intros; reflexivity]. }
  destruct (va_invalid va); [apply Hk|].
  destruct (perm_inappropriate perm); [apply Hk|].
  destruct (page_alloc (phys k)) as [[p m1]|]; [|apply Hk].
  rewrite envid2env_set_phys.
  destruct (envid2env k envid true) as [c|err]; [|apply Hsame].
  cbn [phys set_phys envs].
  destruct (page_insert m1 (env_pgdir (envs k c)) p va perm)
    as [[m2 pg] ret] eqn:Hins.
  intros H. injection H as <- _.
  destruct (insert_into_env_frame k m1 c p va perm m2 pg ret Hins)
    as (H1 & H2 & H3).
  split; [exact H1|]. split; [exact H3|].
  intros c' Hc' e He. injection Hc' as <-. apply H2. exact He.
Qed.

(** [duppage] changes nothing but the entries of its page. *)
Lemma duppage_frame k envid pn k' r :
  0 <= pn < PGNUM UTOP ->
  duppage k envid pn = Done k' r ->
  same_but_pages k k' /\
  (forall e va', PGNUM va' <> pn ->
     page_lookup (env_pgdir (envs k' e)) va'
       = page_lookup (env_pgdir (envs k e)) va').
Proof.
  intros Hpn. unfold duppage.
  destruct (page_address pn Hpn) as (-> & _ & Hnum).
  destruct (Z.land (cur_uvpt k pn) PTE_P =? 0); [discriminate|].
  destruct (negb (Z.land (cur_uvpt k pn) (Z.lor PTE_W PTE_COW) =? 0)).
  - destruct (sys_page_map k 0 (pn * PGSIZE) envid (pn * PGSIZE) cow_perm)
      as [k1 r1] eqn:H1.
    destruct (is_neg r1); [discriminate|].
    destruct (sys_page_map k1 0 (pn * PGSIZE) 0 (pn * PGSIZE) cow_perm)
      as [k2 r2] eqn:H2.
    destruct (is_neg r2); [discriminate|].
    intros H. injection H as <- _.
    destruct (sys_page_map_frame _ _ _ _ _ _ _ _ H1) as [Hs1 Hl1].
    destruct (sys_page_map_frame _ _ _ _ _ _ _ _ H2) as [Hs2 Hl2].
    rewrite Hnum in Hl1, Hl2.
    split; [eapply same_but_pages_trans; eassumption|].
    intros e va' Hva. rewrite Hl2, Hl1 by exact Hva. reflexivity.
  - destruct (sys_page_map k 0 (pn * PGSIZE) envid (pn * PGSIZE) ro_perm)
      as [k1 r1] eqn:H1.
    destruct (is_neg r1); [discriminate|].
    intros H. injection H as <- _.
    destruct (sys_page_map_frame _ _ _ _ _ _ _ _ H1) as [Hs1 Hl1].
    rewrite Hnum in Hl1. split; assumption.
Qed.

Lemma fork_page_frame k envid i k' r :
  0 <= i < PGNUM UTOP ->
  fork_page k envid i = Done k' r ->
  same_but_pages k k' /\
  (forall e va', PGNUM va' <> i \/ i * PGSIZE = UXSTACKTOP - PGSIZE ->
     page_lookup (env_pgdir (envs k' e)) va'
       = page_lookup (env_pgdir (envs k e)) va').
Proof.
  intros Hi. unfold fork_page.
  destruct (page_address i Hi) as (-> & _ & _).
  assert (Hsame : forall r0, Done k r0 = Done k' r ->
    same_but_pages k k' /\
    (forall e va', PGNUM va' <> i \/ i * PGSIZE = UXSTACKTOP - PGSIZE ->
       page_lookup (env_pgdir (envs k' e)) va'
         = page_lookup (env_pgdir (envs k e)) va')).
  { intros r0 H. injection H as <- _.
    split; [apply same_but_pages_refl|intros; reflexivity]. }
  destruct (Z.eqb_spec (i * PGSIZE) (UXSTACKTOP - PGSIZE)) as [Hx|Hx];
    [apply Hsame|].
  destruct (Z.land (cur_uvpd k (PDX (i * PGSIZE))) PTE_P =? 0); [apply Hsame|].
  destruct (Z.land (cur_uvpt k i) PTE_P =? 0); [apply Hsame|].
  destruct (duppage k envid i) as [k1 r1|k1] eqn:Hd; [|discriminate].
  destruct (is_neg r1); [discriminate|].
  intros H. injection H as <- _.
  destruct (duppage_frame k envid i k1 r1 Hi Hd) as [Hs Hl].
  split; [exact Hs|].
  intros e va' [Hva|Hva]; [apply Hl; exact Hva|contradiction].
Qed.

Lemma fork_pages_frame envid (n : nat) : forall k i k' r,
  0 <= i -> i + Z.of_nat n <= PGNUM UTOP ->
  fork_pages n k envid i = Done k' r ->
  same_but_pages k k' /\
  (forall e va',
     PGNUM va' < i \/ i + Z.of_nat n <= PGNUM va'
       \/ PGNUM va' * PGSIZE = UXSTACKTOP - PGSIZE ->
     page_lookup (env_pgdir (envs k' e)) va'
       = page_lookup (env_pgdir (envs k e)) va').
Proof.
  induction n as [|n IH]; intros k i k' r Hi Hn Hrun.
  - cbn in Hrun. injection Hrun as <- _.
    split; [apply same_but_pages_refl|intros; reflexivity].
  - cbn [fork_pages] in Hrun.
    destruct (fork_page k envid i) as [k1 r1|k1] eqn:Hround; [|discriminate].
    destruct (fork_page_frame k envid i k1 r1 ltac:(lia) Hround) as [Hs1 Hl1].
    destruct (IH k1 (i + 1) k' r ltac:(lia) ltac:(lia) Hrun) as [Hs2 Hl2].
    split; [eapply same_but_pages_trans; eassumption|].
    intros e va' Hva. rewrite Hl2 by lia. apply Hl1.
    destruct (Z.eq_dec (PGNUM va') i) as [Heq|Hne]; [|left; exact Hne].
    right. rewrite <- Heq. lia.
Qed.

(** *** The free pool along the way *)

Lemma page_decref_free m pp :
  (length (page_free_list m) <= length (page_free_list (page_decref m pp)))%nat.
Proof.
  unfold page_decref. cbv zeta.
  destruct (u16 (pp_ref m pp - 1) =? 0); cbn; lia.
Qed.

Lemma page_remove_free m pg va :
  (length (page_free_list m)
     <= length (page_free_list (fst (page_remove m pg va))))%nat.
Proof.
  unfold page_remove. destruct (page_lookup pg va) as [[pp pte]|]; cbn [fst].
  - apply page_decref_free.
  - lia.
Qed.

Lemma pgdir_walk_free m pg va m1 pg1 :
  pgdir_walk m pg va true = Some (m1, pg1) ->
  (length (page_free_list m) <= S (length (page_free_list m1)))%nat /\
  (Z.land (uvpd pg (PDX va)) PTE_P <> 0 -> m1 = m).
Proof.
  unfold pgdir_walk, page_alloc.
  destruct (Z.eqb_spec (Z.land (uvpd pg (PDX va)) PTE_P) 0) as [Hpde|Hpde].
  - destruct (page_free_list m) as [|p rest]; [discriminate|].
    intros H. assert (Hm : m1 = incref (mk_phys (pp_ref m) rest) p) by congruence.
    clear H. subst m1. split; [cbn; lia|intros Hc; contradiction].
  - intros H. assert (Hm : m1 = m) by congruence. clear H. subst m1.
    split; [lia|reflexivity].
Qed.

(** [page_insert] takes at most one page from the pool, and none when the
    page table is there. *)
Lemma page_insert_free m pg pp va perm m' pg' r :
  page_insert m pg pp va perm = (m', pg', r) ->
  (length (page_free_list m) <= S (length (page_free_list m')))%nat /\
  (Z.land (uvpd pg (PDX va)) PTE_P <> 0 ->
   (length (page_free_list m) <= length (page_free_list m'))%nat).
Proof.
  unfold page_insert.
  destruct (pgdir_walk m pg va true) as [[m1 pg1]|] eqn:Hw.
  2:{ intros H. assert (Hm : m' = m) by congruence. subst m'.
      split; intros; lia. }
  destruct (pgdir_walk_free _ _ _ _ _ Hw) as [Hlen Hsame].
  assert (Hrem : (length (page_free_list m1)
                    <= length (page_free_list
                         (fst (if (Z.land (uvpt pg1 (PGNUM va)) PTE_P =? 0)%Z
                               then (incref m1 pp, pg1)
                               else page_remove (incref m1 pp) pg1 va))))%nat).
  { destruct (Z.land (uvpt pg1 (PGNUM va)) PTE_P =? 0).
    - cbn. lia.
    - pose proof (page_remove_free (incref m1 pp) pg1 va) as H. cbn in H.
      cbn [incref set_ref page_free_list]. exact H. }
  destruct (if Z.land (uvpt pg1 (PGNUM va)) PTE_P =? 0
            then (incref m1 pp, pg1)
            else page_remove (incref m1 pp) pg1 va) as [m3 pg3].
  cbn [fst] in Hrem.
  intros H. assert (Hm : m' = m3) by congruence. clear H. subst m'.
  split; [lia|]. intros Hpde. rewrite (Hsame Hpde) in Hrem. exact Hrem.
Qed.

(** A round of [duppage] takes at most one page from the pool. *)
Lemma round_result_free k c pp addr pte shared k' r :
  c <> curenv k ->
  page_lookup (env_pgdir (envs k (curenv k))) addr = Some (pp, pte) ->
  round_result k c pp addr shared = Done k' r ->
  (length (page_free_list (phys k)) <= S (length (page_free_list (phys k'))))%nat.
Proof.
  intros Hne Hl. unfold round_result.
  destruct (page_insert (phys k) (env_pgdir (envs k c)) pp addr
              (if shared then cow_perm else ro_perm)) as [[m1 pg1] r1] eqn:Hins1.
  destruct (page_insert_free _ _ _ _ _ _ _ _ Hins1) as [Hf1 _].
  destruct (is_neg r1); [discriminate|].
  destruct shared.
  - cbn [phys set_env set_phys envs]. rewrite upd_other by (intros E; auto).
    destruct (page_insert m1 (env_pgdir (envs k (curenv k))) pp addr cow_perm)
      as [[m2 pg2] r2] eqn:Hins2.
    destruct (page_insert_free _ _ _ _ _ _ _ _ Hins2) as [_ Hf2].
    destruct (page_lookup_Some _ _ _ _ Hl) as (Hpde & _).
    specialize (Hf2 Hpde).
    destruct (is_neg r2); [discriminate|].
    intros H. injection H as <- _. cbn [phys set_env set_phys]. lia.
  - intros H. injection H as <- _. cbn [phys set_env set_phys]. exact Hf1.
Qed.

(** The loop goes through when the pool has a page for each page it hands
    to [duppage]. *)
Lemma fork_pages_run k envid c (n : nat) : forall ki i,
  c <> curenv k ->
  pgdir_ok (env_pgdir (envs k (curenv k))) ->
  0 <= i -> i + Z.of_nat n <= PGNUM UTOP ->
  loop_inv k envid c ki i ->
  (pages_to_duplicate (env_pgdir (envs k (curenv k))) i n
     <= length (page_free_list (phys ki)))%nat ->
  exists k', fork_pages n ki envid i = Done k' (Ret 0).
Proof.
  induction n as [|n IH]; intros ki i Hne Hok Hi Hn Hinv Hfree.
  - exists ki. reflexivity.
  - cbn [fork_pages pages_to_duplicate] in *.
    pose proof Hinv as [Hcur Hchild Htodo _].
    assert (Hstep : forall k1 r1, fork_page ki envid i = Done k1 r1 ->
              (pages_to_duplicate (env_pgdir (envs k (curenv k))) (i + 1) n
                 <= length (page_free_list (phys k1)))%nat ->
              exists k', match fork_page ki envid i with
                         | Done k1 _ => fork_pages n k1 envid (i + 1)
                         | Panic k1 => Panic k1
                         end = Done k' (Ret 0)).
    { intros k1 r1 Hround Hfree1. rewrite Hround.
      apply IH; auto; try lia.
      apply (loop_inv_step k envid c ki i k1 r1); auto. lia. }
    destruct (Z.eqb_spec (i * PGSIZE) (UXSTACKTOP - PGSIZE)) as [Hx|Hx].
    { apply (Hstep ki (Ret 0)); [apply fork_page_skip; [lia|auto]|].
      cbn in Hfree. exact Hfree. }
    destruct (page_lookup (env_pgdir (envs k (curenv k))) (i * PGSIZE))
      as [[pp pte]|] eqn:Hl0.
    + assert (Hl : page_lookup (env_pgdir (envs ki (curenv ki))) (i * PGSIZE)
                   = Some (pp, pte)).
      { rewrite Hcur, Htodo by lia. exact Hl0. }
      assert (Hne' : c <> curenv ki) by (rewrite Hcur; exact Hne).
      destruct (round_result_completes ki c pp (i * PGSIZE) pte
                  (negb (Z.land pte (Z.lor PTE_W PTE_COW) =? 0)) Hne' Hl)
        as [k1 Hk1].
      { right. intros E. rewrite E in Hfree. cbn in Hfree. lia. }
      assert (Hround : fork_page ki envid i = Done k1 (Ret 0)).
      { rewrite (fork_page_run ki envid i c pp pte) by (auto; lia).
        rewrite (duppage_run ki envid i c pp pte) by (auto; lia).
        exact Hk1. }
      apply (Hstep k1 (Ret 0) Hround).
      pose proof (round_result_free _ _ _ _ _ _ _ _ Hne' Hl Hk1). lia.
    + apply (Hstep ki (Ret 0)).
      * apply fork_page_skip; [lia|]. right. rewrite Hcur, Htodo by lia. exact Hl0.
      * cbn in Hfree. exact Hfree.
Qed.

Lemma loop_inv_start k envid c :
  envid2env k envid true = inl c -> loop_inv k envid c k 0.
Proof.
  intros Hc. split; auto. intros pn Hpn. lia.
Qed.

(** X15.  The loop of [fork] ends without [panic] when the free pool has
    at least as many pages as the loop hands to [duppage] (the pages the
    parent has mapped among those it walks, the exception stack apart):
    each round takes at most one page, for a page table of the child. *)
Theorem fork_pages_completes (k : kernel) (envid c : Z) (n : nat) :
  envid2env k envid true = inl c ->
  c <> curenv k ->
  pgdir_ok (env_pgdir (envs k (curenv k))) ->
  Z.of_nat n <= PGNUM UTOP ->
  (pages_to_duplicate (env_pgdir (envs k (curenv k))) 0 n
     <= length (page_free_list (phys k)))%nat ->
  exists k', fork_pages n k envid 0 = Done k' (Ret 0).
Proof.
  intros Hc Hne Hok Hn Hfree.
  apply (fork_pages_run k envid c n k 0); auto; try lia.
  apply loop_inv_start. exact Hc.
Qed.

(** X16.  The loop of [fork] writes page-table entries and nothing else:
    when it ends without [panic], the running environment, the free
    environments and, of every environment, the handle, parent, run state,
    saved registers and fault upcall are as before, and so is what every
    environment has mapped at the exception stack and at every address
    whose page the loop did not walk. *)
Theorem fork_pages_touch_only_walked_pages (k : kernel) (envid : Z) (n : nat)
    (k' : kernel) (r : sysret) :
  Z.of_nat n <= PGNUM UTOP ->
  fork_pages n k envid 0 = Done k' r ->
  curenv k' = curenv k /\
  env_free_list k' = env_free_list k /\
  (forall e,
     env_id (envs k' e) = env_id (envs k e) /\
     env_status (envs k' e) = env_status (envs k e) /\
     env_parent_id (envs k' e) = env_parent_id (envs k e) /\
     env_pgfault_upcall (envs k' e) = env_pgfault_upcall (envs k e) /\
     env_tf (envs k' e) = env_tf (envs k e)) /\
  (forall e,
     page_lookup (env_pgdir (envs k' e)) (UXSTACKTOP - PGSIZE)
       = page_lookup (env_pgdir (envs k e)) (UXSTACKTOP - PGSIZE)) /\
  (forall e va', Z.of_nat n <= PGNUM va' ->
     page_lookup (env_pgdir (envs k' e)) va'
       = page_lookup (env_pgdir (envs k e)) va').
Proof.
  intros Hn Hrun.
  destruct (fork_pages_frame envid n k 0 k' r ltac:(lia) ltac:(lia) Hrun)
    as [Hs Hl].
  split; [apply Hs|]. split; [apply Hs|].
  split; [apply same_but_pages_fields; exact Hs|].
  split.
  - intros e. apply Hl. right; right. reflexivity.
  - intros e va' Hva. apply Hl. right; left. lia.
Qed.

(** C3.  The duplication step of [fork]: the loop that walks the
    [PGNUM UTOP] pages below [UTOP] and hands every page the caller has
    mapped, the exception-stack page apart, to [duppage], for a child
    handle that names another environment [c].  The loop ends without
    [panic] when the free pool has a page for each page it hands to
    [duppage].  Whenever it ends without [panic], for every page [pn]
    below [UTOP] other than the exception stack that the caller had mapped
    to [pp] by the entry [pte] when the loop began: if [pte] had [PTE_W]
    or [PTE_COW], the child maps the address to [pp] with exactly
    [PTE_P | PTE_U | PTE_COW] (not writable) and so does the parent;
    otherwise the child maps it to [pp] with exactly [PTE_P | PTE_U] and
    the parent's entry is as before.  The exception-stack page is as
    before in every environment. *)
Theorem fork_duplicates_every_mapped_page (k : kernel) (envid c : Z) :
  envid2env k envid true = inl c ->
  c <> curenv k ->
  pgdir_ok (env_pgdir (envs k (curenv k))) ->
  ((pages_to_duplicate (env_pgdir (envs k (curenv k))) 0 (Z.to_nat (PGNUM UTOP))
      <= length (page_free_list (phys k)))%nat ->
   exists k', fork_pages (Z.to_nat (PGNUM UTOP)) k envid 0 = Done k' (Ret 0)) /\
  (forall k' r,
     fork_pages (Z.to_nat (PGNUM UTOP)) k envid 0 = Done k' r ->
     (forall pn pp pte,
        0 <= pn < PGNUM UTOP ->
        pn * PGSIZE <> UXSTACKTOP - PGSIZE ->
        page_lookup (env_pgdir (envs k (curenv k))) (pn * PGSIZE) = Some (pp, pte) ->
        exists cpte,
          page_lookup (env_pgdir (envs k' c)) (pn * PGSIZE) = Some (pp, cpte) /\
          Z.land cpte PTE_W = 0 /\
          if negb (Z.land pte (Z.lor PTE_W PTE_COW) =? 0) then
            Z.land cpte 0xFFF = cow_perm /\
            exists ppte,
              page_lookup (env_pgdir (envs k' (curenv k))) (pn * PGSIZE)
                = Some (pp, ppte) /\
              Z.land ppte 0xFFF = cow_perm /\
              Z.land ppte PTE_W = 0
          else
            Z.land cpte 0xFFF = ro_perm /\
            page_lookup (env_pgdir (envs k' (curenv k))) (pn * PGSIZE)
              = Some (pp, pte)) /\
     (forall e,
        page_lookup (env_pgdir (envs k' e)) (UXSTACKTOP - PGSIZE)
          = page_lookup (env_pgdir (envs k e)) (UXSTACKTOP - PGSIZE))).
Proof.
  intros Hc Hne Hok.
  set (N := Z.to_nat (PGNUM UTOP)).
  assert (HN : Z.of_nat N = PGNUM UTOP).
  { subst N. apply Z2Nat.id. vm_compute. discriminate. }
  clearbody N.
  split.
  - intros Hfree.
    apply (fork_pages_run k envid c N k 0); auto; try lia.
    apply loop_inv_start. exact Hc.
  - intros k' r Hrun. split.
    + intros pn pp pte Hpn Hx Hl.
      pose proof (loop_inv_run k envid c N k 0 k' r Hne Hok ltac:(lia) ltac:(lia)
                    (loop_inv_start k envid c Hc) Hrun) as [_ _ _ Hdone].
      exact (Hdone pn ltac:(lia) Hx pp pte Hl).
    + intros e.
      destruct (fork_pages_frame envid N k 0 k' r ltac:(lia) ltac:(lia) Hrun)
        as [_ Hl].
      apply Hl. right; right. reflexivity.
Qed.

(** *** From [sys_exofork] to the end of the loop *)

Lemma sys_page_alloc_runs k envid va perm p rest e :
  va_invalid va = false -> perm_inappropriate perm = false ->
  page_free_list (phys k) = p :: rest ->
  envid2env k envid true = inl e ->
  Z.land (uvpd (env_pgdir (envs k e)) (PDX va)) PTE_P <> 0 \/ rest <> [] ->
  exists k', sys_page_alloc k envid va perm = (k', Ret 0).
Proof.
  intros Hva Hperm Hfree He Havail.
  unfold sys_page_alloc, page_alloc. rewrite Hva, Hperm, Hfree.
  rewrite envid2env_set_phys, He. cbn [phys set_phys envs].
  destruct (page_insert_avail (mk_phys (pp_ref (phys k)) rest)
              (env_pgdir (envs k e)) p va perm Havail) as (m' & pg' & Hins).
  rewrite Hins. eexists. reflexivity.
Qed.

(** [sys_page_alloc] takes at most two pages from the pool: the page and
    a page table. *)
Lemma sys_page_alloc_free k envid va perm k' r :
  sys_page_alloc k envid va perm = (k', r) ->
  (length (page_free_list (phys k)) <= 2 + length (page_free_list (phys k')))%nat.
Proof.
  unfold sys_page_alloc, page_alloc.
  destruct (va_invalid va); [intros H; injection H as <- _; lia|].
  destruct (perm_inappropriate perm); [intros H; injection H as <- _; lia|].
  destruct (page_free_list (phys k)) as [|p rest] eqn:Hfree.
  { intros H. injection H as <- _. rewrite Hfree. cbn. lia. }
  rewrite envid2env_set_phys.
  destruct (envid2env k envid true) as [e|err].
  2:{ intros H. injection H as <- _. cbn. lia. }
  cbn [phys set_phys envs].
  destruct (page_insert (mk_phys (pp_ref (phys k)) rest) (env_pgdir (envs k e))
                        p va perm) as [[m2 pg] ret] eqn:Hins.
  destruct (page_insert_free _ _ _ _ _ _ _ _ Hins) as [Hlen _].
  intros H. injection H as <- _. cbn [phys set_env set_phys page_free_list] in *.
  cbn [length]. lia.
Qed.

(** [fork] in the parent, from the return of [sys_exofork] to the end of
    the loop, for a child handle the caller may use and a free pool with
    two pages beyond those the loop may take. *)
Lemma fork_copy_to_child_run (k : kernel) (envid c upcall : Z) :
  envid2env k envid true = inl c ->
  c <> curenv k ->
  pgdir_ok (env_pgdir (envs k (curenv k))) ->
  (2 + pages_to_duplicate (env_pgdir (envs k (curenv k))) 0
         (Z.to_nat (PGNUM UTOP))
     <= length (page_free_list (phys k)))%nat ->
  exists k',
    fork_copy_to_child k envid upcall = Done k' (Ret 0) /\
    curenv k' = curenv k /\
    env_id (envs k' (curenv k)) = env_id (envs k (curenv k)) /\
    env_status (envs k' c) = env_status (envs k c) /\
    env_pgfault_upcall (envs k' c) = upcall /\
    env_tf (envs k' c) = env_tf (envs k c) /\
    env_id (envs k' c) = env_id (envs k c) /\
    env_parent_id (envs k' c) = env_parent_id (envs k c) /\
    (forall pn, 0 <= pn < PGNUM UTOP -> pn * PGSIZE <> UXSTACKTOP - PGSIZE ->
       page_duplicated (env_pgdir (envs k (curenv k)))
                       (env_pgdir (envs k' (curenv k)))
                       (env_pgdir (envs k' c)) pn) /\
    page_lookup (env_pgdir (envs k' (curenv k))) (UXSTACKTOP - PGSIZE)
      = page_lookup (env_pgdir (envs k (curenv k))) (UXSTACKTOP - PGSIZE) /\
    (forall p rest, page_free_list (phys k) = p :: rest -> 0 <= p < 2 ^ 20 ->
       exists pte,
         page_lookup (env_pgdir (envs k' c)) (UXSTACKTOP - PGSIZE) = Some (p, pte) /\
         Z.land pte 0xFFF = Z.lor PTE_P (Z.lor PTE_U PTE_W)).
Proof.
  intros Hc Hne Hok Hfree. unfold fork_copy_to_child.
  set (N := Z.to_nat (PGNUM UTOP)) in *.
  assert (HN : Z.of_nat N = PGNUM UTOP).
  { subst N. apply Z2Nat.id. vm_compute. discriminate. }
  clearbody N.
  set (xstack := UXSTACKTOP - PGSIZE).
  set (perm := Z.lor PTE_P (Z.lor PTE_U PTE_W)).
  (* the upcall *)
  assert (Hk1 : fst (sys_env_set_pgfault_upcall k envid upcall)
                = set_env k c (env_set_pgfault_upcall (envs k c) upcall)).
  { unfold sys_env_set_pgfault_upcall. rewrite Hc. reflexivity. }
  rewrite Hk1. clear Hk1.
  set (k1 := set_env k c (env_set_pgfault_upcall (envs k c) upcall)).
  assert (Hpar1 : envs k1 (curenv k) = envs k (curenv k)).
  { unfold k1. apply envs_set_env_other. auto. }
  assert (Hc1 : envid2env k1 envid true = inl c).
  { rewrite <- Hc. apply envid2env_frame; [reflexivity|].
    intros e. unfold k1. destruct (Z.eq_dec e c) as [->|He].
    - rewrite envs_set_env_same. destruct (envs k c). auto.
    - rewrite envs_set_env_other by exact He. auto. }
  (* the exception stack *)
  destruct (sys_page_alloc k1 envid xstack perm) as [k2 r2] eqn:Halloc.
  cbn [fst].
  destruct (sys_page_alloc_frame _ _ _ _ _ _ Halloc) as (Hs2 & Hl2 & Ho2).
  pose proof (sys_page_alloc_free _ _ _ _ _ _ Halloc) as Hfree2.
  assert (Hcur2 : curenv k2 = curenv k) by apply Hs2.
  assert (Hpar2 : envs k2 (curenv k) = envs k (curenv k)).
  { rewrite (Ho2 c Hc1) by auto. exact Hpar1. }
  assert (Hc2 : envid2env k2 envid true = inl c).
  { rewrite (same_but_pages_envid2env k1 k2) by exact Hs2. exact Hc1. }
  assert (Hne2 : c <> curenv k2) by (rewrite Hcur2; exact Hne).
  assert (Hok2 : pgdir_ok (env_pgdir (envs k2 (curenv k2)))).
  { rewrite Hcur2, Hpar2. exact Hok. }
  (* the loop *)
  destruct (fork_pages_run k2 envid c N k2 0 Hne2 Hok2 ltac:(lia) ltac:(lia)
              (loop_inv_start k2 envid c Hc2)) as [k3 Hloop].
  { rewrite Hcur2, Hpar2. change (phys k1) with (phys k) in Hfree2. lia. }
  rewrite Hloop.
  pose proof (loop_inv_run k2 envid c N k2 0 k3 (Ret 0) Hne2 Hok2 ltac:(lia)
                ltac:(lia) (loop_inv_start k2 envid c Hc2) Hloop)
    as [Hcur3 Hc3 _ Hdone3].
  destruct (fork_pages_frame envid N k2 0 k3 (Ret 0) ltac:(lia) ltac:(lia) Hloop)
    as [Hs3 Hl3].
  exists k3. split; [reflexivity|].
  destruct (same_but_pages_fields k2 k3 Hs3 c) as (Hid3 & Hst3 & Hpa3 & Hup3 & Htf3).
  destruct (same_but_pages_fields k1 k2 Hs2 c) as (Hid2 & Hst2 & Hpa2 & Hup2 & Htf2).
  split; [rewrite Hcur3; exact Hcur2|].
  split.
  { destruct (same_but_pages_fields k2 k3 Hs3 (curenv k)) as (Hp3 & _).
    destruct (same_but_pages_fields k1 k2 Hs2 (curenv k)) as (Hp2 & _).
    rewrite Hp3, Hp2, Hpar1. reflexivity. }
  split.
  { rewrite Hst3, Hst2. unfold k1. rewrite envs_set_env_same. reflexivity. }
  split.
  { rewrite Hup3, Hup2. unfold k1. rewrite envs_set_env_same. reflexivity. }
  split.
  { rewrite Htf3, Htf2. unfold k1. rewrite envs_set_env_same. reflexivity. }
  split.
  { rewrite Hid3, Hid2. unfold k1. rewrite envs_set_env_same. reflexivity. }
  split.
  { rewrite Hpa3, Hpa2. unfold k1. rewrite envs_set_env_same. reflexivity. }
  split.
  { intros pn Hpn Hx. specialize (Hdone3 pn ltac:(lia) Hx).
    rewrite Hcur2, Hpar2 in Hdone3. exact Hdone3. }
  split.
  { rewrite (Hl3 (curenv k) xstack) by (right; right; reflexivity).
    rewrite Hpar2. reflexivity. }
  intros p rest Hp Hprange.
  assert (Hrest : rest <> []).
  { intros ->. rewrite Hp in Hfree. cbn in Hfree. lia. }
  destruct (sys_page_alloc_runs k1 envid xstack perm p rest c) as [k2' Hrun];
    try reflexivity; try assumption; [right; exact Hrest|].
  rewrite Halloc in Hrun. injection Hrun as <- ->.
  destruct (sys_page_alloc_inv _ _ _ _ _ _ Halloc) as
    (e & p' & rest' & m2 & pg & _ & Hperm & Hp' & He & Hins & Hk2).
  assert (e = c) by congruence. subst e.
  change (phys k1) with (phys k) in Hp'. rewrite Hp in Hp'.
  injection Hp' as <- <-.
  destruct (page_lookup_insert _ _ _ _ _ _ _ _ Hins Hprange
              (perm_appropriate_range _ Hperm)) as (pte & Hlk & Hlow & _).
  exists pte. split.
  - rewrite (Hl3 c xstack) by (right; right; reflexivity).
    rewrite Hk2, envs_set_env_same. cbn [env_pgdir env_set_pgdir]. exact Hlk.
  - rewrite Hlow. reflexivity.
Qed.

(** What [sys_exofork] leaves when it returns a handle. *)
Lemma sys_exofork_child k k1 id :
  Forall (fun e => 0 <= e < NENV) (env_free_list k) ->
  ~ In (curenv k) (env_free_list k) ->
  sys_exofork k = (k1, Ret id) ->
  exists c rest p prest,
    env_free_list k = c :: rest /\
    page_free_list (phys k) = p :: prest /\
    page_free_list (phys k1) = prest /\
    c <> curenv k /\ curenv k1 = curenv k /\
    envs k1 (curenv k) = envs k (curenv k) /\
    0 < id /\ ENVX id = c /\
    env_id (envs k1 c) = id /\
    env_status (envs k1 c) = ENV_NOT_RUNNABLE /\
    env_parent_id (envs k1 c) = env_id (envs k (curenv k)) /\
    env_tf (envs k1 c) = set_eax (env_tf (envs k (curenv k))) 0.
Proof.
  intros Hfree Hcur. unfold sys_exofork, env_alloc, page_alloc.
  destruct (env_free_list k) as [|e rest] eqn:Hfl; [discriminate|].
  destruct (page_free_list (phys k)) as [|p prest]; [discriminate|].
  assert (He : 0 <= e < NENV) by (inversion Hfree; assumption).
  assert (Hne : curenv k <> e) by (intros E; apply Hcur; left; auto).
  destruct (next_env_id_spec (env_id (envs k e)) e He) as (Hpos & Hslot & Hnew).
  intros H. injection H as <- <-.
  exists e, rest, p, prest. cbn [env_free_list curenv]. rewrite envs_set_env_same.
  rewrite envs_set_env_other by exact Hne.
  cbn [env_id env_status env_tf env_parent_id env_set_tf env_set_status
       envs set_eax tf_regs reg_eax tf_eip phys set_env incref set_ref
       page_free_list].
  rewrite upd_same, (upd_other _ e (curenv k)) by exact Hne.
  cbn [env_id env_tf env_parent_id].
  repeat split; auto.
Qed.

(** A handle of a live child of the caller is let through by the
    permission check. *)
Lemma envid2env_child k envid :
  envid <> 0 ->
  env_status (envs k (ENVX envid)) <> ENV_FREE ->
  env_id (envs k (ENVX envid)) = envid ->
  env_parent_id (envs k (ENVX envid)) = env_id (envs k (curenv k)) ->
  envid2env k envid true = inl (ENVX envid).
Proof.
  intros H0 Hlive Hid Hpar. unfold envid2env.
  destruct (Z.eqb_spec envid 0); [contradiction|].
  rewrite Hid, Hpar, !Z.eqb_refl. cbn [negb andb].
  rewrite andb_false_r.
  destruct (env_status (envs k (ENVX envid))); try reflexivity.
  contradiction Hlive. reflexivity.
Qed.

(** X17.  [fork] in the parent, from [sys_exofork] to the end of the page
    loop, and the wake-up that follows.  With a free slot in the
    environment table and a free pool that has three pages (the child's
    page directory, its exception stack and one page table) beyond one for
    each page the loop hands to [duppage], [sys_exofork] returns a
    positive handle, [fork] takes the parent's branch and reaches the end
    of the loop without [panic].  There the handle names the slot that
    headed the free list, a child of the caller that is still not
    runnable, has the given fault upcall and the caller's registers with 0
    in [eax] (so that it takes the child's branch of [fork]); every page of
    the parent below [UTOP] but the exception stack is duplicated (the same
    physical page in the child, copy-on-write in both when it was writable
    or copy-on-write, read-only in the child otherwise); the parent's
    exception stack is as before and the child's is a page fresh from the
    free pool, mapped with [PTE_P | PTE_U | PTE_W].  The call
    [sys_env_set_status (child, ENV_RUNNABLE)] that ends [fork] then
    returns 0 and makes the child runnable, changing nothing else, in
    every state in which the child's environment is as the loop left it
    and the caller is the parent: whatever the parent's own page faults
    have done to its address space and to the free pool by then. *)
Theorem fork_sets_up_child (k : kernel) (upcall : Z) :
  Forall (fun e => 0 <= e < NENV) (env_free_list k) ->
  ~ In (curenv k) (env_free_list k) ->
  env_free_list k <> [] ->
  pgdir_ok (env_pgdir (envs k (curenv k))) ->
  (3 + pages_to_duplicate (env_pgdir (envs k (curenv k))) 0
         (Z.to_nat (PGNUM UTOP))
     <= length (page_free_list (phys k)))%nat ->
  exists k1 k3 id c,
    sys_exofork k = (k1, Ret id) /\
    fork_dispatch id = Fork_parent /\
    fork_copy_to_child k1 id upcall = Done k3 (Ret 0) /\
    0 < id /\ ENVX id = c /\
    (exists rest, env_free_list k = c :: rest) /\
    curenv k3 = curenv k /\
    env_id (envs k3 (curenv k)) = env_id (envs k (curenv k)) /\
    env_id (envs k3 c) = id /\
    env_parent_id (envs k3 c) = env_id (envs k (curenv k)) /\
    env_status (envs k3 c) = ENV_NOT_RUNNABLE /\
    env_pgfault_upcall (envs k3 c) = upcall /\
    env_tf (envs k3 c) = set_eax (env_tf (envs k (curenv k))) 0 /\
    fork_dispatch (reg_eax (tf_regs (env_tf (envs k3 c)))) = Fork_child /\
    (forall pn, 0 <= pn < PGNUM UTOP -> pn * PGSIZE <> UXSTACKTOP - PGSIZE ->
       page_duplicated (env_pgdir (envs k (curenv k)))
                       (env_pgdir (envs k3 (curenv k)))
                       (env_pgdir (envs k3 c)) pn) /\
    page_lookup (env_pgdir (envs k3 (curenv k))) (UXSTACKTOP - PGSIZE)
      = page_lookup (env_pgdir (envs k (curenv k))) (UXSTACKTOP - PGSIZE) /\
    (forall p0 p rest, page_free_list (phys k) = p0 :: p :: rest ->
       0 <= p < 2 ^ 20 ->
       exists pte,
         page_lookup (env_pgdir (envs k3 c)) (UXSTACKTOP - PGSIZE) = Some (p, pte) /\
         Z.land pte 0xFFF = Z.lor PTE_P (Z.lor PTE_U PTE_W)) /\
    (forall k4,
       envs k4 c = envs k3 c ->
       env_id (envs k4 (curenv k4)) = env_id (envs k (curenv k)) ->
       sys_env_set_status k4 id ENV_RUNNABLE
         = (set_env k4 c (env_set_status (envs k3 c) ENV_RUNNABLE), Ret 0)).
Proof.
  intros Hslots Hcur Henv Hok Hfree.
  assert (Hexo : exists k1 id, sys_exofork k = (k1, Ret id)).
  { unfold sys_exofork, env_alloc, page_alloc.
    destruct (env_free_list k) as [|e rest]; [contradiction|].
    destruct (page_free_list (phys k)) as [|p prest]; [cbn in Hfree; lia|].
    eauto. }
  destruct Hexo as (k1 & id & Hexo).
  destruct (sys_exofork_child k k1 id Hslots Hcur Hexo) as
    (c & rest & p0 & prest & Hfl & Hpl & Hpl1 & Hne & Hcur1 & Hpar1 & Hpos &
     Hslot & Hid & Hst & Hparent & Htf).
  assert (Hc1 : envid2env k1 id true = inl c).
  { rewrite <- Hslot. apply envid2env_child.
    - lia.
    - rewrite Hslot, Hst. discriminate.
    - rewrite Hslot. exact Hid.
    - rewrite Hslot, Hcur1, Hpar1. exact Hparent. }
  destruct (fork_copy_to_child_run k1 id c upcall Hc1) as
    (k3 & Hrun & Hcur' & Hpid' & Hst' & Hup' & Htf' & Hid' & Hpa' & Hdup & Hxp &
     Hxc).
  { rewrite Hcur1. exact Hne. }
  { rewrite Hcur1, Hpar1. exact Hok. }
  { rewrite Hcur1, Hpar1, Hpl1. rewrite Hpl in Hfree. cbn [length] in Hfree.
    lia. }
  rewrite Hcur1 in Hdup, Hxp, Hpid'. rewrite Hpar1 in Hdup, Hxp, Hpid'.
  exists k1, k3, id, c.
  assert (Hdisp : fork_dispatch id = Fork_parent).
  { unfold fork_dispatch. destruct (Z.ltb_spec id 0); [lia|].
    destruct (Z.eqb_spec id 0); [lia|reflexivity]. }
  split; [exact Hexo|]. split; [exact Hdisp|].
  split; [exact Hrun|]. split; [exact Hpos|]. split; [exact Hslot|].
  split; [exists rest; exact Hfl|].
  split; [rewrite Hcur'; exact Hcur1|].
  split; [exact Hpid'|].
  split; [rewrite Hid'; exact Hid|].
  split; [rewrite Hpa'; exact Hparent|].
  split; [rewrite Hst'; exact Hst|]. split; [exact Hup'|].
  split; [rewrite Htf'; exact Htf|].
  split; [rewrite Htf', Htf; reflexivity|].
  split; [exact Hdup|]. split; [exact Hxp|].
  split.
  { intros q0 p rest' Hq Hp. apply (Hxc p rest'); [|exact Hp].
    rewrite Hpl1. rewrite Hpl in Hq. congruence. }
  intros k4 Hchild Hcaller.
  assert (Hc4 : envid2env k4 id true = inl c).
  { rewrite <- Hslot. apply envid2env_child.
    - lia.
    - rewrite Hslot, Hchild, Hst', Hst. discriminate.
    - rewrite Hslot, Hchild, Hid'. exact Hid.
    - rewrite Hslot, Hchild, Hpa', Hcaller. exact Hparent. }
  unfold sys_env_set_status. rewrite Hc4, Hchild. reflexivity.
Qed.

End ForkWhole.

(** ** Unmapping, and the copy-on-write fault *)

Section PageFault.
Import Kern Syscall Fork.

Lemma land_pow2_testbit (x n : Z) :
  0 <= n -> Z.land x (2 ^ n) <> 0 -> Z.testbit x n = true.
Proof.
  intros Hn H. destruct (Z.testbit x n) eqn:Hbit; [reflexivity|].
  exfalso. apply H. apply Z.bits_inj'. intros m Hm.
  rewrite Z.land_spec, Z.pow2_bits_eqb, Z.bits_0 by exact Hn.
  destruct (Z.eqb_spec n m) as [->|_].
  - rewrite Hbit. reflexivity.
  - apply andb_false_r.
Qed.

(** [(~pte & (PTE_P | PTE_COW)) != 0] is false exactly when the entry has
    both bits. *)
Lemma cow_test (pte : Z) :
  Z.land (Z.lnot pte) (Z.lor PTE_P PTE_COW) = 0
  <-> Z.land pte PTE_P <> 0 /\ Z.land pte PTE_COW <> 0.
Proof.
  assert (Hbits : forall m, 0 <= m ->
            Z.testbit (Z.land (Z.lnot pte) (Z.lor PTE_P PTE_COW)) m
              = negb (Z.testbit pte m) && ((0 =? m) || (11 =? m))).
  { intros m Hm. rewrite Z.land_spec, Z.lnot_spec, Z.lor_spec by exact Hm.
    change PTE_P with (2 ^ 0). change PTE_COW with (2 ^ 11).
    rewrite !Z.pow2_bits_eqb by lia. reflexivity. }
  split.
  - intros H. split.
    + change PTE_P with (2 ^ 0). apply land_pow2_nonzero; [lia|].
      pose proof (Hbits 0 ltac:(lia)) as H0. rewrite H, Z.bits_0 in H0.
      destruct (Z.testbit pte 0); [reflexivity|]. cbn in H0. discriminate H0.
    + change PTE_COW with (2 ^ 11). apply land_pow2_nonzero; [lia|].
      pose proof (Hbits 11 ltac:(lia)) as H0. rewrite H, Z.bits_0 in H0.
      destruct (Z.testbit pte 11); [reflexivity|]. cbn in H0. discriminate H0.
  - intros [HP HC].
    change PTE_P with (2 ^ 0) in HP. change PTE_COW with (2 ^ 11) in HC.
    apply land_pow2_testbit in HP; [|lia]. apply land_pow2_testbit in HC; [|lia].
    apply Z.bits_inj'. intros m Hm. rewrite Hbits, Z.bits_0 by exact Hm.
    destruct (Z.eqb_spec 0 m) as [<-|_]; [rewrite HP; reflexivity|].
    destruct (Z.eqb_spec 11 m) as [<-|_]; [rewrite HC; reflexivity|].
    apply andb_false_r.
Qed.

Lemma PGNUM_div (x : Z) : PGNUM x = x / PGSIZE.
Proof. unfold PGNUM, PGSHIFT, PGSIZE. rewrite Z.shiftr_div_pow2 by lia. reflexivity. Qed.

Lemma ROUNDDOWN_page (va : Z) :
  PGNUM (ROUNDDOWN va PGSIZE) = PGNUM va /\
  ROUNDDOWN va PGSIZE mod PGSIZE = 0 /\
  ROUNDDOWN va PGSIZE <= va.
Proof.
  rewrite !PGNUM_div. unfold ROUNDDOWN, PGSIZE.
  pose proof (Z.div_mod va 4096 ltac:(lia)) as Hdm.
  pose proof (Z.mod_pos_bound va 4096 ltac:(lia)) as Hb.
  replace (va - va mod 4096) with (va / 4096 * 4096) by lia.
  rewrite Z.div_mul, Z.mod_mul by lia. repeat split; lia.
Qed.

(** What is mapped at an address depends on its page alone. *)
Lemma page_lookup_same_page pg a b :
  PGNUM a = PGNUM b -> page_lookup pg a = page_lookup pg b.
Proof.
  intros H. unfold page_lookup.
  rewrite <- (PDX_of_page a), <- (PDX_of_page b), H. reflexivity.
Qed.

Lemma page_remove_removes m pg va :
  page_lookup (snd (page_remove m pg va)) va = None.
Proof.
  unfold page_remove. destruct (page_lookup pg va) as [[pp pte]|] eqn:Hl;
    cbn [snd]; [|exact Hl].
  unfold page_lookup. cbn [uvpd uvpt]. rewrite upd_same.
  destruct (Z.land (uvpd pg (PDX va)) PTE_P =? 0); reflexivity.
Qed.

Lemma sys_page_unmap_run k envid va e :
  envid2env k envid true = inl e ->
  va_invalid va = false ->
  sys_page_unmap k envid va
    = (set_env (set_phys k (fst (page_remove (phys k) (env_pgdir (envs k e)) va)))
               e
               (env_set_pgdir (envs k e)
                  (snd (page_remove (phys k) (env_pgdir (envs k e)) va))),
       Ret 0).
Proof.
  intros He Hva. unfold sys_page_unmap. rewrite He, Hva.
  destruct (page_remove (phys k) (env_pgdir (envs k e)) va). reflexivity.
Qed.

(** X18.  [sys_page_unmap] on a handle the caller may use and a
    page-aligned address below [UTOP] returns 0; afterwards nothing is
    mapped at the address in the target, the target's other pages and all
    that is not a page table are as before, and so are the other
    environments.  When nothing was mapped there the physical pages are
    untouched too; when a page was, its reference count went down by one,
    and the page joined the head of the free pool exactly when the count
    reached 0. *)
Theorem sys_page_unmap_spec (k : kernel) (envid va e : Z) :
  envid2env k envid true = inl e ->
  va_invalid va = false ->
  exists k',
    sys_page_unmap k envid va = (k', Ret 0) /\
    page_lookup (env_pgdir (envs k' e)) va = None /\
    (forall va', PGNUM va' <> PGNUM va ->
       page_lookup (env_pgdir (envs k' e)) va'
         = page_lookup (env_pgdir (envs k e)) va') /\
    (forall e', e' <> e -> envs k' e' = envs k e') /\
    same_but_pages k k' /\
    (page_lookup (env_pgdir (envs k e)) va = None ->
       phys k' = phys k /\ env_pgdir (envs k' e) = env_pgdir (envs k e)) /\
    (forall pp pte, page_lookup (env_pgdir (envs k e)) va = Some (pp, pte) ->
       pp_ref (phys k') pp = u16 (pp_ref (phys k) pp - 1) /\
       (u16 (pp_ref (phys k) pp - 1) = 0 ->
          page_free_list (phys k') = pp :: page_free_list (phys k)) /\
       (u16 (pp_ref (phys k) pp - 1) <> 0 ->
          page_free_list (phys k') = page_free_list (phys k))).
Proof.
  intros He Hva. eexists. split; [exact (sys_page_unmap_run k envid va e He Hva)|].
  rewrite envs_set_env_same. cbn [env_pgdir env_set_pgdir phys set_env set_phys].
  split; [apply page_remove_removes|].
  split; [intros va' Hva'; apply page_remove_lookup; exact Hva'|].
  split; [intros e' He'; cbn [envs]; apply upd_other; exact He'|].
  split; [apply same_but_pages_set_pgdir|].
  unfold page_remove. split.
  - intros Hl. rewrite Hl. split; reflexivity.
  - intros pp pte Hl. rewrite Hl. cbn [fst]. unfold page_decref. cbv zeta.
    destruct (Z.eqb_spec (u16 (pp_ref (phys k) pp - 1)) 0) as [H0|H0];
      cbn [page_free set_ref pp_ref page_free_list]; rewrite upd_same;
      repeat split; try reflexivity; intros; congruence.
Qed.

(** X19.  [pgfault] ends in [panic], with nothing changed, on every
    fault that is not a write or not on a page that is present and marked
    copy-on-write. *)
Theorem pgfault_panics_unless_write_to_cow (k : kernel) (mem : Z -> list byte)
    (utf_fault_va utf_err : Z) :
  Z.land utf_err FEC_WR = 0
  \/ page_lookup (env_pgdir (envs k (curenv k))) utf_fault_va = None
  \/ Z.land (cur_uvpt k (PGNUM utf_fault_va)) PTE_COW = 0 ->
  pgfault k mem utf_fault_va utf_err = (Panic k, mem).
Proof.
  intros H. unfold pgfault.
  destruct (Z.eqb_spec (Z.land utf_err FEC_WR) 0) as [|Hwr]; [reflexivity|].
  destruct (Z.eqb_spec (Z.land (cur_uvpd k (PDX utf_fault_va)) PTE_P) 0)
    as [|Hpde]; [reflexivity|].
  destruct (Z.eqb_spec (Z.land (Z.lnot (cur_uvpt k (PGNUM utf_fault_va)))
                               (Z.lor PTE_P PTE_COW)) 0) as [Hboth|];
    [|reflexivity].
  exfalso. apply cow_test in Hboth. destruct Hboth as [HP HC].
  destruct H as [H|[H|H]]; [contradiction| |contradiction].
  unfold page_lookup, cur_uvpd, cur_uvpt in *.
  destruct (Z.eqb_spec (Z.land (uvpd (env_pgdir (envs k (curenv k)))
                                     (PDX utf_fault_va)) PTE_P) 0);
    [contradiction|].
  destruct (Z.eqb_spec (Z.land (uvpt (env_pgdir (envs k (curenv k)))
                                     (PGNUM utf_fault_va)) PTE_P) 0);
    [contradiction|discriminate].
Qed.

(** X20.  [pgfault] on a write fault at a copy-on-write page, with a free
    page to take and room for the page table of [PFTEMP]: it returns
    without [panic]; the faulting address is then mapped, writable, to the
    page that headed the free pool, which holds the bytes of the old page;
    no other physical page has changed its contents, so whoever still maps
    the old page reads what it read before; nothing is mapped at [PFTEMP];
    the caller's other pages and all other environments are as before. *)
Theorem pgfault_gives_private_copy (k : kernel) (mem : Z -> list byte)
    (va err pp pte p : Z) (rest : list Z) :
  Z.land err FEC_WR <> 0 ->
  page_lookup (env_pgdir (envs k (curenv k))) va = Some (pp, pte) ->
  Z.land pte PTE_COW <> 0 ->
  va < UTOP ->
  PGNUM va <> PGNUM PFTEMP ->
  page_free_list (phys k) = p :: rest ->
  0 <= p < 2 ^ 20 -> p <> pp ->
  Z.land (uvpd (env_pgdir (envs k (curenv k))) (PDX PFTEMP)) PTE_P <> 0
    \/ rest <> [] ->
  exists k' mem' pte',
    pgfault k mem va err = (Done k' (Ret 0), mem') /\
    page_lookup (env_pgdir (envs k' (curenv k))) va = Some (p, pte') /\
    Z.land pte' 0xFFF = Z.lor PTE_P (Z.lor PTE_U PTE_W) /\
    mem' p = mem pp /\
    (forall q, q <> p -> mem' q = mem q) /\
    page_lookup (env_pgdir (envs k' (curenv k))) PFTEMP = None /\
    (forall va', PGNUM va' <> PGNUM va -> PGNUM va' <> PGNUM PFTEMP ->
       page_lookup (env_pgdir (envs k' (curenv k))) va'
         = page_lookup (env_pgdir (envs k (curenv k))) va') /\
    (forall e, e <> curenv k -> envs k' e = envs k e) /\
    curenv k' = curenv k.
Proof.
  intros Hwr Hl Hcow Hutop Hpn Hfree Hp Hne Havail.
  destruct (page_lookup_Some _ _ _ _ Hl) as (Hpde & Hpteq & HpteP & _).
  destruct (ROUNDDOWN_page va) as (Hnum & Hal & Hle).
  set (addr := ROUNDDOWN va PGSIZE) in *.
  set (perm := Z.lor PTE_P (Z.lor PTE_U PTE_W)).
  assert (Hperm : perm_inappropriate perm = false) by reflexivity.
  assert (Hvt : va_invalid PFTEMP = false) by reflexivity.
  assert (Hva : va_invalid addr = false).
  { unfold va_invalid. rewrite Hal.
    destruct (Z.leb_spec UTOP addr); [lia|reflexivity]. }
  (* the fresh page at [PFTEMP] *)
  destruct (sys_page_alloc_runs k 0 PFTEMP perm p rest (curenv k) Hvt Hperm Hfree
              (envid2env_self k true) Havail) as [k1 Halloc].
  destruct (sys_page_alloc_inv _ _ _ _ _ _ Halloc) as
    (e & p' & rest' & m2 & pg1 & _ & _ & Hfree' & He & Hins1 & Hk1).
  rewrite envid2env_self in He. injection He as <-.
  rewrite Hfree in Hfree'. injection Hfree' as <- <-.
  destruct (page_lookup_insert _ _ _ _ _ _ _ _ Hins1 Hp
              (perm_appropriate_range _ Hperm)) as (pte1 & Hl1 & Hlow1 & _).
  assert (Hcur1 : curenv k1 = curenv k) by (rewrite Hk1; reflexivity).
  assert (Hpg1 : env_pgdir (envs k1 (curenv k)) = pg1).
  { rewrite Hk1, envs_set_env_same. reflexivity. }
  assert (Hoth1 : forall e, e <> curenv k -> envs k1 e = envs k e).
  { intros e He. rewrite Hk1. cbn [set_env set_phys envs]. apply upd_other. exact He. }
  clear Hk1.
  assert (Hl1a : page_lookup pg1 addr = Some (pp, pte)).
  { rewrite (page_lookup_same_page pg1 addr va Hnum).
    rewrite (page_insert_frame _ _ _ _ _ _ _ _ va Hins1 Hpn). exact Hl. }
  (* the copy *)
  set (mem1 := upd (upd mem p (replicate (Z.to_nat PGSIZE) x00%byte)) p
                   (upd mem p (replicate (Z.to_nat PGSIZE) x00%byte) pp)).
  assert (Hcopy : user_memcpy_page k1 (zero_page_at k1 mem PFTEMP) PFTEMP addr
                  = Some mem1).
  { unfold user_memcpy_page, zero_page_at. rewrite Hcur1, Hpg1, Hl1, Hl1a.
    reflexivity. }
  (* the move to the faulting address *)
  assert (Hw1 : Z.land pte1 PTE_W <> 0).
  { rewrite (low_bits_flag pte1 _ PTE_W Hlow1) by (unfold PTE_W; lia).
    vm_compute. discriminate. }
  destruct (page_insert_avail (phys k1) pg1 p addr perm) as (m3 & pg3 & Hins3).
  { left. destruct (page_lookup_Some _ _ _ _ Hl1a) as (H & _). exact H. }
  assert (Hmap : sys_page_map k1 0 PFTEMP 0 addr perm
                 = (set_env (set_phys k1 m3) (curenv k)
                            (env_set_pgdir (envs k1 (curenv k)) pg3), Ret 0)).
  { rewrite (sys_page_map_run k1 0 PFTEMP 0 addr perm (curenv k) (curenv k) p pte1);
      try assumption.
    - rewrite Hpg1, Hins3. reflexivity.
    - rewrite <- Hcur1. apply envid2env_self.
    - rewrite <- Hcur1. apply envid2env_self.
    - rewrite Hpg1. exact Hl1.
    - right. exact Hw1. }
  set (k2 := set_env (set_phys k1 m3) (curenv k)
                     (env_set_pgdir (envs k1 (curenv k)) pg3)) in *.
  destruct (page_lookup_insert _ _ _ _ _ _ _ _ Hins3 Hp
              (perm_appropriate_range _ Hperm)) as (pte3 & Hl3 & Hlow3 & _).
  assert (Hpg2 : env_pgdir (envs k2 (curenv k)) = pg3).
  { unfold k2. rewrite envs_set_env_same. reflexivity. }
  (* the temporary mapping released *)
  assert (Hself2 : envid2env k2 0 true = inl (curenv k)).
  { rewrite <- Hcur1. exact (envid2env_self k2 true). }
  pose proof (sys_page_unmap_run k2 0 PFTEMP (curenv k) Hself2 Hvt) as Hunmap.
  rewrite Hpg2 in Hunmap.
  exists (set_env (set_phys k2 (fst (page_remove (phys k2) pg3 PFTEMP))) (curenv k)
            (env_set_pgdir (envs k2 (curenv k))
               (snd (page_remove (phys k2) pg3 PFTEMP)))), mem1, pte3.
  split.
  { unfold pgfault, cur_uvpd, cur_uvpt. rewrite <- Hpteq.
    destruct (Z.eqb_spec (Z.land err FEC_WR) 0); [contradiction|].
    destruct (Z.eqb_spec (Z.land (uvpd (env_pgdir (envs k (curenv k))) (PDX va))
                                 PTE_P) 0); [contradiction|].
    rewrite (proj2 (cow_test pte) (conj HpteP Hcow)).
    change (0 =? 0) with true. cbn [negb orb].
    fold addr perm. rewrite Halloc. change (is_neg (Ret 0)) with false. cbv iota.
    rewrite Hcopy, Hmap. change (is_neg (Ret 0)) with false. cbv iota.
    rewrite Hunmap. reflexivity. }
  rewrite envs_set_env_same. cbn [env_pgdir env_set_pgdir].
  split.
  { rewrite page_remove_lookup by exact Hpn.
    rewrite <- (page_lookup_same_page pg3 addr va Hnum). exact Hl3. }
  split; [rewrite Hlow3; reflexivity|].
  split.
  { unfold mem1. rewrite upd_same. apply upd_other. auto. }
  split.
  { intros q Hq. unfold mem1. rewrite !upd_other by exact Hq. reflexivity. }
  split; [apply page_remove_removes|].
  split.
  { intros va' Hva1 Hva2. rewrite page_remove_lookup by exact Hva2.
    rewrite (page_insert_frame _ _ _ _ _ _ _ _ va' Hins3) by (rewrite Hnum; exact Hva1).
    apply (page_insert_frame _ _ _ _ _ _ _ _ va' Hins1 Hva2). }
  split; [|exact Hcur1].
  intros e He. cbn [set_env set_phys envs]. rewrite upd_other by exact He.
  unfold k2. cbn [set_env set_phys envs]. rewrite upd_other by exact He.
  apply Hoth1. exact He.
Qed.

End PageFault.

(** ** The polling loops *)

Section NetLoops.
Import E1000 Kern Net.

(** X21.  The transmit loop of [output] never ends in [panic] for a
    packet of at most [MAX_ETHERNET_PACKET_SIZE] bytes: whatever the card
    does between the rounds (as long as it leaves the ring its size and the
    tail register an index into it), every attempt returns 0 or
    [-E_NET_QUEUE_FULL], so after any number of rounds the loop has been
    left with the packet handed to the card by an attempt that returned 0,
    or it is still polling; and it is left in the first round when the slot
    at the tail is done. *)
Theorem output_packet_never_panics (card : device -> device)
    (jp_data : list byte) (jp_len : Z) :
  (forall d, tx_ring_ok d -> tx_ring_ok (card d)) ->
  0 <= jp_len <= MAX_ETHERNET_PACKET_SIZE ->
  forall (fuel : nat) (d : device), tx_ring_ok d ->
    ((exists d0 d', tx_ring_ok d0 /\
        e1000_try_transmit_packet d0 jp_data jp_len = Some (d', Ret 0) /\
        output_packet fuel card d jp_data jp_len = Some (Poll_done d'))
     \/ (exists d', output_packet fuel card d jp_data jp_len = Some (Poll_more d'))) /\
    ((forall desc,
        at_index (tx_descriptor_ring d) (e1000_dma_io d E1000_TDT) = Some desc ->
        Z.land (txd_status desc) E1000_TX_DX_STAT_DD <> 0) ->
     exists d', output_packet (S fuel) card d jp_data jp_len = Some (Poll_done d')).
Proof.
  intros Hcard Hlen.
  assert (Hu : u32 jp_len = jp_len).
  { apply u32_small. unfold MAX_ETHERNET_PACKET_SIZE in Hlen. lia. }
  assert (Hcheck : forall fuel d,
            output_packet fuel card d jp_data jp_len
              = output_send fuel card d jp_data jp_len).
  { intros fuel d. unfold output_packet.
    destruct (Z.ltb_spec MAX_ETHERNET_PACKET_SIZE jp_len); [lia|reflexivity]. }
  assert (Hfit : (E1000_TX_BUFFER_SIZE <? jp_len) = false).
  { apply Z.ltb_ge. unfold E1000_TX_BUFFER_SIZE, MAX_ETHERNET_PACKET_SIZE in *. lia. }
  assert (Hstep : forall d, tx_ring_ok d ->
            e1000_try_transmit_packet d jp_data jp_len = Some (d, Neg E_NET_QUEUE_FULL)
            \/ exists d', e1000_try_transmit_packet d jp_data jp_len = Some (d', Ret 0)).
  { intros d [Hlr Hlb Htdt]. unfold e1000_try_transmit_packet. rewrite Hfit.
    destruct (at_index_in_range (tx_descriptor_ring d) (e1000_dma_io d E1000_TDT))
      as [desc Hdesc].
    { rewrite Hlr. unfold E1000_TX_DESCRIPTORS_COUNT in *. lia. }
    destruct (at_index_in_range (tx_buffers d) (e1000_dma_io d E1000_TDT))
      as [buf Hbuf].
    { rewrite Hlb. unfold E1000_TX_DESCRIPTORS_COUNT in *. lia. }
    rewrite Hdesc, Hbuf.
    destruct (Z.land (txd_status desc) E1000_TX_DX_STAT_DD =? 0);
      [left; reflexivity|right; eexists; reflexivity]. }
  intros fuel d Hok. split.
  - rewrite Hcheck. revert d Hok.
    induction fuel as [|fuel IH]; intros d Hok.
    + right. exists d. reflexivity.
    + cbn [output_send]. rewrite Hu.
      destruct (Hstep d Hok) as [Hfull | [d' Hsent]].
      * rewrite Hfull. apply IH. apply Hcard. exact Hok.
      * rewrite Hsent. left. exists d, d'. change (0 =? 0) with true.
        split; [exact Hok|]. split; [exact Hsent|reflexivity].
  - intros Hdone. rewrite Hcheck. cbn [output_send]. rewrite Hu.
    destruct (Hstep d Hok) as [Hfull | [d' Hsent]].
    + exfalso. revert Hfull. unfold e1000_try_transmit_packet. rewrite Hfit.
      destruct (at_index (tx_descriptor_ring d) (e1000_dma_io d E1000_TDT))
        as [desc|] eqn:Hdesc; [|discriminate].
      destruct (Z.eqb_spec (Z.land (txd_status desc) E1000_TX_DX_STAT_DD) 0)
        as [Hdd|Hdd]; [exact (fun _ => Hdone desc eq_refl Hdd)|].
      destruct (at_index (tx_buffers d) (e1000_dma_io d E1000_TDT));
        discriminate.
    + rewrite Hsent. exists d'. reflexivity.
Qed.

(** X22.  The receive loop of [input] never ends in [panic] as long as
    the card leaves the receive ring its size and stores no frame longer
    than a receive buffer: its buffer of [PGSIZE - 4] bytes is never too
    small, so every attempt returns 0 or [-E_NET_QUEUE_EMPTY]; and when
    the slot after the tail holds a frame the loop is left in the first
    round with the frame's length in [recv_packet_size] and its bytes at
    the start of the buffer. *)
Theorem input_recv_never_panics (card : device -> device) :
  (forall d, rx_lengths_ok d -> rx_lengths_ok (card d)) ->
  forall (fuel : nat) (d : device) (jp_data : list byte) (recv_packet_size : Z),
    rx_lengths_ok d ->
    (exists d' buf size,
       input_recv fuel card d jp_data recv_packet_size
         = Some (Poll_done d', buf, size)
       \/ input_recv fuel card d jp_data recv_packet_size
            = Some (Poll_more d', buf, size)) /\
    (forall desc rbuf,
       at_index (receive_descriptor_ring d)
         (u32 (e1000_dma_io d E1000_RDT + 1) mod E1000_RX_DESCRIPTORS_COUNT)
         = Some desc ->
       at_index (receive_buffers d)
         (u32 (e1000_dma_io d E1000_RDT + 1) mod E1000_RX_DESCRIPTORS_COUNT)
         = Some rbuf ->
       Z.land (rxd_status desc) E1000_TX_DX_STAT_DD <> 0 ->
       exists d',
         input_recv (S fuel) card d jp_data recv_packet_size
           = Some (Poll_done d',
                   take (Z.to_nat (rxd_length desc)) rbuf
                     ++ drop (Z.to_nat (rxd_length desc)) jp_data,
                   rxd_length desc)).
Proof.
  intros Hcard.
  assert (Hstep : forall d jp_data size, rx_lengths_ok d ->
            e1000_try_recv_packet d jp_data (PGSIZE - 4) (Some size)
              = Some (mk_recv d jp_data (Some size) (Neg E_NET_QUEUE_EMPTY))
            \/ exists desc rbuf d',
                 at_index (receive_descriptor_ring d)
                   (u32 (e1000_dma_io d E1000_RDT + 1) mod E1000_RX_DESCRIPTORS_COUNT)
                   = Some desc /\
                 at_index (receive_buffers d)
                   (u32 (e1000_dma_io d E1000_RDT + 1) mod E1000_RX_DESCRIPTORS_COUNT)
                   = Some rbuf /\
                 Z.land (rxd_status desc) E1000_TX_DX_STAT_DD <> 0 /\
                 e1000_try_recv_packet d jp_data (PGSIZE - 4) (Some size)
                   = Some (mk_recv d' (memcpy jp_data rbuf (rxd_length desc))
                                   (Some (rxd_length desc)) (Ret 0))).
  { intros d jp_data size [[Hlr Hlb] Hlen]. unfold e1000_try_recv_packet.
    pose proof (rx_tail_range d) as Hr.
    set (tail := u32 (e1000_dma_io d E1000_RDT + 1) mod E1000_RX_DESCRIPTORS_COUNT)
      in *.
    destruct (at_index_in_range (receive_descriptor_ring d) tail) as [desc Hdesc].
    { rewrite Hlr. unfold E1000_RX_DESCRIPTORS_COUNT in *. lia. }
    destruct (at_index_in_range (receive_buffers d) tail) as [rbuf Hbuf].
    { rewrite Hlb. unfold E1000_RX_DESCRIPTORS_COUNT in *. lia. }
    rewrite Hdesc, Hbuf.
    destruct (Z.eqb_spec (Z.land (rxd_status desc) E1000_TX_DX_STAT_DD) 0)
      as [Hdd|Hdd]; [left; reflexivity|].
    pose proof (Hlen tail desc Hdesc) as Hl.
    destruct (Z.ltb_spec (PGSIZE - 4) (rxd_length desc)) as [Hbig|_].
    { unfold PGSIZE, E1000_RX_BUFFER_SIZE in *. lia. }
    right. exists desc, rbuf. eexists.
    split; [reflexivity|]. split; [reflexivity|]. split; [exact Hdd|].
    fold tail. rewrite (receive_buffers_from_slot d tail rbuf _ Hl).
    reflexivity. }
  intros fuel d jp_data size Hok. split.
  - revert d jp_data size Hok.
    induction fuel as [|fuel IH]; intros d jp_data size Hok.
    + exists d, jp_data, size. right. reflexivity.
    + cbn [input_recv].
      destruct (Hstep d jp_data size Hok)
        as [Hempty | (desc & rbuf & d' & _ & _ & _ & Hgot)].
      * rewrite Hempty. cbn [recv_ret E1000.recv_packet_size recv_dev recv_buffer].
        apply IH. apply Hcard. exact Hok.
      * rewrite Hgot. cbn [recv_ret E1000.recv_packet_size recv_dev recv_buffer].
        change (0 =? 0) with true. eexists _, _, _. left. reflexivity.
  - intros desc rbuf Hdesc Hbuf Hdd. cbn [input_recv].
    destruct (Hstep d jp_data size Hok)
      as [Hempty | (desc' & rbuf' & d' & Hdesc' & Hbuf' & _ & Hgot)].
    + exfalso. revert Hempty. unfold e1000_try_recv_packet. rewrite Hdesc.
      destruct (Z.eqb_spec (Z.land (rxd_status desc) E1000_TX_DX_STAT_DD) 0);
        [contradiction|].
      destruct (PGSIZE - 4 <? rxd_length desc); [discriminate|].
      rewrite Hbuf. discriminate.
    + rewrite Hgot. cbn [recv_ret E1000.recv_packet_size recv_dev recv_buffer].
      change (0 =? 0) with true.
      assert (desc' = desc) by congruence. assert (rbuf' = rbuf) by congruence.
      subst desc' rbuf'. exists d'. reflexivity.
Qed.

End NetLoops.

(** ** The theorems at the sample states *)

Section Instances.
Import E1000 Kern Syscall Fork Sample.

Lemma dev0_tx_ring_ok : tx_ring_ok dev0.
Proof.
  split; try (vm_compute; reflexivity);
    vm_compute; split; first [discriminate | reflexivity].
Qed.

Lemma try_transmit_packet_spec_witness :
  tx_ring_ok dev0 /\ 0 <= 3 /\
  exists d',
    e1000_try_transmit_packet dev0 pkt3 3 = Some (d', Ret 0) /\
    e1000_dma_io d' E1000_TDT = 1 /\
    at_index (tx_buffers d') 0 = Some (pkt3 ++ replicate 2045 x00%byte).
Proof.
  split; [exact dev0_tx_ring_ok|]. split; [lia|].
  destruct (try_transmit_packet_spec dev0 pkt3 3 dev0_tx_ring_ok ltac:(lia))
    as (desc & buf & Hdesc & Hbuf & _ & _ & Hsend).
  vm_compute in Hdesc. injection Hdesc as <-.
  vm_compute in Hbuf. injection Hbuf as <-.
  destruct Hsend as (d' & desc' & Hcall & _ & _ & _ & _ & _ & Hb & Htail & _).
  - vm_compute. discriminate.
  - vm_compute. discriminate.
  - exists d'. split; [exact Hcall|]. split; [exact Htail|exact Hb].
Defined.

Lemma try_recv_packet_buffer_too_small_witness :
  at_index (receive_descriptor_ring dev_rx)
           (u32 (e1000_dma_io dev_rx E1000_RDT + 1) mod E1000_RX_DESCRIPTORS_COUNT)
    = Some dev_rx_desc /\
  at_index (receive_buffers dev_rx)
           (u32 (e1000_dma_io dev_rx E1000_RDT + 1) mod E1000_RX_DESCRIPTORS_COUNT)
    = Some dev_rx_buf /\
  Z.land (rxd_status dev_rx_desc) E1000_TX_DX_STAT_DD <> 0 /\
  50 < rxd_length dev_rx_desc /\
  exists o,
    e1000_try_recv_packet dev_rx (replicate 50 x00%byte) 50 (Some 0) = Some o /\
    recv_ret o = Neg E_INVAL /\
    exists o2,
      e1000_try_recv_packet (recv_dev o) (replicate 100 x00%byte) 100 (Some 0)
        = Some o2 /\
      recv_ret o2 = Ret 0 /\ recv_buffer o2 = frame100.
Proof.
  assert (H1 : at_index (receive_descriptor_ring dev_rx)
                 (u32 (e1000_dma_io dev_rx E1000_RDT + 1) mod E1000_RX_DESCRIPTORS_COUNT)
               = Some dev_rx_desc) by (vm_compute; reflexivity).
  assert (H2 : at_index (receive_buffers dev_rx)
                 (u32 (e1000_dma_io dev_rx E1000_RDT + 1) mod E1000_RX_DESCRIPTORS_COUNT)
               = Some dev_rx_buf) by (vm_compute; reflexivity).
  assert (H3 : Z.land (rxd_status dev_rx_desc) E1000_TX_DX_STAT_DD <> 0)
    by (vm_compute; discriminate).
  assert (H4 : 50 < rxd_length dev_rx_desc) by (vm_compute; reflexivity).
  split; [exact H1|]. split; [exact H2|]. split; [exact H3|]. split; [exact H4|].
  destruct (try_recv_packet_buffer_too_small dev_rx (replicate 50 x00%byte) 50 (Some 0)
              dev_rx_desc dev_rx_buf H1 H2 H3 H4)
    as (o & Hcall & Hret & _ & _ & Hretry).
  exists o. split; [exact Hcall|]. split; [exact Hret|].
  destruct (Hretry (replicate 100 x00%byte) 100 (Some 0) ltac:(vm_compute; discriminate))
    as (o2 & desc2 & Hcall2 & Hret2 & Hbuf2 & _).
  exists o2. split; [exact Hcall2|]. split; [exact Hret2|].
  rewrite Hbuf2; [vm_compute; reflexivity | vm_compute; discriminate].
Defined.

Lemma try_recv_packet_size_out_witness :
  at_index (receive_descriptor_ring dev_rx)
           (u32 (e1000_dma_io dev_rx E1000_RDT + 1) mod E1000_RX_DESCRIPTORS_COUNT)
    = Some dev_rx_desc /\
  e1000_try_recv_packet dev_rx (replicate 50 x00%byte) 50 (Some 7)
    = Some (mk_recv dev_rx (replicate 50 x00%byte) (Some 100) (Neg E_INVAL)) /\
  (exists o,
     e1000_try_recv_packet dev_rx (replicate 100 x00%byte) 100 (Some 7) = Some o /\
     recv_packet_size o = Some 100 /\ recv_ret o = Ret 0) /\
  e1000_try_recv_packet dev0 (replicate 50 x00%byte) 50 (Some 7)
    = Some (mk_recv dev0 (replicate 50 x00%byte) (Some 7) (Neg E_NET_QUEUE_EMPTY)).
Proof.
  assert (H1 : at_index (receive_descriptor_ring dev_rx)
                 (u32 (e1000_dma_io dev_rx E1000_RDT + 1) mod E1000_RX_DESCRIPTORS_COUNT)
               = Some dev_rx_desc) by (vm_compute; reflexivity).
  split; [exact H1|]. split; [|split].
  - destruct (try_recv_packet_size_out dev_rx (replicate 50 x00%byte) 50 7
                dev_rx_desc H1) as (Hsmall & _ & _).
    apply Hsmall; [vm_compute; discriminate|vm_compute; reflexivity].
  - destruct (try_recv_packet_size_out dev_rx (replicate 100 x00%byte) 100 7
                dev_rx_desc H1) as (_ & Hfit & _).
    apply (Hfit ltac:(vm_compute; discriminate) ltac:(vm_compute; discriminate)
                dev_rx_buf).
    vm_compute. reflexivity.
  - assert (H0 : at_index (receive_descriptor_ring dev0)
                   (u32 (e1000_dma_io dev0 E1000_RDT + 1) mod E1000_RX_DESCRIPTORS_COUNT)
                 = Some (mk_rx_desc 0x200000 0 0 0 0 0)) by (vm_compute; reflexivity).
    destruct (try_recv_packet_size_out dev0 (replicate 50 x00%byte) 50 7 _ H0)
      as (_ & _ & Hempty).
    apply Hempty. reflexivity.
Defined.

Lemma parent_pgdir_ok : pgdir_ok (env_pgdir (envs k0 0)).
Proof.
  intros n. change (env_pgdir (envs k0 0)) with parent_pgdir.
  unfold parent_pgdir, uvpt, upd.
  destruct (n =? 3); [vm_compute; split; first [discriminate | reflexivity]|].
  destruct (n =? 2); [vm_compute; split; first [discriminate | reflexivity]|].
  destruct (n =? 1); vm_compute; split; first [discriminate | reflexivity].
Qed.

Lemma sys_page_map_spec_witness :
  envid2env k0 0 true = inl 0 /\
  envid2env k0 0x1001 true = inl 1 /\
  pgdir_ok (env_pgdir (envs k0 0)) /\
  (exists k' dpte,
     sys_page_map k0 0 0x1000 0x1001 0x4000 5 = (k', Ret 0) /\
     page_lookup (env_pgdir (envs k0 0)) 0x1000 = Some (20, 0x14007) /\
     page_lookup (env_pgdir (envs k' 1)) 0x4000 = Some (20, dpte) /\
     Z.land dpte 0xFFF = 5) /\
  sys_page_map k0 0 0x2000 0x1001 0x4000 7 = (k0, Neg E_INVAL).
Proof.
  assert (Hs : envid2env k0 0 true = inl 0) by reflexivity.
  assert (Hd : envid2env k0 0x1001 true = inl 1) by reflexivity.
  split; [exact Hs|]. split; [exact Hd|]. split; [exact parent_pgdir_ok|].
  split.
  - destruct (sys_page_map_spec k0 0 0x1000 0x1001 0x4000 5 0 1 Hs Hd parent_pgdir_ok)
      as [Hmap _].
    destruct (Hmap (fst (sys_page_map k0 0 0x1000 0x1001 0x4000 5)) 0
                ltac:(reflexivity) ltac:(reflexivity))
      as (_ & pp & spte & dpte & Hsl & Hdl & Hperm & _).
    assert (Hsrc : page_lookup (env_pgdir (envs k0 0)) 0x1000 = Some (20, 0x14007))
      by reflexivity.
    rewrite Hsrc in Hsl. injection Hsl as <- <-.
    exists (fst (sys_page_map k0 0 0x1000 0x1001 0x4000 5)), dpte.
    split; [reflexivity|]. split; [exact Hsrc|]. split; [exact Hdl|exact Hperm].
  - destruct (sys_page_map_spec k0 0 0x2000 0x1001 0x4000 7 0 1 Hs Hd parent_pgdir_ok)
      as [_ Hesc].
    apply Hesc; [vm_compute; discriminate|].
    intros pp spte Hl.
    assert (Hsrc : page_lookup (env_pgdir (envs k0 0)) 0x2000 = Some (21, 0x15005))
      by reflexivity.
    rewrite Hsrc in Hl. injection Hl as <- <-. reflexivity.
Defined.

Lemma sys_exofork_spec_witness :
  Forall (fun e => 0 <= e < NENV) (env_free_list k0) /\
  ~ In (curenv k0) (env_free_list k0) /\
  exists k',
    sys_exofork k0 = (k', Ret 0x1003) /\
    env_status (envs k' 3) = ENV_NOT_RUNNABLE /\
    reg_eax (tf_regs (env_tf (envs k' 3))) = 0 /\
    tf_eip (env_tf (envs k' 3)) = 0x800020 /\
    env_parent_id (envs k' 3) = 0x1000.
Proof.
  assert (Hfree : Forall (fun e => 0 <= e < NENV) (env_free_list k0)).
  { repeat constructor; vm_compute; discriminate. }
  assert (Hcur : ~ In (curenv k0) (env_free_list k0)).
  { vm_compute. intros [H | [H | [H | H]]]; first [discriminate | exact H]. }
  split; [exact Hfree|]. split; [exact Hcur|].
  destruct (sys_exofork_spec k0 Hfree Hcur) as [Hspec _].
  destruct (Hspec (fst (sys_exofork k0)) 0x1003 ltac:(reflexivity))
    as (e & Hlist & Hid & _ & _ & _ & Hst & _ & Heax & Heip & Hpar & _).
  vm_compute in Hlist. assert (He : e = 3) by congruence. subst e.
  exists (fst (sys_exofork k0)).
  split; [reflexivity|]. split; [exact Hst|]. split; [exact Heax|].
  split; [exact Heip|exact Hpar].
Defined.


(** The same send, and a second one after it. *)
Lemma sys_ipc_try_send_exactly_once_witness :
  envid2env k0 0x1002 false = inl 2 /\
  exists k1,
    sys_ipc_try_send k0 0x1002 42 0x1000 7 = (k1, Ret 0) /\
    sys_ipc_try_send k1 0x1002 43 UTOP 0 = (k1, Neg E_IPC_NOT_RECV).
Proof.
  assert (HT : envid2env k0 0x1002 false = inl 2) by reflexivity.
  split; [exact HT|].
  assert (Hwf : send_well_formed k0 2 0x1000 7).
  { right. split; [reflexivity|]. split; [reflexivity|].
    exists 20, 0x14007. split; [reflexivity|].
    split; [right; vm_compute; discriminate|].
    right; right. vm_compute. discriminate. }
  destruct (sys_ipc_try_send_exactly_once k0 0x1002 2 HT) as (_ & Honce & _).
  destruct (Honce eq_refl 42 0x1000 7 Hwf) as (k1 & Hsend & Hclr & Hnext).
  exists k1. split; [exact Hsend|].
  apply Hnext; [|reflexivity].
  assert (Hsame : envid2env k1 0x1002 false = envid2env k0 0x1002 false).
  { replace k1 with (fst (sys_ipc_try_send k0 0x1002 42 0x1000 7))
      by (rewrite Hsend; reflexivity).
    vm_compute. reflexivity. }
  rewrite Hsame. exact HT.
Defined.

Lemma fork_page_duplicates_witness :
  0 <= 1 < PGNUM UTOP /\
  1 * PGSIZE <> UXSTACKTOP - PGSIZE /\
  envid2env k0 0x1001 true = inl 1 /\
  1 <> curenv k0 /\
  page_lookup (env_pgdir (envs k0 (curenv k0))) (1 * PGSIZE) = Some (20, 0x14007) /\
  0 <= 0x14007 < 2 ^ 32 /\
  exists k' cpte ppte,
    fork_page k0 0x1001 1 = Done k' (Ret 0) /\
    page_lookup (env_pgdir (envs k' 1)) 0x1000 = Some (20, cpte) /\
    Z.land cpte 0xFFF = 0x805 /\
    page_lookup (env_pgdir (envs k' 0)) 0x1000 = Some (20, ppte) /\
    Z.land ppte 0xFFF = 0x805.
Proof.
  assert (H1 : 0 <= 1 < PGNUM UTOP) by (vm_compute; split; first [discriminate | reflexivity]).
  assert (H2 : 1 * PGSIZE <> UXSTACKTOP - PGSIZE) by (vm_compute; discriminate).
  assert (H3 : envid2env k0 0x1001 true = inl 1) by reflexivity.
  assert (H4 : 1 <> curenv k0) by (vm_compute; discriminate).
  assert (H5 : page_lookup (env_pgdir (envs k0 (curenv k0))) (1 * PGSIZE)
               = Some (20, 0x14007)) by reflexivity.
  assert (H6 : 0 <= 0x14007 < 2 ^ 32) by (vm_compute; split; first [discriminate | reflexivity]).
  split; [exact H1|]. split; [exact H2|]. split; [exact H3|]. split; [exact H4|].
  split; [exact H5|]. split; [exact H6|].
  destruct (fork_page_duplicates k0 0x1001 1 1 20 0x14007 H1 H2 H3 H4 H5 H6)
    as (Hround & Hpost & Hruns).
  destruct Hruns as (k' & Hrun); [right; vm_compute; discriminate|].
  destruct (Hpost k' (Ret 0) Hrun) as (_ & _ & cpte & Hc & _ & Hshared).
  change (negb (Z.land 0x14007 (Z.lor PTE_W PTE_COW) =? 0)) with true in Hshared.
  destruct Hshared as (Hcp & ppte & Hp & Hpp & _).
  exists k', cpte, ppte.
  split; [rewrite Hround; exact Hrun|]. split; [exact Hc|]. split; [exact Hcp|].
  split; [exact Hp|exact Hpp].
Defined.

(** The first four rounds of the loop in [k0]: the writable page at
    [0x1000] ends up copy-on-write in child and parent. *)
Lemma fork_pages_duplicate_all_witness :
  exists k' cpte ppte,
    fork_pages 4 k0 0x1001 0 = Done k' (Ret 0) /\
    page_lookup (env_pgdir (envs k' 1)) 0x1000 = Some (20, cpte) /\
    Z.land cpte 0xFFF = cow_perm /\
    page_lookup (env_pgdir (envs k' 0)) 0x1000 = Some (20, ppte) /\
    Z.land ppte 0xFFF = cow_perm.
Proof.
  assert (Hdone : match fork_pages 4 k0 0x1001 0 with
                  | Done _ (Ret 0) => true
                  | _ => false
                  end = true) by (vm_compute; reflexivity).
  destruct (fork_pages 4 k0 0x1001 0) as [k' [[| |]|]|] eqn:Hrun; try discriminate.
  clear Hdone.
  assert (Hc : envid2env k0 0x1001 true = inl 1) by reflexivity.
  assert (Hne : 1 <> curenv k0) by (vm_compute; discriminate).
  assert (Hn : Z.of_nat 4 <= PGNUM UTOP) by (vm_compute; discriminate).
  assert (Hx : 1 * PGSIZE <> UXSTACKTOP - PGSIZE) by (vm_compute; discriminate).
  assert (Hl : page_lookup (env_pgdir (envs k0 (curenv k0))) (1 * PGSIZE)
               = Some (20, 0x14007)) by reflexivity.
  pose proof (fork_pages_duplicate_all k0 0x1001 1 4 k' (Ret 0) Hc Hne
                parent_pgdir_ok Hn Hrun 1 ltac:(lia) Hx 20 0x14007 Hl) as Hdup.
  change (negb (Z.land 0x14007 (Z.lor PTE_W PTE_COW) =? 0)) with true in Hdup.
  cbv iota in Hdup.
  destruct Hdup as (cpte & Hcl & _ & Hcp & ppte & Hp & Hpp & _).
  exists k', cpte, ppte. split; [reflexivity|]. auto.
Defined.

End Instances.

(** ** More instances *)

Section MoreInstances.
Import E1000 Kern Syscall Fork Net Sample.

Lemma at_index_In {A} (l : list A) (i : Z) (x : A) :
  at_index l i = Some x -> In x l.
Proof.
  unfold at_index. destruct (i <? 0); [discriminate|].
  intros H. apply list_elem_of_In. eapply list_elem_of_lookup_2. exact H.
Qed.

Lemma dev0_all_done (i : Z) (desc : e1000_tx_desc) :
  at_index (tx_descriptor_ring dev0) i = Some desc ->
  Z.land (txd_status desc) E1000_TX_DX_STAT_DD <> 0.
Proof.
  intros H. apply at_index_In in H.
  assert (Hall : forallb (fun t => negb (Z.land (txd_status t) E1000_TX_DX_STAT_DD =? 0))
                         (tx_descriptor_ring dev0) = true) by (vm_compute; reflexivity).
  rewrite forallb_forall in Hall. specialize (Hall desc H).
  destruct (Z.eqb_spec (Z.land (txd_status desc) E1000_TX_DX_STAT_DD) 0);
    [discriminate|assumption].
Qed.

Lemma recv_after_init_receive_ring_is_empty_witness :
  length (receive_descriptor_ring zero_device)
    = Z.to_nat E1000_RX_DESCRIPTORS_COUNT /\
  e1000_try_recv_packet (e1000_init_receive_ring 0x1ff000 0x200000 zero_device)
                        (replicate 50 x00%byte) 50 (Some 7)
    = Some (mk_recv (e1000_init_receive_ring 0x1ff000 0x200000 zero_device)
                    (replicate 50 x00%byte) (Some 7) (Neg E_NET_QUEUE_EMPTY)).
Proof.
  assert (H : length (receive_descriptor_ring zero_device)
              = Z.to_nat E1000_RX_DESCRIPTORS_COUNT) by reflexivity.
  split; [exact H|].
  apply (recv_after_init_receive_ring_is_empty 0x1ff000 0x200000 zero_device
           (replicate 50 x00%byte) 50 (Some 7) H).
Defined.

Lemma transmit_packets_after_init_witness :
  length (tx_descriptor_ring zero_device) = Z.to_nat E1000_TX_DESCRIPTORS_COUNT /\
  length (tx_buffers zero_device) = Z.to_nat E1000_TX_DESCRIPTORS_COUNT /\
  exists d' desc',
    transmit_packets (e1000_init_transmit_ring 0x0ff000 0x100000 zero_device)
                     [(pkt3, 3); (frame100, 100)]
      = Some (d', [Ret 0; Ret 0]) /\
    e1000_dma_io d' E1000_TDT = 2 /\
    at_index (tx_descriptor_ring d') 1 = Some desc' /\
    txd_length desc' = 100 /\
    txd_buffer_addr desc' = 0x100800.
Proof.
  assert (H1 : length (tx_descriptor_ring zero_device)
               = Z.to_nat E1000_TX_DESCRIPTORS_COUNT) by reflexivity.
  assert (H2 : length (tx_buffers zero_device)
               = Z.to_nat E1000_TX_DESCRIPTORS_COUNT) by reflexivity.
  split; [exact H1|]. split; [exact H2|].
  destruct (transmit_packets_after_init 0x0ff000 0x100000 zero_device
              [(pkt3, 3); (frame100, 100)] H1 H2)
    as (d' & Hrun & Htdt & Hslots).
  { vm_compute. discriminate. }
  { repeat constructor; vm_compute; discriminate. }
  destruct (Hslots 1%nat frame100 100 eq_refl)
    as (desc' & buf & Hd & _ & Hl & Ha & _).
  exists d', desc'. split; [exact Hrun|]. split; [exact Htdt|].
  split; [exact Hd|]. split; [exact Hl|exact Ha].
Defined.

Lemma transmit_ring_full_after_64_witness :
  tx_ring_ok dev0 /\
  Z.of_nat (length pkts64) = E1000_TX_DESCRIPTORS_COUNT /\
  exists d',
    transmit_packets dev0 pkts64 = Some (d', replicate 64 (Ret 0)) /\
    e1000_try_transmit_packet d' pkt3 3 = Some (d', Neg E_NET_QUEUE_FULL).
Proof.
  assert (Hn : Z.of_nat (length pkts64) = E1000_TX_DESCRIPTORS_COUNT) by reflexivity.
  split; [exact dev0_tx_ring_ok|]. split; [exact Hn|].
  destruct (transmit_ring_full_after_64 dev0 pkts64 pkt3 3 dev0_tx_ring_ok
              dev0_all_done Hn)
    as (d' & Hrun & _ & Hfull & _).
  { apply Forall_forall. intros p' Hin. unfold pkts64 in Hin.
    apply elem_of_replicate_inv in Hin. subst p'. vm_compute. split; discriminate. }
  { vm_compute. discriminate. }
  exists d'. split; [exact Hrun|exact Hfull].
Defined.

Lemma try_transmit_packet_touches_only_tail_witness :
  exists d' r,
    e1000_try_transmit_packet dev0 pkt3 3 = Some (d', r) /\
    r = Ret 0 /\
    receive_descriptor_ring d' = receive_descriptor_ring dev0 /\
    at_index (tx_descriptor_ring d') 1 = at_index (tx_descriptor_ring dev0) 1.
Proof.
  assert (Hsome : match e1000_try_transmit_packet dev0 pkt3 3 with
                  | Some (_, Ret 0) => true
                  | _ => false
                  end = true) by (vm_compute; reflexivity).
  destruct (e1000_try_transmit_packet dev0 pkt3 3) as [[d' [[| |]|]]|] eqn:Hrun;
    try discriminate.
  clear Hsome.
  destruct (try_transmit_packet_touches_only_tail dev0 d' pkt3 3 (Ret 0) Hrun)
    as (_ & _ & _ & _ & Hrx & _ & _ & Hslots & _).
  exists d', (Ret 0). split; [reflexivity|]. split; [reflexivity|].
  split; [exact Hrx|]. apply Hslots. vm_compute. discriminate.
Defined.

Lemma try_recv_packet_touches_only_slot_witness :
  exists o,
    e1000_try_recv_packet dev_rx (replicate 50 x00%byte) 50 None = Some o /\
    recv_ret o = Neg E_INVAL /\
    recv_dev o = dev_rx /\
    recv_packet_size o = None.
Proof.
  assert (Hsome : match e1000_try_recv_packet dev_rx (replicate 50 x00%byte) 50 None
                  with
                  | Some o => match recv_ret o with
                              | Neg E_INVAL => true
                              | _ => false
                              end
                  | None => false
                  end = true) by (vm_compute; reflexivity).
  destruct (e1000_try_recv_packet dev_rx (replicate 50 x00%byte) 50 None)
    as [o|] eqn:Hrun; [|discriminate].
  destruct (try_recv_packet_touches_only_slot dev_rx (replicate 50 x00%byte) 50
              None o Hrun)
    as (desc & _ & _ & _ & _ & Herr & Hnull & _).
  destruct (recv_ret o) as [v|[]] eqn:Hret; try discriminate.
  exists o. split; [reflexivity|]. split; [exact Hret|].
  split; [apply Herr; discriminate|apply Hnull; reflexivity].
Defined.

Lemma try_recv_packet_in_ring_order_witness :
  at_index (receive_descriptor_ring dev_rx2) 0 = Some dev_rx_desc /\
  at_index (receive_descriptor_ring dev_rx2) 1 = Some dev_rx2_desc /\
  exists o1 o2,
    e1000_try_recv_packet dev_rx2 (replicate 100 x00%byte) 100 (Some 0) = Some o1 /\
    recv_buffer o1 = frame100 /\
    e1000_try_recv_packet (recv_dev o1) (replicate 60 x00%byte) 60 (Some 0)
      = Some o2 /\
    recv_buffer o2 = frame60 /\
    e1000_dma_io (recv_dev o2) E1000_RDT = 1.
Proof.
  assert (H1 : at_index (receive_descriptor_ring dev_rx2) 0 = Some dev_rx_desc)
    by reflexivity.
  assert (H2 : at_index (receive_descriptor_ring dev_rx2) 1 = Some dev_rx2_desc)
    by reflexivity.
  split; [exact H1|]. split; [exact H2|].
  destruct (try_recv_packet_in_ring_order dev_rx2
              (replicate 100 x00%byte) (replicate 60 x00%byte) 100 60
              dev_rx_desc dev_rx2_desc dev_rx_buf dev_rx2_buf H1 H2)
    as (o1 & o2 & _ & _ & Hr1 & _ & _ & Hb1 & Hr2 & _ & _ & Hb2 & Hrdt & _).
  { reflexivity. }
  { reflexivity. }
  { vm_compute. discriminate. }
  { vm_compute. discriminate. }
  { vm_compute. discriminate. }
  { vm_compute. discriminate. }
  exists o1, o2. split; [exact Hr1|].
  split; [rewrite Hb1; [reflexivity | vm_compute; discriminate]|].
  split; [exact Hr2|].
  split; [rewrite Hb2; [reflexivity | vm_compute; discriminate]|exact Hrdt].
Defined.

Lemma pci_attach_readies_both_rings_witness :
  io_link_up E1000_STATUS = 0x80080783 /\
  exists d' d'',
    e1000_pci_attach io_link_up 0x0ff000 0x100000 0x1ff000 0x200000 zero_device
      = Some (d', 0) /\
    e1000_try_transmit_packet d' pkt3 3 = Some (d'', Ret 0) /\
    e1000_try_recv_packet d' (replicate 50 x00%byte) 50 None
      = Some (mk_recv d' (replicate 50 x00%byte) None (Neg E_NET_QUEUE_EMPTY)).
Proof.
  assert (Hst : io_link_up E1000_STATUS = 0x80080783) by reflexivity.
  split; [exact Hst|].
  destruct (pci_attach_readies_both_rings io_link_up 0x0ff000 0x100000 0x1ff000
              0x200000 zero_device eq_refl eq_refl eq_refl eq_refl)
    as [_ Hup].
  destruct (Hup Hst) as (d' & Hrun & _ & _ & _ & _ & _ & _ & _ & _ & _ & _ & _ & _ &
                         Hsend & Hrecv).
  destruct (Hsend pkt3 3) as (d'' & Hsent & _); [vm_compute; split; discriminate|].
  exists d', d''. split; [exact Hrun|]. split; [exact Hsent|apply Hrecv].
Defined.

Lemma syscalls_refuse_stranger_witness :
  0x1002 <> 0 /\
  ENVX 0x1002 <> curenv k0 /\
  env_parent_id (envs k0 (ENVX 0x1002)) <> env_id (envs k0 (curenv k0)) /\
  sys_page_unmap k0 0x1002 0x5000 = (k0, Neg E_BAD_ENV) /\
  sys_page_map k0 0 0x1000 0x1002 0x5000 7 = (k0, Neg E_BAD_ENV) /\
  exists k',
    sys_ipc_try_send k0 0x1002 42 UTOP 0 = (k', Ret 0) /\
    env_ipc_value (envs k' (ENVX 0x1002)) = 42.
Proof.
  assert (H0 : 0x1002 <> 0) by discriminate.
  assert (H1 : ENVX 0x1002 <> curenv k0) by (vm_compute; discriminate).
  assert (H2 : env_parent_id (envs k0 (ENVX 0x1002)) <> env_id (envs k0 (curenv k0)))
    by (vm_compute; discriminate).
  split; [exact H0|]. split; [exact H1|]. split; [exact H2|].
  destruct (syscalls_refuse_stranger k0 0x1002 H0 H1 H2)
    as (_ & _ & _ & Hunmap & _ & Hmap & _ & Hsend).
  split; [apply Hunmap|]. split; [apply Hmap|].
  destruct (Hsend ltac:(vm_compute; discriminate) ltac:(reflexivity)
              ltac:(reflexivity) 42) as (k' & Hrun & Hval & _).
  exists k'. split; [exact Hrun|exact Hval].
Defined.

Lemma sys_page_alloc_maps_fresh_page_witness :
  exists k',
    sys_page_alloc k0 0 0x6000 7 = (k', Ret 0) /\
    uvpt (env_pgdir (envs k' 0)) (PGNUM 0x6000)
      = u32 (Z.lor (page2pa 30) (Z.lor 7 PTE_P)) /\
    curenv k' = curenv k0.
Proof.
  assert (Hret : match snd (sys_page_alloc k0 0 0x6000 7) with
                 | Ret 0 => true
                 | _ => false
                 end = true) by (vm_compute; reflexivity).
  destruct (sys_page_alloc k0 0 0x6000 7) as [k' [[| |]|]] eqn:Hrun;
    try discriminate.
  clear Hret.
  destruct (sys_page_alloc_maps_fresh_page k0 0 0x6000 7 k' 0 Hrun)
    as (_ & _ & _ & _ & e & p & rest & He & Hfree & Hpte & _ & _ & _ & _ & _ & Hcur).
  assert (He0 : envid2env k0 0 true = inl 0) by reflexivity.
  assert (Hf0 : page_free_list (phys k0) = [30; 31; 32]) by reflexivity.
  assert (e = 0) by congruence. assert (p = 30) by congruence. subst e p.
  exists k'. split; [reflexivity|]. split; [exact Hpte|exact Hcur].
Defined.

Lemma failed_syscall_changes_nothing_witness :
  same_state k0 (fst (sys_page_map k0 0 0x2000 0x1001 0x4000 7)) /\
  same_state k0 (fst (sys_ipc_try_send k0 0x1002 1 0x1001 7)).
Proof.
  destruct (failed_syscall_changes_nothing k0)
    as (_ & _ & _ & Hmap & _ & Hsend & _).
  split.
  - apply (Hmap 0 0x2000 0x1001 0x4000 7 _ E_INVAL). reflexivity.
  - apply (Hsend 0x1002 1 0x1001 7 _ E_INVAL). reflexivity.
Defined.

Lemma ipc_rendezvous_transfers_page_witness :
  envid2env (switch_to (fst (sys_ipc_recv k_recv 0x6000)) 0) 0x1002 false
    = inl (curenv k_recv) /\
  page_lookup (env_pgdir (envs (switch_to (fst (sys_ipc_recv k_recv 0x6000)) 0) 0))
              0x1000 = Some (20, 0x14007) /\
  exists k3 dpte,
    sys_ipc_try_send (switch_to (fst (sys_ipc_recv k_recv 0x6000)) 0)
                     0x1002 42 0x1000 7 = (k3, Ret 0) /\
    page_lookup (env_pgdir (envs k3 2)) 0x6000 = Some (20, dpte) /\
    env_ipc_value (envs k3 2) = 42 /\
    env_ipc_from (envs k3 2) = 0x1000 /\
    env_ipc_perm (envs k3 2) = 7 /\
    env_status (envs k3 2) = ENV_RUNNABLE.
Proof.
  set (k2 := switch_to (fst (sys_ipc_recv k_recv 0x6000)) 0).
  assert (HT : envid2env k2 0x1002 false = inl (curenv k_recv)) by reflexivity.
  assert (Hl : page_lookup (env_pgdir (envs k2 (curenv k2))) 0x1000
               = Some (20, 0x14007)) by reflexivity.
  split; [exact HT|]. split; [exact Hl|].
  destruct (ipc_rendezvous_transfers_page k_recv 0x6000 k2 0x1002 42 0x1000 7
              20 0x14007)
    as (_ & _ & _ & k3 & dpte & Hrun & Hdl & _ & Hval & Hfrom & Hperm & _ & Hst & _);
    try reflexivity; try exact HT; try exact Hl.
  { exact parent_pgdir_ok. }
  { right. vm_compute. discriminate. }
  { right. vm_compute. discriminate. }
  exists k3, dpte. split; [exact Hrun|]. split; [exact Hdl|].
  split; [exact Hval|]. split; [exact Hfrom|]. split; [exact Hperm|exact Hst].
Defined.

Lemma sys_ipc_recv_keeps_old_dstva_witness :
  UTOP <= UTOP /\
  env_ipc_dstva (envs k_recv (curenv k_recv)) = 0x5000 /\
  exists k3 pp dpte,
    sys_ipc_try_send (switch_to (fst (sys_ipc_recv k_recv UTOP)) 0)
                     0x1002 42 0x1000 7 = (k3, Ret 0) /\
    page_lookup (env_pgdir (envs k3 2)) 0x5000 = Some (pp, dpte) /\
    env_ipc_perm (envs k3 2) = 7.
Proof.
  set (k2 := switch_to (fst (sys_ipc_recv k_recv UTOP)) 0).
  split; [lia|]. split; [reflexivity|].
  assert (Hret : match snd (sys_ipc_try_send k2 0x1002 42 0x1000 7) with
                 | Ret 0 => true
                 | _ => false
                 end = true) by (vm_compute; reflexivity).
  destruct (sys_ipc_try_send k2 0x1002 42 0x1000 7) as [k3 [[| |]|]] eqn:Hrun;
    try discriminate.
  clear Hret.
  destruct (sys_ipc_recv_keeps_old_dstva k_recv UTOP k2 0x1002 42 0x1000 7 k3 0)
    as (_ & _ & _ & pp & spte & dpte & _ & Hdl & _ & Hperm);
    try reflexivity; try exact Hrun.
  { exact parent_pgdir_ok. }
  exists k3, pp, dpte. split; [reflexivity|]. split; [exact Hdl|exact Hperm].
Defined.

Lemma fork_pages_completes_witness :
  envid2env k0 0x1001 true = inl 1 /\
  (pages_to_duplicate (env_pgdir (envs k0 (curenv k0))) 0 4
     <= length (page_free_list (phys k0)))%nat /\
  exists k', fork_pages 4 k0 0x1001 0 = Done k' (Ret 0).
Proof.
  assert (Hc : envid2env k0 0x1001 true = inl 1) by reflexivity.
  assert (Hfree : (pages_to_duplicate (env_pgdir (envs k0 (curenv k0))) 0 4
                     <= length (page_free_list (phys k0)))%nat).
  { apply Nat.leb_le. vm_compute. reflexivity. }
  split; [exact Hc|]. split; [exact Hfree|].
  apply (fork_pages_completes k0 0x1001 1 4 Hc); try exact Hfree.
  - vm_compute. discriminate.
  - exact parent_pgdir_ok.
  - vm_compute. discriminate.
Defined.

Lemma fork_pages_touch_only_walked_pages_witness :
  exists k',
    fork_pages 4 k0 0x1001 0 = Done k' (Ret 0) /\
    env_status (envs k' 1) = ENV_NOT_RUNNABLE /\
    page_lookup (env_pgdir (envs k' 1)) 0x5000 = None.
Proof.
  assert (Hdone : match fork_pages 4 k0 0x1001 0 with
                  | Done _ (Ret 0) => true
                  | _ => false
                  end = true) by (vm_compute; reflexivity).
  destruct (fork_pages 4 k0 0x1001 0) as [k' [[| |]|]|] eqn:Hrun; try discriminate.
  clear Hdone.
  destruct (fork_pages_touch_only_walked_pages k0 0x1001 4 k' (Ret 0))
    as (_ & _ & Hfields & _ & Hhigh); [vm_compute; discriminate|exact Hrun|].
  destruct (Hfields 1) as (_ & Hst & _).
  exists k'. split; [reflexivity|]. split; [rewrite Hst; reflexivity|].
  rewrite (Hhigh 1 0x5000) by (vm_compute; discriminate). reflexivity.
Defined.

(** The whole loop in [k0] for the child in slot 1: it ends without
    [panic], the writable page at [0x1000] is copy-on-write in child and
    parent, and the read-only page at [0x2000] is read-only in the child. *)
Lemma fork_duplicates_every_mapped_page_witness :
  envid2env k0 0x1001 true = inl 1 /\
  1 <> curenv k0 /\
  exists k' cpte ppte cpte2,
    fork_pages (Z.to_nat (PGNUM UTOP)) k0 0x1001 0 = Done k' (Ret 0) /\
    page_lookup (env_pgdir (envs k' 1)) 0x1000 = Some (20, cpte) /\
    Z.land cpte 0xFFF = cow_perm /\
    page_lookup (env_pgdir (envs k' 0)) 0x1000 = Some (20, ppte) /\
    Z.land ppte 0xFFF = cow_perm /\
    page_lookup (env_pgdir (envs k' 1)) 0x2000 = Some (21, cpte2) /\
    Z.land cpte2 0xFFF = ro_perm.
Proof.
  assert (H3 : envid2env k0 0x1001 true = inl 1) by reflexivity.
  assert (H4 : 1 <> curenv k0) by (vm_compute; discriminate).
  split; [exact H3|]. split; [exact H4|].
  assert (Hfree : (pages_to_duplicate (env_pgdir (envs k0 (curenv k0))) 0
                     (Z.to_nat (PGNUM UTOP))
                   <= length (page_free_list (phys k0)))%nat).
  { apply Nat.leb_le. vm_compute. reflexivity. }
  assert (Hp1 : 0 <= 1 < PGNUM UTOP)
    by (vm_compute; split; first [discriminate | reflexivity]).
  assert (Hx1 : 1 * PGSIZE <> UXSTACKTOP - PGSIZE) by (vm_compute; discriminate).
  assert (Hl1 : page_lookup (env_pgdir (envs k0 (curenv k0))) (1 * PGSIZE)
                = Some (20, 0x14007)) by reflexivity.
  assert (Hp2 : 0 <= 2 < PGNUM UTOP)
    by (vm_compute; split; first [discriminate | reflexivity]).
  assert (Hx2 : 2 * PGSIZE <> UXSTACKTOP - PGSIZE) by (vm_compute; discriminate).
  assert (Hl2 : page_lookup (env_pgdir (envs k0 (curenv k0))) (2 * PGSIZE)
                = Some (21, 0x15005)) by reflexivity.
  destruct (fork_duplicates_every_mapped_page k0 0x1001 1 H3 H4 parent_pgdir_ok)
    as [Hruns Hpost].
  destruct (Hruns Hfree) as [k' Hrun]. clear Hruns Hfree.
  destruct (Hpost k' (Ret 0) Hrun) as [Hdup _]. clear Hpost.
  pose proof (Hdup 1 20 0x14007 Hp1 Hx1 Hl1) as Hd1.
  pose proof (Hdup 2 21 0x15005 Hp2 Hx2 Hl2) as Hd2.
  clear Hdup Hl1 Hl2.
  destruct Hd1 as (cpte & Hc1 & _ & Hshared).
  change (negb (Z.land 0x14007 (Z.lor PTE_W PTE_COW) =? 0)) with true in Hshared.
  cbv iota in Hshared. destruct Hshared as (Hcp & ppte & Hp & Hpp & _).
  destruct Hd2 as (cpte2 & Hc2 & _ & Hro).
  change (negb (Z.land 0x15005 (Z.lor PTE_W PTE_COW) =? 0)) with false in Hro.
  cbv iota in Hro. destruct Hro as (Hcr & _).
  exists k', cpte, ppte, cpte2.
  split; [exact Hrun|]. split; [exact Hc1|]. split; [exact Hcp|].
  split; [exact Hp|]. split; [exact Hpp|]. split; [exact Hc2|exact Hcr].
Defined.

Lemma fork_sets_up_child_witness :
  Forall (fun e => 0 <= e < NENV) (env_free_list k_roomy) /\
  ~ In (curenv k_roomy) (env_free_list k_roomy) /\
  (3 + pages_to_duplicate (env_pgdir (envs k_roomy (curenv k_roomy))) 0
         (Z.to_nat (PGNUM UTOP))
     <= length (page_free_list (phys k_roomy)))%nat /\
  exists k1 k3 id cpte,
    sys_exofork k_roomy = (k1, Ret id) /\
    fork_copy_to_child k1 id 0x800100 = Done k3 (Ret 0) /\
    0 < id /\ ENVX id = 3 /\
    env_status (envs k3 3) = ENV_NOT_RUNNABLE /\
    env_pgfault_upcall (envs k3 3) = 0x800100 /\
    page_lookup (env_pgdir (envs k3 3)) 0x1000 = Some (20, cpte) /\
    Z.land cpte 0xFFF = cow_perm /\
    env_status (envs (fst (sys_env_set_status k3 id ENV_RUNNABLE)) 3)
      = ENV_RUNNABLE.
Proof.
  assert (Hslots : Forall (fun e => 0 <= e < NENV) (env_free_list k_roomy)).
  { repeat constructor; vm_compute; discriminate. }
  assert (Hcur : ~ In (curenv k_roomy) (env_free_list k_roomy)).
  { vm_compute. intros [H | [H | [H | H]]]; first [discriminate | exact H]. }
  assert (Hfree : (3 + pages_to_duplicate
                         (env_pgdir (envs k_roomy (curenv k_roomy))) 0
                         (Z.to_nat (PGNUM UTOP))
                     <= length (page_free_list (phys k_roomy)))%nat).
  { apply Nat.leb_le. vm_compute. reflexivity. }
  split; [exact Hslots|]. split; [exact Hcur|]. split; [exact Hfree|].
  assert (H1 : 0 <= 1 < PGNUM UTOP)
    by (vm_compute; split; first [discriminate | reflexivity]).
  assert (H2 : 1 * PGSIZE <> UXSTACKTOP - PGSIZE) by (vm_compute; discriminate).
  assert (Hl : page_lookup (env_pgdir (envs k_roomy (curenv k_roomy))) (1 * PGSIZE)
               = Some (20, 0x14007)) by reflexivity.
  assert (Henv : env_free_list k_roomy <> []) by discriminate.
  destruct (fork_sets_up_child k_roomy 0x800100 Hslots Hcur Henv parent_pgdir_ok Hfree)
    as (k1 & k3 & id & c & Hexo & _ & Hrun & Hpos & Hslot & (rest & Hlist) & Hcur3 &
        Hpid & _ & _ & Hst & Hup & _ & _ & Hdup & _ & _ & Hwake).
  vm_compute in Hlist. assert (Hc : c = 3) by (clear Hrun Hexo; congruence).
  rewrite Hc in Hslot, Hst, Hup, Hdup, Hwake. clear Hc Hlist.
  pose proof (Hdup 1 H1 H2) as Hd. clear Hdup.
  destruct (Hd 20 0x14007 Hl) as (cpte & Hcl & _ & Hshared).
  change (negb (Z.land 0x14007 (Z.lor PTE_W PTE_COW) =? 0)) with true in Hshared.
  cbv iota in Hshared. destruct Hshared as (Hcp & _).
  exists k1, k3, id, cpte. split; [exact Hexo|]. split; [exact Hrun|].
  split; [exact Hpos|].
  split; [exact Hslot|]. split; [exact Hst|]. split; [exact Hup|].
  split; [exact Hcl|]. split; [exact Hcp|].
  rewrite (Hwake k3 eq_refl).
  - cbn [fst]. rewrite envs_set_env_same. reflexivity.
  - rewrite Hcur3. exact Hpid.
Defined.

Lemma sys_page_unmap_spec_witness :
  envid2env k0 0 true = inl 0 /\
  va_invalid 0x1000 = false /\
  exists k',
    sys_page_unmap k0 0 0x1000 = (k', Ret 0) /\
    page_lookup (env_pgdir (envs k' 0)) 0x1000 = None /\
    page_free_list (phys k') = [20; 30; 31; 32].
Proof.
  assert (He : envid2env k0 0 true = inl 0) by reflexivity.
  assert (Hva : va_invalid 0x1000 = false) by reflexivity.
  split; [exact He|]. split; [exact Hva|].
  destruct (sys_page_unmap_spec k0 0 0x1000 0 He Hva)
    as (k' & Hrun & Hnone & _ & _ & _ & _ & Hpage).
  destruct (Hpage 20 0x14007 ltac:(reflexivity)) as (_ & Hfreed & _).
  exists k'. split; [exact Hrun|]. split; [exact Hnone|].
  rewrite Hfreed by reflexivity. reflexivity.
Defined.

Lemma pgfault_panics_unless_write_to_cow_witness :
  Z.land (cur_uvpt k0 (PGNUM 0x1000)) PTE_COW = 0 /\
  pgfault k0 sample_mem 0x1000 7 = (Panic k0, sample_mem).
Proof.
  assert (H : Z.land (cur_uvpt k0 (PGNUM 0x1000)) PTE_COW = 0) by reflexivity.
  split; [exact H|].
  apply (pgfault_panics_unless_write_to_cow k0 sample_mem 0x1000 7).
  right; right. exact H.
Defined.

Lemma pgfault_gives_private_copy_witness :
  page_lookup (env_pgdir (envs k0 (curenv k0))) 0x3004 = Some (22, 0x16805) /\
  page_free_list (phys k0) = 30 :: [31; 32] /\
  exists k' mem' pte',
    pgfault k0 sample_mem 0x3004 7 = (Done k' (Ret 0), mem') /\
    page_lookup (env_pgdir (envs k' (curenv k0))) 0x3004 = Some (30, pte') /\
    Z.land pte' 0xFFF = 7 /\
    mem' 30 = frame100 /\ mem' 22 = frame100.
Proof.
  assert (Hl : page_lookup (env_pgdir (envs k0 (curenv k0))) 0x3004
               = Some (22, 0x16805)) by reflexivity.
  assert (Hfree : page_free_list (phys k0) = 30 :: [31; 32]) by reflexivity.
  split; [exact Hl|]. split; [exact Hfree|].
  destruct (pgfault_gives_private_copy k0 sample_mem 0x3004 7 22 0x16805 30
              [31; 32])
    as (k' & mem' & pte' & Hrun & Hnew & Hlow & Hcopy & Hkeep & _);
    try exact Hl; try exact Hfree.
  { vm_compute. discriminate. }
  { vm_compute. discriminate. }
  { vm_compute. reflexivity. }
  { vm_compute. discriminate. }
  { vm_compute. split; first [discriminate | reflexivity]. }
  { discriminate. }
  { right. discriminate. }
  exists k', mem', pte'. split; [exact Hrun|]. split; [exact Hnew|].
  split; [exact Hlow|]. split; [rewrite Hcopy; reflexivity|].
  rewrite (Hkeep 22) by discriminate. reflexivity.
Defined.

Lemma output_packet_never_panics_witness :
  tx_ring_ok dev0 /\
  0 <= 3 <= MAX_ETHERNET_PACKET_SIZE /\
  exists d', output_packet 1 (fun d => d) dev0 pkt3 3 = Some (Poll_done d').
Proof.
  assert (Hlen : 0 <= 3 <= MAX_ETHERNET_PACKET_SIZE)
    by (vm_compute; split; discriminate).
  split; [exact dev0_tx_ring_ok|]. split; [exact Hlen|].
  destruct (output_packet_never_panics (fun d => d) pkt3 3 (fun d H => H) Hlen
              0%nat dev0 dev0_tx_ring_ok) as [_ Hfirst].
  apply Hfirst. exact (dev0_all_done (e1000_dma_io dev0 E1000_TDT)).
Defined.

Lemma dev_rx_lengths_ok : rx_lengths_ok dev_rx.
Proof.
  split; [split; reflexivity|].
  intros i desc H. apply at_index_In in H.
  assert (Hall : forallb (fun r => rxd_length r <=? E1000_RX_BUFFER_SIZE)
                         (receive_descriptor_ring dev_rx) = true)
    by (vm_compute; reflexivity).
  rewrite forallb_forall in Hall. apply Z.leb_le. apply Hall. exact H.
Qed.

Lemma input_recv_never_panics_witness :
  rx_lengths_ok dev_rx /\
  exists d',
    input_recv 1 (fun d => d) dev_rx (replicate 4092 x00%byte) 0
      = Some (Poll_done d', frame100 ++ replicate 3992 x00%byte, 100).
Proof.
  split; [exact dev_rx_lengths_ok|].
  destruct (input_recv_never_panics (fun d => d) (fun d H => H) 0%nat dev_rx
              (replicate 4092 x00%byte) 0 dev_rx_lengths_ok) as [_ Hfirst].
  destruct (Hfirst dev_rx_desc dev_rx_buf) as [d' Hrun];
    [reflexivity|reflexivity|vm_compute; discriminate|].
  exists d'. rewrite Hrun. reflexivity.
Defined.

End MoreInstances.
